(** * Taskcluster queue: task lifecycle end-points of [services/queue/src/api.js]

    A shallow embedding of the request handlers that create, schedule,
    rerun, cancel, reclaim and resolve tasks, together with the properties
    the specification states about them.

    Conventions of the embedding.
    - Timestamps are instants in milliseconds since the epoch ([Z]), i.e. the
      value of [new Date(x).getTime()]; two textual encodings of one instant
      are therefore identified, which is what the handlers obtain by
      re-encoding every date with [toJSON].
    - A handler reads the clock several times ([new Date()], [Date.now()]);
      all reads of one request see the same instant [now].
    - Entity tables are finite maps; [task.modify] applies its modifier once
      to the loaded row and stores the result (no concurrent writer).
      [Task.create] fails with PropertyTooLarge for a definition the store
      finds too large, with EntityAlreadyExists for a task id that has a
      row, and creates the row otherwise.
    - Calls on [queueService] and [publisher] are recorded, in program order,
      in the [log] of the context.
    - [req.authorize] is an external collaborator and is taken to succeed. *)

From stdpp Require Import gmap strings list fin_maps.

Local Open Scope string_scope.
Local Open Scope list_scope.
Local Open Scope Z_scope.

(** ** Constants *)

(** Maximum number runs allowed *)
Definition MAX_RUNS_ALLOWED : Z := 50.

Inductive Priority :=
| highest | very_high | high | medium | low | very_low | lowest | normal.

(** Priority levels in order from high to low *)
Definition PRIORITY_LEVELS : list Priority :=
  [highest; very_high; high; medium; low; very_low; lowest].

(** ** Data model *)

(** State of a run; [unscheduled] is the state of a task without runs and
    the state of the placeholder [{state: 'unscheduled'}] the handlers use. *)
Inductive State :=
| unscheduled | pending | running | completed | failed | exception.

Inductive ReasonCreated :=
| rc_scheduled | rc_retry | rc_task_retry | rc_rerun | rc_exception.

Inductive ReasonResolved :=
| rr_completed | rr_failed | rr_deadline_exceeded | rr_canceled
| rr_superseded | rr_claim_expired | rr_worker_shutdown
| rr_malformed_payload | rr_resource_unavailable | rr_internal_error
| rr_intermittent_task.

Inductive Requires := all_completed | all_resolved.

#[global] Instance Priority_eq_dec : EqDecision Priority.
Proof. solve_decision. Defined.
#[global] Instance State_eq_dec : EqDecision State.
Proof. solve_decision. Defined.
#[global] Instance ReasonCreated_eq_dec : EqDecision ReasonCreated.
Proof. solve_decision. Defined.
#[global] Instance ReasonResolved_eq_dec : EqDecision ReasonResolved.
Proof. solve_decision. Defined.
#[global] Instance Requires_eq_dec : EqDecision Requires.
Proof. solve_decision. Defined.

(** One entry of [task.runs]; absent properties are [None]. *)
Record Run := mkRun {
  state : State;
  reasonCreated : ReasonCreated;
  reasonResolved : option ReasonResolved;
  scheduled : Z;
  started : option Z;
  resolved : option Z;
  run_takenUntil : option Z;
  workerGroup : option string;
  workerId : option string;
}.

#[global] Instance Run_eq_dec : EqDecision Run.
Proof. solve_decision. Defined.

(** The task definition as it arrives in the request body (after schema
    defaults): [taskGroupId] and [expires] are optional. *)
Record TaskDef := mkTaskDef {
  provisionerId : string;
  workerType : string;
  schedulerId : string;
  taskGroupId : option string;
  dependencies : list string;
  requires : Requires;
  routes : list string;
  priority : Priority;
  retries : Z;
  created : Z;
  deadline : Z;
  expires : option Z;
  scopes : list string;
  payload : string;
  metadata : string;
  tags : string;
  extra : string;
}.

#[global] Instance TaskDef_eq_dec : EqDecision TaskDef.
Proof. solve_decision. Defined.

(** A row of the Task table: the properties copied from the definition at
    creation (kept together as [definition]) and the mutable part. *)
Record TaskEntity := mkTask {
  taskId : string;
  definition : TaskDef;
  retriesLeft : Z;
  runs : list Run;
  takenUntil : Z;
}.

#[global] Instance TaskEntity_eq_dec : EqDecision TaskEntity.
Proof. solve_decision. Defined.

Record TaskGroupEntity := mkTaskGroup {
  tg_schedulerId : string;
  tg_expires : Z;
}.

Record ArtifactEntity := mkArtifact {
  art_taskId : string;
  art_runId : nat;
  art_name : string;
  storageType : string;
  present : bool;
}.

(** Fields of the definition read off a task row. *)
Definition task_deadline (t : TaskEntity) : Z := deadline (definition t).
Definition task_expires (t : TaskEntity) : Z :=
  default 0 (expires (definition t)).
Definition task_retries (t : TaskEntity) : Z := retries (definition t).
Definition task_schedulerId (t : TaskEntity) : string :=
  schedulerId (definition t).
Definition task_taskGroupId (t : TaskEntity) : string :=
  default (taskId t) (taskGroupId (definition t)).

(** [_.last(task.runs)] *)
Definition last_run (rs : list Run) : option Run := last rs.

(** Modelled from the spec: [task.state()] of the entity class, which is not
    part of the sources; "unscheduled if no runs; otherwise the state of the
    last run". *)
Definition task_state (t : TaskEntity) : State :=
  match last_run (runs t) with
  | Some r => state r
  | None => unscheduled
  end.

(** Modelled from the spec: [task.status()] of the entity class, the task
    status structure returned by every end-point. *)
Record TaskStatus := mkStatus {
  st_taskId : string;
  st_provisionerId : string;
  st_workerType : string;
  st_schedulerId : string;
  st_taskGroupId : string;
  st_deadline : Z;
  st_expires : Z;
  st_retriesLeft : Z;
  st_state : State;
  st_runs : list Run;
}.

Definition status (t : TaskEntity) : TaskStatus :=
  {| st_taskId := taskId t;
     st_provisionerId := provisionerId (definition t);
     st_workerType := workerType (definition t);
     st_schedulerId := task_schedulerId t;
     st_taskGroupId := task_taskGroupId t;
     st_deadline := task_deadline t;
     st_expires := task_expires t;
     st_retriesLeft := retriesLeft t;
     st_state := task_state t;
     st_runs := runs t |}.

(** Updates of a task row. *)
Definition set_runs (rs : list Run) (t : TaskEntity) : TaskEntity :=
  {| taskId := taskId t; definition := definition t;
     retriesLeft := retriesLeft t; runs := rs; takenUntil := takenUntil t |}.
Definition set_retriesLeft (n : Z) (t : TaskEntity) : TaskEntity :=
  {| taskId := taskId t; definition := definition t;
     retriesLeft := n; runs := runs t; takenUntil := takenUntil t |}.
Definition set_takenUntil (u : Z) (t : TaskEntity) : TaskEntity :=
  {| taskId := taskId t; definition := definition t;
     retriesLeft := retriesLeft t; runs := runs t; takenUntil := u |}.

(** [task.runs.push(r)] *)
Definition push_run (r : Run) (t : TaskEntity) : TaskEntity :=
  set_runs (runs t ++ [r]) t.

(** A freshly pushed run [{state, reasonCreated, scheduled}]. *)
Definition new_run (s : State) (rc : ReasonCreated) (now : Z) : Run :=
  mkRun s rc None now None None None None None.

(** ** Errors and replies *)

(** Error codes of [res.reportError]; an exception thrown by a handler (a
    failed [assert], a property read on [undefined]) reaches the caller as
    [InternalServerError]. *)
Inductive ErrorCode :=
| InputError | RequestConflict | ResourceNotFound | InternalServerError.

#[global] Instance ErrorCode_eq_dec : EqDecision ErrorCode.
Proof. solve_decision. Defined.

Record ErrorDetail := mkError { code : ErrorCode; message : string }.

(** What the handler sends: [res.reply(x)] or [res.reportError(code, ...)]. *)
Inductive Response (A : Type) :=
| Reply (a : A)
| ReportError (e : ErrorDetail).
Arguments Reply {A} a.
Arguments ReportError {A} e.

Definition is_error {A} (c : ErrorCode) (r : Response A) : Prop :=
  match r with
  | ReportError e => code e = c
  | Reply _ => False
  end.

(** ** Calendar arithmetic of [Date]

    [expires.setFullYear(expires.getFullYear() + 1)] keeps month, day and
    time of day and lets the day overflow into the next month (29 February
    becomes 1 March).  Days are counted from 1970-01-01, the calendar is the
    proleptic Gregorian one, the time zone is UTC. *)
Definition msPerDay : Z := 86400000.

Definition days_from_civil (y m d : Z) : Z :=
  let y' := if m <=? 2 then y - 1 else y in
  let mp := if 2 <? m then m - 3 else m + 9 in
  365 * y' + y' / 4 - y' / 100 + y' / 400 + (153 * mp + 2) / 5 + d - 1 - 719468.

Definition civil_from_days (z : Z) : Z * Z * Z :=
  let z := z + 719468 in
  let era := z / 146097 in
  let doe := z - era * 146097 in
  let yoe := (doe - doe / 1460 + doe / 36524 - doe / 146096) / 365 in
  let y := yoe + era * 400 in
  let doy := doe - (365 * yoe + yoe / 4 - yoe / 100) in
  let mp := (5 * doy + 2) / 153 in
  let d := doy - (153 * mp + 2) / 5 + 1 in
  let m := if mp <? 10 then mp + 3 else mp - 9 in
  (if m <=? 2 then y + 1 else y, m, d).

Definition addFullYear (t : Z) : Z :=
  let '(y, m, d) := civil_from_days (t / msPerDay) in
  days_from_civil (y + 1) m d * msPerDay + t mod msPerDay.

(** ** Validation of the definition *)

Definition minutes15 : Z := 15 * 60 * 1000.
Definition days5 : Z := 5 * 24 * 60 * 60 * 1000.

(** Assignments to properties of [taskDef]. *)
Definition set_taskGroupId (g : option string) (d : TaskDef) : TaskDef :=
  mkTaskDef (provisionerId d) (workerType d) (schedulerId d) g
    (dependencies d) (requires d) (routes d) (priority d) (retries d)
    (created d) (deadline d) (expires d) (scopes d) (payload d) (metadata d)
    (tags d) (extra d).
Definition set_expires (e : option Z) (d : TaskDef) : TaskDef :=
  mkTaskDef (provisionerId d) (workerType d) (schedulerId d) (taskGroupId d)
    (dependencies d) (requires d) (routes d) (priority d) (retries d)
    (created d) (deadline d) e (scopes d) (payload d) (metadata d)
    (tags d) (extra d).
Definition set_priority (p : Priority) (d : TaskDef) : TaskDef :=
  mkTaskDef (provisionerId d) (workerType d) (schedulerId d) (taskGroupId d)
    (dependencies d) (requires d) (routes d) p (retries d)
    (created d) (deadline d) (expires d) (scopes d) (payload d) (metadata d)
    (tags d) (extra d).
Definition set_dependencies (l : list string) (d : TaskDef) : TaskDef :=
  mkTaskDef (provisionerId d) (workerType d) (schedulerId d) (taskGroupId d)
    l (requires d) (routes d) (priority d) (retries d)
    (created d) (deadline d) (expires d) (scopes d) (payload d) (metadata d)
    (tags d) (extra d).

(** Construct default values and validate dates.  The function mutates
    [taskDef] and returns the error detail or [null]; here it returns both
    the detail and the definition as it is left behind. *)
Definition patchAndValidateTaskDef (taskId : string) (taskDef : TaskDef)
    (now : Z) : option ErrorDetail * TaskDef :=
  (* Set taskGroupId to taskId if not provided *)
  let taskDef :=
    match taskGroupId taskDef with
    | Some _ => taskDef
    | None => set_taskGroupId (Some taskId) taskDef
    end in
  (* Ensure: created < now < deadline (with drift up to 15 min) *)
  let created_ := created taskDef in
  let deadline_ := deadline taskDef in
  if created_ <? now - minutes15 then
    (Some (mkError InputError
       "Created timestamp cannot be in the past (max 15min drift)"), taskDef)
  else if now + minutes15 <? created_ then
    (Some (mkError InputError
       "Created timestamp cannot be in the future (max 15min drift)"), taskDef)
  else if deadline_ <? created_ then
    (Some (mkError InputError "Deadline cannot be past created"), taskDef)
  else if deadline_ <? now then
    (Some (mkError InputError "Deadline cannot be in the past"), taskDef)
  else
    let msToDeadline := deadline_ - now in
    (* Validate that deadline is less than 5 days from now, allow 15 min drift *)
    if days5 + minutes15 <? msToDeadline then
      (Some (mkError InputError
         "Deadline cannot be more than 5 days into the future"), taskDef)
    else
      (* Set expires, if not defined *)
      let taskDef :=
        match expires taskDef with
        | Some _ => taskDef
        | None => set_expires (Some (addFullYear deadline_)) taskDef
        end in
      (* Validate that expires is past deadline *)
      if default 0 (expires taskDef) <? deadline_ then
        (Some (mkError InputError "Expires cannot be before the deadline"),
         taskDef)
      else
        (* Migrate normal -> lowest, as it is the new default *)
        let taskDef :=
          if decide (priority taskDef = normal)
          then set_priority lowest taskDef
          else taskDef in
        (None, taskDef).

(** ** Context of the API and recorded effects *)

Inductive Exchange :=
| taskDefined | taskPending | taskRunning
| taskCompleted | taskFailed | taskException.

(** A call on [queueService] (a message put on a queue) or on [publisher]
    (a message published on an exchange, with the status it carries). *)
Inductive Effect :=
| putDeadlineMessage (taskId taskGroupId schedulerId : string) (deadline : Z)
| putPendingMessage (taskId : string) (runId : nat)
| putClaimMessage (taskId : string) (runId : nat) (takenUntil : Z)
| putResolvedMessage (taskId taskGroupId schedulerId : string)
    (resolution : State)
| publish (e : Exchange) (st : TaskStatus) (runId : option nat).

(** Modelled from the spec: the row store behind the entity classes, as far
    as the handlers see it.  The tables hold the rows; [Task.create] fails
    with code PropertyTooLarge for a definition with "oversize properties"
    (field [propertyTooLarge]).  The other fields are the configuration the
    handlers read and the calls they have made. *)
Record Context := mkCtx {
  Task : gmap string TaskEntity;
  TaskGroup : gmap string TaskGroupEntity;
  TaskGroupMember : gmap (string * string) Z;
  TaskGroupActiveSet : gmap (string * string) Z;
  TaskDependency : gmap (string * string) Requires;
  Artifact : list ArtifactEntity;
  taskGroupExpiresExtension : Z;
  claimTimeout : Z;
  (* Modelled from the spec: [Task.create] of the entity class, which is not
     part of the sources, fails with code PropertyTooLarge for a definition
     with "oversize properties"; the verdict is the store's, given before it
     looks for an existing row. *)
  propertyTooLarge : TaskDef → bool;
  log : list Effect;
}.

Definition set_Task (m : gmap string TaskEntity) (c : Context) : Context :=
  mkCtx m (TaskGroup c) (TaskGroupMember c) (TaskGroupActiveSet c)
    (TaskDependency c) (Artifact c) (taskGroupExpiresExtension c)
    (claimTimeout c) (propertyTooLarge c) (log c).
Definition set_TaskGroup (m : gmap string TaskGroupEntity) (c : Context)
    : Context :=
  mkCtx (Task c) m (TaskGroupMember c) (TaskGroupActiveSet c)
    (TaskDependency c) (Artifact c) (taskGroupExpiresExtension c)
    (claimTimeout c) (propertyTooLarge c) (log c).
Definition set_TaskGroupMember (m : gmap (string * string) Z) (c : Context)
    : Context :=
  mkCtx (Task c) (TaskGroup c) m (TaskGroupActiveSet c)
    (TaskDependency c) (Artifact c) (taskGroupExpiresExtension c)
    (claimTimeout c) (propertyTooLarge c) (log c).
Definition set_TaskGroupActiveSet (m : gmap (string * string) Z)
    (c : Context) : Context :=
  mkCtx (Task c) (TaskGroup c) (TaskGroupMember c) m
    (TaskDependency c) (Artifact c) (taskGroupExpiresExtension c)
    (claimTimeout c) (propertyTooLarge c) (log c).
Definition set_TaskDependency (m : gmap (string * string) Requires)
    (c : Context) : Context :=
  mkCtx (Task c) (TaskGroup c) (TaskGroupMember c) (TaskGroupActiveSet c)
    m (Artifact c) (taskGroupExpiresExtension c)
    (claimTimeout c) (propertyTooLarge c) (log c).

(** Record effects, in order, after those already recorded. *)
Definition emit (es : list Effect) (c : Context) : Context :=
  mkCtx (Task c) (TaskGroup c) (TaskGroupMember c) (TaskGroupActiveSet c)
    (TaskDependency c) (Artifact c) (taskGroupExpiresExtension c)
    (claimTimeout c) (propertyTooLarge c) (log c ++ es).

(** [task.modify(f)] on the row of [task]: the row is replaced by the
    modified task. *)
Definition store_task (k : string) (t : TaskEntity) (c : Context) : Context :=
  set_Task (<[k := t]> (Task c)) c.

(** [res.reportError] inside a callback sends the response without leaving
    the handler; whatever the handler sends afterwards is lost, the caller
    sees the first response. *)
Definition respond {A} (reported : option ErrorDetail) (r : Response A)
    : Response A :=
  match reported with
  | Some e => ReportError e
  | None => r
  end.

(** [s.endsWith(suffix)] *)
Definition endsWith (suffix s : string) : bool :=
  let n := String.length s in
  let k := String.length suffix in
  (k <=? n)%nat && bool_decide (String.substring (n - k) k s = suffix).

(** ** Task groups *)

(** Outcome of [ensureTaskGroup]: it returned [false] after reporting a
    conflict, or it returned [true], in which case the handler of the
    ActiveSet collision may have reported an error through [res]. *)
Inductive GroupResult :=
| GroupConflict (e : ErrorDetail)
| GroupOk (reported : option ErrorDetail).

(** Ensure the taskGroup exists and that membership is declared. *)
Definition ensureTaskGroup (ctx : Context) (taskId : string)
    (taskDef : TaskDef) : GroupResult * Context :=
  let taskGroupId_ := default taskId (taskGroupId taskDef) in
  let expires_ := default 0 (expires taskDef) in
  let taskGroupExpiration :=
    expires_ + taskGroupExpiresExtension ctx * 1000 in
  let '(taskGroup, ctx) :=
    match TaskGroup ctx !! taskGroupId_ with
    | Some g => (g, ctx)
    | None =>
        let g := mkTaskGroup (schedulerId taskDef) taskGroupExpiration in
        (g, set_TaskGroup (<[taskGroupId_ := g]> (TaskGroup ctx)) ctx)
    end in
  if bool_decide (tg_schedulerId taskGroup ≠ schedulerId taskDef) then
    (GroupConflict (mkError RequestConflict
       "All tasks in the same task-group must have the same schedulerId."),
     ctx)
  else
    (* Update taskGroup.expires if necessary *)
    let ctx :=
      if tg_expires taskGroup <? expires_ then
        set_TaskGroup
          (<[taskGroupId_ :=
               mkTaskGroup (tg_schedulerId taskGroup) taskGroupExpiration]>
             (TaskGroup ctx)) ctx
      else ctx in
    (* Ensure the group membership relation is constructed too *)
    let ctx :=
      match TaskGroupMember ctx !! (taskGroupId_, taskId) with
      | None =>
          set_TaskGroupMember
            (<[(taskGroupId_, taskId) := expires_]> (TaskGroupMember ctx)) ctx
      | Some _ => ctx
      end in
    (* Now we also add the task to the group size counters as well *)
    match TaskGroupActiveSet ctx !! (taskGroupId_, taskId) with
    | None =>
        (GroupOk None,
         set_TaskGroupActiveSet
           (<[(taskGroupId_, taskId) := expires_]> (TaskGroupActiveSet ctx))
           ctx)
    | Some active =>
        if bool_decide (active ≠ expires_) then
          (GroupOk (Some (mkError RequestConflict
             "taskId `{{taskId}}` already used by another task.")), ctx)
        else (GroupOk None, ctx)
    end.

(** ** Dependency tracker *)

(** Modelled from the spec: [dependencyTracker.scheduleTask], whose source
    file is not part of the sources.  "Appends a pending run with
    reasonCreated=scheduled iff the task is currently unscheduled; emits a
    pending message and a task-pending event.  Returns the task's status.
    Returns a sentinel null when the task is past deadline."  The modifier
    alone: *)
Definition scheduleTask_modify (now : Z) (task : TaskEntity) : TaskEntity :=
  match runs task with
  | [] => push_run (new_run pending rc_scheduled now) task
  | _ :: _ => task
  end.

(** Modelled from the spec: [dependencyTracker.scheduleTask] on a loaded
    task; returns the status (or [None] for null), the context and the task
    object as the call leaves it. *)
Definition dt_scheduleTask (ctx : Context) (task : TaskEntity) (now : Z)
    : option TaskStatus * Context * TaskEntity :=
  if task_deadline task <? now then (None, ctx, task)
  else
    match runs task with
    | [] =>
        let task := scheduleTask_modify now task in
        let ctx := store_task (taskId task) task ctx in
        let ctx :=
          emit [putPendingMessage (taskId task) 0;
                publish taskPending (status task) (Some 0%nat)] ctx in
        (Some (status task), ctx, task)
    | _ :: _ => (Some (status task), ctx, task)
    end.

(** Modelled from the spec: whether a dependency counts as resolved for the
    dependent: "requires=all-completed: only completed decrements the
    counter; requires=all-resolved: any terminal state decrements the
    counter". *)
Definition dependency_satisfied (ctx : Context) (req : Requires)
    (dep : string) : bool :=
  match Task ctx !! dep with
  | Some t =>
      match task_state t with
      | completed => true
      | failed | exception => bool_decide (req = all_resolved)
      | _ => false
      end
  | None => false
  end.

(** Modelled from the spec: [dependencyTracker.trackDependencies]: "1. For
    each dep, verify it exists; report an InputError if missing.  2. Write
    forward edges.  3. If the counter is already 0, call scheduleTask."
    Returns the error (or [None]), the context and the task object. *)
Definition trackDependencies (ctx : Context) (task : TaskEntity) (now : Z)
    : option ErrorDetail * Context * TaskEntity :=
  let deps := dependencies (definition task) in
  let req := requires (definition task) in
  if existsb (fun dep => bool_decide (Task ctx !! dep = None)) deps then
    (Some (mkError InputError "Dependencies must exist"), ctx, task)
  else
    let ctx :=
      set_TaskDependency
        (foldr (fun dep m => <[(taskId task, dep) := req]> m)
           (TaskDependency ctx) deps) ctx in
    if forallb (dependency_satisfied ctx req) deps then
      let '(_, ctx, task) := dt_scheduleTask ctx task now in
      (None, ctx, task)
    else (None, ctx, task).

(** ** Creation of tasks *)

(** The part of [createTask] after the Task entity is created or reloaded:
    track dependencies, publish messages, reply. *)
Definition createTask_publish (ctx : Context) (task : TaskEntity)
    (reported : option ErrorDetail) (now : Z)
    : Response TaskStatus * Context :=
  (* Track dependencies, if not already scheduled *)
  let '(err, ctx, task) :=
    if bool_decide (task_state task = unscheduled)
    then trackDependencies ctx task now
    else (None, ctx, task) in
  match err with
  | Some e => (respond reported (ReportError (mkError InputError (message e))),
               ctx)
  | None =>
      (* Construct task status, as we'll return this many times *)
      let status_ := status task in
      let runZeroState :=
        match runs task !! 0%nat with
        | Some r => state r
        | None => unscheduled
        end in
      if bool_decide (runZeroState ≠ unscheduled)
         && bool_decide (runZeroState ≠ pending)
      then (respond reported (Reply status_), ctx)
      else
        (* Publish task-defined message *)
        let ctx := emit [publish taskDefined status_ None] ctx in
        (* If first run is pending we publish messages about this *)
        let ctx :=
          if bool_decide (runZeroState = pending) then
            emit [putPendingMessage (taskId task) 0;
                  publish taskPending status_ (Some 0%nat)] ctx
          else ctx in
        (respond reported (Reply status_), ctx)
  end.

(** The entity [createTask] hands to [Task.create]. *)
Definition createTask_entity (taskId : string) (taskDef : TaskDef) (now : Z)
    : TaskEntity :=
  let runs_ :=
    match dependencies taskDef with
    | [] => [new_run pending rc_scheduled now]
    | _ :: _ => []
    end in
  mkTask taskId taskDef (retries taskDef) runs_ 0.

(** Create tasks: the handler of [PUT /task/:taskId]. *)
Definition createTask (ctx : Context) (taskId : string) (taskDef : TaskDef)
    (now : Z) : Response TaskStatus * Context :=
  (* Patch default values and validate timestamps *)
  let '(detail, taskDef) := patchAndValidateTaskDef taskId taskDef now in
  match detail with
  | Some d => (ReportError d, ctx)
  | None =>
      if existsb (endsWith "**") (scopes taskDef) then
        (ReportError (mkError InputError "scopes must not end with `**`"),
         ctx)
      else
        (* Ensure group membership is declared, and that schedulerId isn't
           conflicting *)
        match ensureTaskGroup ctx taskId taskDef with
        | (GroupConflict e, ctx) => (ReportError e, ctx)
        | (GroupOk reported, ctx) =>
          (* Insert entry in deadline queue *)
          let ctx :=
            emit [putDeadlineMessage taskId
                    (default taskId (taskGroupId taskDef))
                    (schedulerId taskDef) (deadline taskDef)] ctx in
          (* Try to create Task entity *)
          if propertyTooLarge ctx taskDef then
            (* err.code === 'PropertyTooLarge' *)
            (respond reported
               (ReportError (mkError InputError "PropertyTooLarge")), ctx)
          else
          match Task ctx !! taskId with
          | None =>
              (* Add run if there is no dependencies *)
              let task := createTask_entity taskId taskDef now in
              createTask_publish (store_task taskId task ctx) task reported
                now
          | Some task =>
              (* EntityAlreadyExists: compare the two task definitions *)
              if bool_decide (taskDef ≠ definition task) then
                (respond reported
                   (ReportError (mkError RequestConflict
                      "taskId `{{taskId}}` already used by another task.")),
                 ctx)
              else createTask_publish ctx task reported now
          end
        end
  end.

(** The part of [defineTask] after the Task entity is created or reloaded. *)
Definition defineTask_publish (ctx : Context) (task : TaskEntity)
    (reported : option ErrorDetail) (now : Z)
    : Response TaskStatus * Context :=
  let unsched := bool_decide (task_state task = unscheduled) in
  let '(err, ctx, task) :=
    if unsched then trackDependencies ctx task now else (None, ctx, task) in
  match err with
  | Some e =>
      (respond reported (ReportError (mkError InputError (message e))), ctx)
  | None =>
      (* Validate sanity... *)
      if unsched && bool_decide (task_state task ≠ unscheduled) then
        (respond reported
           (ReportError (mkError InternalServerError
              "task should be unscheduled here!")), ctx)
      else
        let status_ := status task in
        (* If runs are present, then we don't need to publish messages *)
        if (0 <? length (runs task))%nat then
          (respond reported (Reply status_), ctx)
        else
          (* Publish task-defined message *)
          let ctx := emit [publish taskDefined status_ None] ctx in
          (respond reported (Reply status_), ctx)
  end.

(** The entity [defineTask] hands to [Task.create]. *)
Definition defineTask_entity (taskId : string) (taskDef : TaskDef)
    : TaskEntity :=
  mkTask taskId taskDef (retries taskDef) [] 0.

(** [if (!_.includes(taskDef.dependencies, taskId))
      taskDef.dependencies = _.flatten([taskId, taskDef.dependencies])] *)
Definition self_dependent (taskId : string) (taskDef : TaskDef) : TaskDef :=
  if bool_decide (taskId ∈ dependencies taskDef) then taskDef
  else set_dependencies (taskId :: dependencies taskDef) taskDef.

(** Define tasks: the handler of [POST /task/:taskId/define]. *)
Definition defineTask (ctx : Context) (taskId : string) (taskDef : TaskDef)
    (now : Z) : Response TaskStatus * Context :=
  (* Patch default values and validate timestamps *)
  let '(detail, taskDef) := patchAndValidateTaskDef taskId taskDef now in
  match detail with
  | Some d => (ReportError d, ctx)
  | None =>
      (* Ensure we have a self-dependency, this is how defineTask works now *)
      let taskDef := self_dependent taskId taskDef in
      match ensureTaskGroup ctx taskId taskDef with
      | (GroupConflict e, ctx) => (ReportError e, ctx)
      | (GroupOk reported, ctx) =>
        (* Insert entry in deadline queue (garbage entries are acceptable) *)
        let ctx :=
          emit [putDeadlineMessage taskId
                  (default taskId (taskGroupId taskDef))
                  (schedulerId taskDef) (deadline taskDef)] ctx in
        (* Try to create Task entity *)
        if propertyTooLarge ctx taskDef then
          (* err.code === 'PropertyTooLarge' *)
          (respond reported
             (ReportError (mkError InputError "PropertyTooLarge")), ctx)
        else
        match Task ctx !! taskId with
        | None =>
            let task := defineTask_entity taskId taskDef in
            defineTask_publish (store_task taskId task ctx) task reported now
        | Some task =>
            if bool_decide (taskDef ≠ definition task) then
              (respond reported
                 (ReportError (mkError RequestConflict
                    "taskId `{{taskId}}` already used by another task.")),
               ctx)
            else defineTask_publish ctx task reported now
        end
      end
  end.

(** Schedule previously defined tasks: the handler of
    [POST /task/:taskId/schedule]. *)
Definition scheduleTask (ctx : Context) (taskId : string) (now : Z)
    : Response TaskStatus * Context :=
  match Task ctx !! taskId with
  | None =>
      (ReportError (mkError ResourceNotFound
         "taskId `{{taskId}}` not found. Are you sure it exists?"), ctx)
  | Some task =>
      (* Attempt to schedule task *)
      match dt_scheduleTask ctx task now with
      | (None, ctx, _) =>
          (* If null it must because deadline is exceeded *)
          (ReportError (mkError RequestConflict
             "Task `{{taskId}}` Can't be scheduled past its deadline"), ctx)
      | (Some status_, ctx, _) => (Reply status_, ctx)
      end
  end.

(** ** Rerun *)

(** [task.runs.length] as a number *)
Definition len (rs : list Run) : Z := Z.of_nat (length rs).

(** State of the last run, [(_.last(task.runs) || {state: 'unscheduled'}).state] *)
Definition last_state (rs : list Run) : State :=
  match last_run rs with
  | Some r => state r
  | None => unscheduled
  end.

(** The modifier [rerunTask] passes to [task.modify]. *)
Definition rerunTask_modify (now : Z) (task : TaskEntity) : TaskEntity :=
  (* Don't modify if there already is an active run *)
  let state_ := last_state (runs task) in
  if bool_decide (state_ = pending) || bool_decide (state_ = running) then task
  (* Don't create more than MAX_RUNS_ALLOWED runs *)
  else if MAX_RUNS_ALLOWED <=? len (runs task) then task
  else
    (* Add a new run *)
    let task := push_run (new_run pending rc_rerun now) task in
    (* Calculate maximum number of retries allowed *)
    let allowedRetries := MAX_RUNS_ALLOWED - len (runs task) in
    (* Reset retries left *)
    let task :=
      set_retriesLeft (Z.min (task_retries task) allowedRetries) task in
    set_takenUntil 0 task.

(** Rerun a previously resolved task: the handler of
    [POST /task/:taskId/rerun]. *)
Definition rerunTask (ctx : Context) (taskId : string) (now : Z)
    : Response TaskStatus * Context :=
  match Task ctx !! taskId with
  | None =>
      (ReportError (mkError ResourceNotFound
         "`{{taskId}}` does not correspond to a task that exists."), ctx)
  | Some task =>
      (* Validate deadline *)
      if task_deadline task <? now then
        (ReportError (mkError RequestConflict
           "Task `{{taskId}}` Can't be rescheduled past it's deadline"), ctx)
      else
        let task := rerunTask_modify now task in
        let ctx := store_task taskId task ctx in
        let state_ := task_state task in
        (* If not running or pending, and we couldn't create more runs then
           we have a conflict *)
        if bool_decide (state_ ≠ pending) && bool_decide (state_ ≠ running)
           && (MAX_RUNS_ALLOWED <=? len (runs task)) then
          (ReportError (mkError RequestConflict
             "Maximum number of runs reached ({{max_runs_allowed}})."), ctx)
        else
          let status_ := status task in
          let ctx :=
            if bool_decide (state_ = pending) then
              let runId := (length (runs task) - 1)%nat in
              emit [putPendingMessage taskId runId;
                    publish taskPending status_ (Some runId)] ctx
            else ctx in
          (Reply status_, ctx)
  end.

(** ** Cancel *)

(** [run.state = s; run.reasonResolved = rr; run.resolved = now] *)
Definition resolve_run (s : State) (rr : ReasonResolved) (now : Z) (r : Run)
    : Run :=
  mkRun s (reasonCreated r) (Some rr) (scheduled r) (started r) (Some now)
    (run_takenUntil r) (workerGroup r) (workerId r).

(** Assignments to the last run of [task.runs], an object shared with the
    array. *)
Definition alter_last (f : Run → Run) (rs : list Run) : list Run :=
  alter f (length rs - 1)%nat rs.

(** The modifier [cancelTask] passes to [task.modify]. *)
Definition cancelTask_modify (now : Z) (task : TaskEntity) : TaskEntity :=
  let state_ := last_state (runs task) in
  (* If we have a pending task or running task, we cancel the ongoing run *)
  let task :=
    if bool_decide (state_ = pending) || bool_decide (state_ = running) then
      set_runs (alter_last (resolve_run exception rr_canceled now) (runs task))
        task
    else task in
  (* If the task wasn't scheduled, we'll add a run and resolved it canceled. *)
  let task :=
    if bool_decide (state_ = unscheduled) then
      push_run
        (mkRun exception rc_exception (Some rr_canceled) now None (Some now)
           None None None) task
    else task in
  (* Clear takenUntil *)
  set_takenUntil 0 task.

(** Cancel a task: the handler of [POST /task/:taskId/cancel]. *)
Definition cancelTask (ctx : Context) (taskId : string) (now : Z)
    : Response TaskStatus * Context :=
  match Task ctx !! taskId with
  | None =>
      (ReportError (mkError ResourceNotFound
         "Task `{{taskId}}` not found. Are you sure it was created?"), ctx)
  | Some task =>
      (* Validate deadline *)
      if task_deadline task <? now then
        (ReportError (mkError RequestConflict
           "Task `{{taskId}}` Can't be canceled past it's deadline"), ctx)
      else
        (* Modify the task *)
        let task := cancelTask_modify now task in
        let ctx := store_task taskId task ctx in
        (* Get the last run, there should always be one *)
        match last_run (runs task) with
        | None =>
            (ReportError (mkError InternalServerError
               "There should exist a run after cancelTask!"), ctx)
        | Some run =>
            (* Construct status object *)
            let status_ := status task in
            (* If the last run was canceled, resolve dependencies and publish
               message *)
            let ctx :=
              if bool_decide (state run = exception)
                 && bool_decide (reasonResolved run = Some rr_canceled) then
                let runId := (length (runs task) - 1)%nat in
                emit [putResolvedMessage taskId (task_taskGroupId task)
                        (task_schedulerId task) exception;
                      publish taskException status_ (Some runId)] ctx
              else ctx in
            (Reply status_, ctx)
        end
  end.

(** ** Reclaim *)

Definition set_run_takenUntil (u : Z) (r : Run) : Run :=
  mkRun (state r) (reasonCreated r) (reasonResolved r) (scheduled r)
    (started r) (resolved r) (Some u) (workerGroup r) (workerId r).

(** [task.runs.length - 1 !== runId || run.state !== 'running'], the guard
    of the modifiers of the worker interface; [run] is [task.runs[runId]]. *)
Definition not_last_running (runId : nat) (task : TaskEntity) : bool :=
  bool_decide (len (runs task) - 1 ≠ Z.of_nat runId)
  || match runs task !! runId with
     | Some run => bool_decide (state run ≠ running)
     | None => true
     end.

(** Whether the modifier of [reclaimTask] gets as far as updating
    [takenUntil] (and putting the claim-expiration message). *)
Definition reclaim_advances (runId : nat) (takenUntil_ : Z)
    (task : TaskEntity) : bool :=
  (* No modifications required if there is no run or run isn't running *)
  if not_last_running runId task then false
  else
    (* Don't update takenUntil if it's further into the future than the one
       we're proposing *)
    match runs task !! runId ≫= run_takenUntil with
    | Some u => negb (takenUntil_ <=? u)
    | None => true
    end.

(** The modifier [reclaimTask] passes to [task.modify]. *)
Definition reclaimTask_modify (runId : nat) (takenUntil_ : Z)
    (task : TaskEntity) : TaskEntity :=
  if reclaim_advances runId takenUntil_ task then
    (* Update takenUntil *)
    let task :=
      set_runs (alter (set_run_takenUntil takenUntil_) runId (runs task))
        task in
    set_takenUntil takenUntil_ task
  else task.

(** Reply of [reclaimTask]; the temporary credentials are minted by an
    external collaborator and left out. *)
Record ReclaimReply := mkReclaimReply {
  rp_status : TaskStatus;
  rp_runId : nat;
  rp_workerGroup : option string;
  rp_workerId : option string;
  rp_takenUntil : Z;
}.

(** Reclaim a task: the handler of
    [POST /task/:taskId/runs/:runId/reclaim]. *)
Definition reclaimTask (ctx : Context) (taskId : string) (runId : nat)
    (now : Z) : Response ReclaimReply * Context :=
  match Task ctx !! taskId with
  | None =>
      (ReportError (mkError ResourceNotFound
         "Task `{{taskId}}` not found. Are you sure it was created?"), ctx)
  | Some task =>
      (* Handle cases where the run doesn't exist *)
      match runs task !! runId with
      | None =>
          (ReportError (mkError ResourceNotFound
             "Run {{runId}} not found on task `{{taskId}}`."), ctx)
      | Some _ =>
          (* Check if task is past deadline *)
          if task_deadline task <=? now then
            (ReportError (mkError RequestConflict
               "Task `{{taskId}}` Can't be reclaimed past its deadline"), ctx)
          else
            (* Set takenUntil to now + claimTimeout *)
            let takenUntil_ := now + claimTimeout ctx * 1000 in
            let ctx :=
              if reclaim_advances runId takenUntil_ task
              then emit [putClaimMessage taskId runId takenUntil_] ctx
              else ctx in
            let task := reclaimTask_modify runId takenUntil_ task in
            let ctx := store_task taskId task ctx in
            (* If run isn't running we had a conflict *)
            if not_last_running runId task then
              (ReportError (mkError RequestConflict
                 "Run {{runId}} on task `{{taskId}}` is resolved or not running."),
               ctx)
            else
              let run := runs task !! runId in
              (Reply (mkReclaimReply (status task) runId
                        (run ≫= workerGroup) (run ≫= workerId) takenUntil_),
               ctx)
      end
  end.

(** ** Resolution by the worker *)

(** The [target] of [resolveTask], 'completed' or 'failed' (the [assert]
    at its head). *)
Inductive Target := target_completed | target_failed.

#[global] Instance Target_eq_dec : EqDecision Target.
Proof. solve_decision. Defined.

(** [run.state = target] *)
Definition target_state (t : Target) : State :=
  match t with target_completed => completed | target_failed => failed end.

(** [run.reasonResolved = target] *)
Definition target_reason (t : Target) : ReasonResolved :=
  match t with target_completed => rr_completed | target_failed => rr_failed end.

(** The query of [resolveTask] on the Artifact table,
    [{taskId, runId, storageType: 'blob', present: false}], finds nothing. *)
Definition haveAllBlobs (ctx : Context) (taskId : string) (runId : nat)
    : bool :=
  negb (existsb
          (fun a =>
             bool_decide (art_taskId a = taskId)
             && bool_decide (art_runId a = runId)
             && bool_decide (storageType a = "blob")
             && bool_decide (present a = false))
          (Artifact ctx)).

(** The modifier [resolveTask] passes to [task.modify]. *)
Definition resolveTask_modify (runId : nat) (target : Target) (now : Z)
    (task : TaskEntity) : TaskEntity :=
  (* No modification if run isn't running or the run isn't last *)
  if not_last_running runId task then task
  else
    (* Update run *)
    let task :=
      set_runs
        (alter (resolve_run (target_state target) (target_reason target) now)
           runId (runs task)) task in
    (* Clear takenUntil on task *)
    set_takenUntil 0 task.

(** Resolve a run of a task as [target] ('completed' or 'failed'). *)
Definition resolveTask (ctx : Context) (taskId : string) (runId : nat)
    (target : Target) (now : Z) : Response TaskStatus * Context :=
  match Task ctx !! taskId with
  | None =>
      (ReportError (mkError ResourceNotFound
         "Task `{{taskId}}` not found. Are you sure it was created?"), ctx)
  | Some task =>
      match runs task !! runId with
      | None =>
          (ReportError (mkError ResourceNotFound
             "Run {{runId}} not found on task `{{taskId}}`."), ctx)
      | Some _ =>
          (* Ensure that all blob artifacts which were created are present
             before allowing resolution as 'completed' *)
          if bool_decide (target = target_completed)
             && negb (haveAllBlobs ctx taskId runId) then
            (ReportError (mkError RequestConflict
               "All blob artifacts must be present to resolve task as completed"),
             ctx)
          else
            let task := resolveTask_modify runId target now task in
            let ctx := store_task taskId task ctx in
            (* If run isn't resolved to target, we had a conflict *)
            if bool_decide (len (runs task) - 1 ≠ Z.of_nat runId)
               || match runs task !! runId with
                  | Some run =>
                      bool_decide (state run ≠ target_state target)
                      || bool_decide
                           (reasonResolved run ≠ Some (target_reason target))
                  | None => true
                  end then
              (ReportError (mkError RequestConflict
                 "Run {{runId}} on task `{{taskId}}` is resolved or not running."),
               ctx)
            else
              (* Update dependency tracker *)
              let ctx :=
                emit [putResolvedMessage taskId (task_taskGroupId task)
                        (task_schedulerId task) (target_state target)] ctx in
              (* Construct status object *)
              let status_ := status task in
              (* Post message about task resolution *)
              let ctx :=
                match target with
                | target_completed =>
                    emit [publish taskCompleted status_ (Some runId)] ctx
                | target_failed =>
                    emit [publish taskFailed status_ (Some runId)] ctx
                end in
              (Reply status_, ctx)
      end
  end.

(** The request body of [reportCompleted] as far as the handler reads it:
    [req.body.success], [None] when absent or not a boolean. *)
Record CompletedBody := mkCompletedBody { success : option bool }.

(** Report task completed: the handler of
    [POST /task/:taskId/runs/:runId/completed]. *)
Definition reportCompleted (ctx : Context) (taskId : string) (runId : nat)
    (body : CompletedBody) (now : Z) : Response TaskStatus * Context :=
  (* Backwards compatibility with very old workers *)
  let target :=
    if bool_decide (success body = Some false)
    then target_failed else target_completed in
  resolveTask ctx taskId runId target now.

(** Report task failed: the handler of
    [POST /task/:taskId/runs/:runId/failed]. *)
Definition reportFailed (ctx : Context) (taskId : string) (runId : nat)
    (now : Z) : Response TaskStatus * Context :=
  resolveTask ctx taskId runId target_failed now.

(** The modifier [reportException] passes to [task.modify]. *)
Definition reportException_modify (runId : nat) (reason : ReasonResolved)
    (now : Z) (task : TaskEntity) : TaskEntity :=
  (* No modification if run isn't running or the run isn't last *)
  if not_last_running runId task then task
  else
    (* Update run *)
    let task :=
      set_runs (alter (resolve_run exception reason now) runId (runs task))
        task in
    (* Clear takenUntil on task *)
    let task := set_takenUntil 0 task in
    (* Add retry, if this is a worker-shutdown and we have retries left *)
    let task :=
      if bool_decide (reason = rr_worker_shutdown) && (0 <? retriesLeft task)
      then
        push_run (new_run pending rc_retry now)
          (set_retriesLeft (retriesLeft task - 1) task)
      else task in
    (* Add task-retry, if this was an intermittent-task and we have retries *)
    let task :=
      if bool_decide (reason = rr_intermittent_task)
         && (0 <? retriesLeft task)
      then
        push_run (new_run pending rc_task_retry now)
          (set_retriesLeft (retriesLeft task - 1) task)
      else task in
    task.

(** Report task exception: the handler of
    [POST /task/:taskId/runs/:runId/exception]. *)
Definition reportException (ctx : Context) (taskId : string) (runId : nat)
    (reason : ReasonResolved) (now : Z) : Response TaskStatus * Context :=
  match Task ctx !! taskId with
  | None =>
      (ReportError (mkError ResourceNotFound
         "Task `{{taskId}}` not found. Are you sure it exists?"), ctx)
  | Some task =>
      match runs task !! runId with
      | None =>
          (ReportError (mkError ResourceNotFound
             "Run {{runId}} not found on task `{{taskId}}`."), ctx)
      | Some _ =>
          let task := reportException_modify runId reason now task in
          let ctx := store_task taskId task ctx in
          (* If run isn't resolved to exception with reason, we had a
             conflict *)
          if match runs task !! runId with
             | None => true
             | Some run =>
                 (Z.of_nat runId + 1 <? len (runs task) - 1)
                 || bool_decide (state run ≠ exception)
                 || bool_decide (reasonResolved run ≠ Some reason)
             end then
            (ReportError (mkError RequestConflict
               "Run {{runId}} on task `{{taskId}}` is resolved or not running."),
             ctx)
          else
            let status_ := status task in
            (* If a newRun was created and it is a retry with state pending
               then we better publish messages about it. *)
            let newRun := runs task !! (runId + 1)%nat in
            if match newRun with
               | Some newRun =>
                   bool_decide (len (runs task) - 1 = Z.of_nat runId + 1)
                   && bool_decide (state newRun = pending)
                   && (bool_decide (reasonCreated newRun = rc_retry)
                       || bool_decide (reasonCreated newRun = rc_task_retry))
               | None => false
               end then
              (Reply status_,
               emit [putPendingMessage taskId (runId + 1)%nat;
                     publish taskPending status_ (Some (runId + 1)%nat)] ctx)
            else
              (* Update dependency tracker, as the task is resolved (no new
                 run); publish message about taskException *)
              (Reply status_,
               emit [putResolvedMessage taskId (task_taskGroupId task)
                       (task_schedulerId task) exception;
                     publish taskException status_ (Some runId)] ctx)
      end
  end.

(** ** Work claimer and resolvers *)

(** Modelled from the spec: the modifier of [workClaimer.claim], whose
    source file is not part of the sources: "if runs[runId].state != pending,
    treat as a ghost.  Otherwise transition run to running, set started=now,
    workerGroup, workerId, takenUntil = now + claimTimeout; set
    task.takenUntil likewise." *)
Definition claim_modify (runId : nat) (workerGroup_ workerId_ : string)
    (claimTimeout_ now : Z) (task : TaskEntity) : TaskEntity :=
  match runs task !! runId with
  | Some run =>
      if bool_decide (state run ≠ pending) then task
      else
        let takenUntil_ := now + claimTimeout_ * 1000 in
        let claimed r :=
          mkRun running (reasonCreated r) (reasonResolved r) (scheduled r)
            (Some now) (resolved r) (Some takenUntil_) (Some workerGroup_)
            (Some workerId_) in
        set_takenUntil takenUntil_
          (set_runs (alter claimed runId (runs task)) task)
  | None => task
  end.

(** Modelled from the spec: the modifier of the claim-expiration resolver:
    "If state==running and run.takenUntil == message.takenUntil, resolve the
    run with reasonResolved=claim-expired as an exception; if retriesLeft >
    0, decrement and append a new pending run (reasonCreated=retry)". *)
Definition claimExpired_modify (runId : nat) (msgTakenUntil now : Z)
    (task : TaskEntity) : TaskEntity :=
  match runs task !! runId with
  | Some run =>
      if bool_decide (state run = running)
         && bool_decide (run_takenUntil run = Some msgTakenUntil) then
        let task :=
          set_runs
            (alter (resolve_run exception rr_claim_expired now) runId
               (runs task)) task in
        if 0 <? retriesLeft task then
          push_run (new_run pending rc_retry now)
            (set_retriesLeft (retriesLeft task - 1) task)
        else task
      else task
  | None => task
  end.

(** Modelled from the spec: the modifier of the deadline resolver: "If
    task.deadline == message.deadline and the task is not resolved, resolve:
    if there is an active pending/running run, mark it exception with
    reasonResolved=deadline-exceeded; if there are no runs, append an
    exception run." *)
Definition deadline_modify (msgDeadline now : Z) (task : TaskEntity)
    : TaskEntity :=
  if bool_decide (task_deadline task = msgDeadline) then
    match last_state (runs task) with
    | pending | running =>
        set_runs
          (alter_last (resolve_run exception rr_deadline_exceeded now)
             (runs task)) task
    | unscheduled =>
        push_run
          (mkRun exception rc_exception (Some rr_deadline_exceeded) now None
             (Some now) None None None) task
    | _ => task
    end
  else task.

(** ** Operations on one task

    Every change of a task row is made by one of the modifiers above.  The
    dependency and resolved resolvers act on a task through
    [scheduleTask_modify] and [cancelTask_modify]. *)
Inductive TaskOp :=
| op_scheduleTask
| op_rerunTask
| op_cancelTask
| op_claim (runId : nat) (workerGroup_ workerId_ : string)
| op_reclaimTask (runId : nat)
| op_resolveTask (runId : nat) (target : Target)
| op_reportException (runId : nat) (reason : ReasonResolved)
| op_claimExpired (runId : nat) (msgTakenUntil : Z)
| op_deadline (msgDeadline : Z).

Definition apply_op (claimTimeout_ now : Z) (op : TaskOp) (task : TaskEntity)
    : TaskEntity :=
  match op with
  | op_scheduleTask => scheduleTask_modify now task
  | op_rerunTask => rerunTask_modify now task
  | op_cancelTask => cancelTask_modify now task
  | op_claim runId wg wi => claim_modify runId wg wi claimTimeout_ now task
  | op_reclaimTask runId =>
      reclaimTask_modify runId (now + claimTimeout_ * 1000) task
  | op_resolveTask runId target => resolveTask_modify runId target now task
  | op_reportException runId reason =>
      reportException_modify runId reason now task
  | op_claimExpired runId u => claimExpired_modify runId u now task
  | op_deadline d => deadline_modify d now task
  end.

(** A run in a terminal state. *)
Definition terminal (s : State) : bool :=
  match s with
  | completed | failed | exception => true
  | unscheduled | pending | running => false
  end.

(** The invariants the specification states for a task. *)
Definition spec_invariant (t : TaskEntity) : Prop :=
  0 <= retriesLeft t <= task_retries t ∧ len (runs t) <= MAX_RUNS_ALLOWED.

(** The invariant the modifiers maintain: the retries left never exceed the
    runs that may still be created. *)
Definition task_invariant (t : TaskEntity) : Prop :=
  0 <= retriesLeft t <= task_retries t
  ∧ len (runs t) + retriesLeft t <= MAX_RUNS_ALLOWED.

(** [runs] is append-only: every run keeps its index, its origin, and, once
    in a terminal state, all of its properties. *)
Definition append_only (old new : list Run) : Prop :=
  ∀ (i : nat) (r : Run), old !! i = Some r →
    ∃ r', new !! i = Some r'
          ∧ reasonCreated r' = reasonCreated r
          ∧ scheduled r' = scheduled r
          ∧ (terminal (state r) = true → r' = r).

(** The reason a retry run is created with, for the reasons of
    [reportException] that are retried. *)
Definition retry_reason (reason : ReasonResolved) : option ReasonCreated :=
  match reason with
  | rr_worker_shutdown => Some rc_retry
  | rr_intermittent_task => Some rc_task_retry
  | _ => None
  end.

(** Every artifact of storage type [ty] of the run is present. *)
Definition all_present (ty : string) (ctx : Context) (taskId : string)
    (runId : nat) : Prop :=
  ∀ a, a ∈ Artifact ctx → art_taskId a = taskId → art_runId a = runId →
       storageType a = ty → present a = true.

(** ** Concrete inputs *)

(** A store that refuses a definition with a property of more than [limit]
    characters. *)
Definition oversize (limit : Z) (d : TaskDef) : bool :=
  existsb (λ s, limit <? Z.of_nat (String.length s))
    [payload d; metadata d; tags d; extra d].

(** No rows, the configured extension and claim timeout, a store that takes
    properties of up to 256 KiB. *)
Definition empty_ctx : Context :=
  mkCtx ∅ ∅ ∅ ∅ ∅ [] 31536000 1200 (oversize (256 * 1024)) [].

(** The same with a store that takes properties of one character. *)
Definition ctx_small_store : Context :=
  mkCtx ∅ ∅ ∅ ∅ ∅ [] 31536000 1200 (oversize 1) [].

(** 2019-11-02T00:00:00Z *)
Definition now0 : Z := 1572652800000.

(** A task without dependencies, created now, due in an hour, two retries. *)
Definition def0 : TaskDef :=
  mkTaskDef "prov" "wt" "sched" None [] all_completed [] normal 2
    now0 (now0 + 3600000) None ["queue:get-artifact:x"] "{}" "{}" "{}" "{}".

(** The context after [createTask "T1" def0]: run 0 is pending. *)
Definition ctx_pending : Context := snd (createTask empty_ctx "T1" def0 now0).

(** [Artifact.create] *)
Definition add_artifact (a : ArtifactEntity) (c : Context) : Context :=
  mkCtx (Task c) (TaskGroup c) (TaskGroupMember c) (TaskGroupActiveSet c)
    (TaskDependency c) (a :: Artifact c) (taskGroupExpiresExtension c)
    (claimTimeout c) (propertyTooLarge c) (log c).

(** The same a second later, run 0 claimed by worker [wg/w1]. *)
Definition ctx_running : Context :=
  match Task ctx_pending !! "T1" with
  | Some t =>
      store_task "T1"
        (claim_modify 0 "wg" "w1" (claimTimeout ctx_pending) (now0 + 1000) t)
        ctx_pending
  | None => ctx_pending
  end.

(** ** Validation rules

    The rules on the timestamps as the specification words them: created
    within 15 minutes of now, deadline strictly in the future, deadline -
    created at most 5 days plus 15 minutes, expires (deadline + 1 year when
    omitted) at least deadline. *)
Definition spec_timestamps_valid (now : Z) (d : TaskDef) : Prop :=
  now - minutes15 <= created d <= now + minutes15
  ∧ now < deadline d
  ∧ deadline d - created d <= days5 + minutes15
  ∧ deadline d <= default (addFullYear (deadline d)) (expires d).

(** The rules [patchAndValidateTaskDef] checks. *)
Definition timestamps_accepted (now : Z) (d : TaskDef) : Prop :=
  now - minutes15 <= created d <= now + minutes15
  ∧ created d <= deadline d
  ∧ now <= deadline d
  ∧ deadline d - now <= days5 + minutes15
  ∧ deadline d <= default (addFullYear (deadline d)) (expires d).

(** The definition [patchAndValidateTaskDef] leaves behind when it accepts:
    [taskGroupId] and [expires] filled in, priority [normal] migrated. *)
Definition patched (taskId : string) (d : TaskDef) : TaskDef :=
  let d :=
    match taskGroupId d with
    | Some _ => d
    | None => set_taskGroupId (Some taskId) d
    end in
  let d :=
    match expires d with
    | Some _ => d
    | None => set_expires (Some (addFullYear (deadline d))) d
    end in
  if decide (priority d = normal) then set_priority lowest d else d.

(** A definition whose deadline is 5 days and 25 minutes after [created]. *)
Definition def_long : TaskDef :=
  mkTaskDef "prov" "wt" "sched" None [] all_completed [] lowest 2
    (now0 - 15 * 60 * 1000) (now0 + 5 * 24 * 60 * 60 * 1000 + 10 * 60 * 1000)
    None [] "{}" "{}" "{}" "{}".

(** A definition created 10 minutes ahead of now, due 5 minutes ahead. *)
Definition def_early_deadline : TaskDef :=
  mkTaskDef "prov" "wt" "sched" None [] all_completed [] lowest 2
    (now0 + 10 * 60 * 1000) (now0 + 5 * 60 * 1000)
    None [] "{}" "{}" "{}" "{}".

(** ** Task groups

    Every task belongs to a task group whose row carries the task's
    schedulerId; hence all tasks with the same taskGroupId have the same
    schedulerId. *)
Definition group_consistent (ctx : Context) : Prop :=
  ∀ k t, Task ctx !! k = Some t →
    ∃ g, TaskGroup ctx !! task_taskGroupId t = Some g
         ∧ tg_schedulerId g = task_schedulerId t.

(** A definition for group [T1] by another scheduler. *)
Definition def_other_scheduler : TaskDef :=
  mkTaskDef "prov" "wt" "sched2" (Some "T1") [] all_completed [] lowest 2
    now0 (now0 + 3600000) None [] "{}" "{}" "{}" "{}".

(** The run of [ctx_running] and its task row. *)
Definition run_running : Run :=
  mkRun running rc_scheduled None now0 (Some (now0 + 1000)) None
    (Some (now0 + 1000 + 1200 * 1000)) (Some "wg") (Some "w1").

Definition task_running : TaskEntity :=
  mkTask "T1" (patched "T1" def0) 2 [run_running] (now0 + 1000 + 1200 * 1000).

(** [ctx_running] with an artifact of the run that is not present yet. *)
Definition ctx_artifact (ty : string) : Context :=
  add_artifact (mkArtifact "T1" 0 "public/build.tar.gz" ty false) ctx_running.

(** A task at its 50th run, which is running, with one retry left. *)
Definition run_expired : Run :=
  mkRun exception rc_retry (Some rr_claim_expired) now0 (Some now0)
    (Some now0) (Some now0) (Some "wg") (Some "w1").

Definition task_50_runs : TaskEntity :=
  mkTask "T1" (patched "T1" def0) 1 (replicate 49 run_expired ++ [run_running])
    (now0 + 1000 + 1200 * 1000).

Definition ctx_50_runs : Context := store_task "T1" task_50_runs ctx_running.

(** [def0] with a scope that ends in two stars. *)
Definition def_star_scope : TaskDef :=
  mkTaskDef "prov" "wt" "sched" None [] all_completed [] normal 2
    now0 (now0 + 3600000) None ["queue:create-task:**"] "{}" "{}" "{}" "{}".

(** The context after [createTask "T1" def0] with the task canceled. *)
Definition ctx_canceled : Context := snd (cancelTask ctx_pending "T1" (now0 + 1000)).

(** What the dependency tracker and the publishing tail of the creation
    handlers do to the tables: group rows are not touched, and the only task
    row written is the one of the task at hand, with its definition and
    taskId kept. *)
Definition writes_only (task : TaskEntity) (ctx ctx' : Context) : Prop :=
  TaskGroup ctx' = TaskGroup ctx
  ∧ (Task ctx' = Task ctx
     ∨ ∃ t', Task ctx' = <[taskId task := t']> (Task ctx)
             ∧ definition t' = definition task ∧ taskId t' = taskId task).

(** ** Requests of schedulers and workers on existing tasks

    The handlers of [api.js] that change a task row through [task.modify]
    and whose code is complete in the sources. *)
Inductive Request :=
| req_rerunTask (taskId : string)
| req_cancelTask (taskId : string)
| req_reclaimTask (taskId : string) (runId : nat)
| req_reportCompleted (taskId : string) (runId : nat) (body : CompletedBody)
| req_reportFailed (taskId : string) (runId : nat)
| req_reportException (taskId : string) (runId : nat)
    (reason : ReasonResolved).

(** The context a request leaves behind. *)
Definition handle (ctx : Context) (req : Request) (now : Z) : Context :=
  match req with
  | req_rerunTask taskId => (rerunTask ctx taskId now).2
  | req_cancelTask taskId => (cancelTask ctx taskId now).2
  | req_reclaimTask taskId runId => (reclaimTask ctx taskId runId now).2
  | req_reportCompleted taskId runId body =>
      (reportCompleted ctx taskId runId body now).2
  | req_reportFailed taskId runId => (reportFailed ctx taskId runId now).2
  | req_reportException taskId runId reason =>
      (reportException ctx taskId runId reason now).2
  end.

(** Requests served one after the other, each at its own instant. *)
Definition handle_all (ctx : Context) (reqs : list (Request * Z)) : Context :=
  foldl (λ c rq, handle c rq.1 rq.2) ctx reqs.

(** A task row within its budget of runs: the retries left are between 0 and
    [retries], the runs made (at least the one every task gets) and the
    retries left fit into [MAX_RUNS_ALLOWED], and no run carries the
    placeholder state. *)
Definition task_ok (t : TaskEntity) : Prop :=
  0 <= retriesLeft t <= task_retries t
  ∧ Z.max 1 (len (runs t)) + retriesLeft t <= MAX_RUNS_ALLOWED
  ∧ Forall (λ r, state r ≠ unscheduled) (runs t).

Definition tasks_ok (ctx : Context) : Prop :=
  ∀ k t, Task ctx !! k = Some t → task_ok t.

(** How a request may change the row of a task: the identity and the
    definition stay, the runs are only appended to or resolved. *)
Definition task_step (t t' : TaskEntity) : Prop :=
  taskId t' = taskId t ∧ definition t' = definition t
  ∧ append_only (runs t) (runs t').

(** The handler writes the row of [tid] only, applying [f] to it. *)
Definition modifies (f : TaskEntity → TaskEntity) (tid : string)
    (ctx ctx' : Context) : Prop :=
  Task ctx' = Task ctx
  ∨ ∃ t, Task ctx !! tid = Some t ∧ Task ctx' = <[tid := f t]> (Task ctx).

(** The task-group tables hold what [ensureTaskGroup] sets up for the task:
    the group row with the schedulerId of the definition and an expiration
    that covers the task (or is the extended expiration of the task), the
    membership row, and the active-set row with the task's expiration. *)
Definition group_settled (ctx : Context) (taskId : string) (d : TaskDef)
    : Prop :=
  let G := default taskId (taskGroupId d) in
  let E := default 0 (expires d) in
  (∃ g, TaskGroup ctx !! G = Some g
        ∧ tg_schedulerId g = schedulerId d
        ∧ (E <= tg_expires g
           ∨ tg_expires g = E + taskGroupExpiresExtension ctx * 1000))
  ∧ is_Some (TaskGroupMember ctx !! (G, taskId))
  ∧ TaskGroupActiveSet ctx !! (G, taskId) = Some E.

(** ** Authorization of task creation *)

(** [array.indexOf(x)]: the first index of [x], or -1. *)
Definition indexOf (x : Priority) (l : list Priority) : Z :=
  match list_find (λ y, y = x) l with
  | Some (i, _) => Z.of_nat i
  | None => -1
  end.

(** [array.slice(0, n)] for [n >= 0]. *)
Definition slice0 {A} (n : Z) (l : list A) : list A := take (Z.to_nat n) l.

(** The parameters [authorizeTaskCreation] hands to [req.authorize]. *)
Record AuthorizeParams := mkAuthorize {
  legacyScopes : bool;
  au_taskId : string;
  priorities : list Priority;
  au_routes : list string;
  au_scopes : list string;
  au_schedulerId : string;
  au_taskGroupId : string;
  au_provisionerId : string;
  au_workerType : string;
}.

(** Generate the list of acceptable priorities for a task with this
    priority; [None] when the [assert] fails. *)
Definition authorizeTaskCreation (taskId : string) (taskDef : TaskDef)
    : option AuthorizeParams :=
  let priority_ :=
    if decide (priority taskDef = normal) then lowest
    else priority taskDef in
  let priorities_ :=
    slice0 (indexOf priority_ PRIORITY_LEVELS + 1) PRIORITY_LEVELS in
  if (0 <? length priorities_)%nat then
    Some (mkAuthorize (bool_decide (priority_ = lowest)) taskId priorities_
            (routes taskDef) (scopes taskDef) (schedulerId taskDef)
            (default taskId (taskGroupId taskDef)) (provisionerId taskDef)
            (workerType taskDef))
  else None.

(** ** Retries up to the limit of runs *)

(** [def0] with 50 retries. *)
Definition def_50_retries : TaskDef :=
  mkTaskDef "prov" "wt" "sched" None [] all_completed [] normal 50
    now0 (now0 + 3600000) None [] "{}" "{}" "{}" "{}".

(** Run [runId] and the [n - 1] runs after it are claimed, each a second
    after the one before, and each time the worker reports that it shuts
    down. *)
Fixpoint claim_and_shutdown (n : nat) (runId : nat) (now : Z)
    (task : TaskEntity) : TaskEntity :=
  match n with
  | O => task
  | S n' =>
      claim_and_shutdown n' (S runId) (now + 1000)
        (apply_op 1200 now (op_reportException runId rr_worker_shutdown)
           (apply_op 1200 now (op_claim runId "wg" "w1") task))
  end.

(** * Properties *)

(** Case analysis on the innermost scrutinees of the matches in [H]. *)
Ltac destruct_matches H :=
  repeat match type of H with
  | context [match ?x with _ => _ end] =>
      lazymatch x with
      | context [match _ with _ => _ end] => fail
      | _ => destruct x eqn:?
      end
  end.

(** ** Sanity checks of the helpers *)

Example addFullYear_2019 :
  addFullYear 1572652800000 = 1604275200000
  /\ addFullYear 1582934400123 = 1614556800123.
Proof. split; reflexivity. Qed.

Example endsWith_examples :
  endsWith "**" "queue:**" = true /\ endsWith "**" "queue:*" = false
  /\ endsWith "**" "*" = false /\ endsWith "**" "**" = true
  /\ endsWith "**" "a**b" = false.
Proof. repeat split; reflexivity. Qed.


(** [Task.create] failing with PropertyTooLarge: the reply is InputError, no
    task is stored, the group tables are written and the deadline message is
    sent. *)
Example createTask_PropertyTooLarge :
  ∃ e ctx',
    createTask ctx_small_store "T1" def0 now0 = (ReportError e, ctx')
    ∧ code e = InputError
    ∧ Task ctx' = ∅
    ∧ is_Some (TaskGroup ctx' !! "T1")
    ∧ length (log ctx') = 1%nat
    ∧ ∃ e2 ctx2,
        defineTask ctx_small_store "T1" def0 now0 = (ReportError e2, ctx2)
        ∧ code e2 = InputError ∧ Task ctx2 = ∅.
Proof.
  eexists _, _. split; [vm_compute; reflexivity|].
  split; [reflexivity|]. split; [reflexivity|].
  split; [eexists; vm_compute; reflexivity|]. split; [reflexivity|].
  eexists _, _. split; [vm_compute; reflexivity|]. split; reflexivity.
Qed.

(** ** Lists of runs *)

Lemma len_app (l1 l2 : list Run) : len (l1 ++ l2) = len l1 + len l2.
Proof. unfold len. rewrite length_app. lia. Qed.

Lemma len_alter (f : Run → Run) (i : nat) (l : list Run) :
  len (alter f i l) = len l.
Proof. unfold len. by rewrite length_alter. Qed.

Lemma len_nonneg (l : list Run) : 0 <= len l.
Proof. unfold len. lia. Qed.

Lemma alter_as_insert (f : Run → Run) (i : nat) (l : list Run) (r : Run) :
  l !! i = Some r → alter f i l = <[i := f r]> l.
Proof.
  revert i. induction l as [|x l IH]; intros [|i] H; simplify_eq/=; auto.
  f_equal. by apply IH.
Qed.

Lemma last_run_lookup (l : list Run) :
  last_run l = l !! (length l - 1)%nat.
Proof.
  unfold last_run. rewrite last_lookup. f_equal. lia.
Qed.

Lemma last_run_snoc (l : list Run) (r : Run) : last_run (l ++ [r]) = Some r.
Proof. unfold last_run. by rewrite last_snoc. Qed.

(** ** Recorded effects *)

Lemma emit_emit (es1 es2 : list Effect) (c : Context) :
  emit es2 (emit es1 c) = emit (es1 ++ es2) c.
Proof. unfold emit; simpl. by rewrite app_assoc. Qed.

Lemma emit_nil (c : Context) : emit [] c = c.
Proof. unfold emit. rewrite app_nil_r. by destruct c. Qed.

Lemma log_emit (es : list Effect) (c : Context) :
  log (emit es c) = log c ++ es.
Proof. reflexivity. Qed.

(** The guard of the worker modifiers lets the last running run through. *)
Lemma not_last_running_false (runId : nat) (task : TaskEntity) (run : Run) :
  runs task !! runId = Some run →
  length (runs task) = S runId →
  state run = running →
  not_last_running runId task = false.
Proof.
  intros Hrun Hlen Hst. unfold not_last_running, len.
  rewrite Hrun, Hst, Hlen.
  rewrite bool_decide_eq_false_2 by (intros H; apply H; lia).
  by rewrite bool_decide_eq_false_2 by (intros H; by apply H).
Qed.

(** ** reportException *)

(** The task row [reportException] stores for the last, running run: the
    run resolved as exception, and the retry run when one is created. *)
Lemma reportException_modify_running (runId : nat) (reason : ReasonResolved)
    (now : Z) (task : TaskEntity) (run : Run) :
  runs task !! runId = Some run →
  length (runs task) = S runId →
  state run = running →
  reportException_modify runId reason now task =
    let rs := <[runId := resolve_run exception reason now run]> (runs task) in
    match retry_reason reason with
    | Some rc =>
        if 0 <? retriesLeft task
        then mkTask (taskId task) (definition task) (retriesLeft task - 1)
               (rs ++ [new_run pending rc now]) 0
        else mkTask (taskId task) (definition task) (retriesLeft task) rs 0
    | None => mkTask (taskId task) (definition task) (retriesLeft task) rs 0
    end.
Proof.
  intros Hrun Hlen Hst. unfold reportException_modify.
  rewrite (not_last_running_false _ _ _ Hrun Hlen Hst).
  rewrite (alter_as_insert _ _ _ _ Hrun). cbn zeta.
  destruct reason; reflexivity.
Qed.

(** C1: [reportException] on the last run of a task, which is running.  With
    reason worker-shutdown or intermittent-task and [retriesLeft > 0],
    [retriesLeft] drops by one, a pending run with [reasonCreated] retry
    (resp. task-retry) is appended, and exactly a pending message and a
    task-pending event for the new run are emitted (no task-exception).
    With [retriesLeft = 0] (or less), or with any other reason, no run is
    appended and exactly a resolved message and task-exception are
    emitted. *)
Theorem reportException_retries (ctx : Context) (tid : string)
    (runId : nat) (reason : ReasonResolved) (now : Z) (task : TaskEntity)
    (run : Run) :
  Task ctx !! tid = Some task →
  runs task !! runId = Some run →
  length (runs task) = S runId →
  state run = running →
  let rs := <[runId := resolve_run exception reason now run]> (runs task) in
  (∀ rc, retry_reason reason = Some rc → 0 < retriesLeft task →
     let task' :=
       mkTask (taskId task) (definition task) (retriesLeft task - 1)
         (rs ++ [new_run pending rc now]) 0 in
     reportException ctx tid runId reason now =
       (Reply (status task'),
        emit [putPendingMessage tid (S runId);
              publish taskPending (status task') (Some (S runId))]
          (store_task tid task' ctx)))
  ∧ (retry_reason reason = None ∨ retriesLeft task <= 0 →
     let task' :=
       mkTask (taskId task) (definition task) (retriesLeft task) rs 0 in
     reportException ctx tid runId reason now =
       (Reply (status task'),
        emit [putResolvedMessage tid (task_taskGroupId task')
                (task_schedulerId task') exception;
              publish taskException (status task') (Some runId)]
          (store_task tid task' ctx))).
Proof.
  intros Htask Hrun Hlen Hst rs.
  assert (Hrs : length rs = S runId) by (unfold rs; by rewrite length_insert).
  assert (Hrs_run : rs !! runId = Some (resolve_run exception reason now run)).
  { unfold rs. apply list_lookup_insert_eq. lia. }
  split.
  - intros rc Hrc Hpos task'.
    unfold reportException. rewrite Htask, Hrun.
    rewrite (reportException_modify_running _ _ _ _ _ Hrun Hlen Hst).
    cbn zeta. rewrite Hrc. fold rs.
    rewrite (proj2 (Z.ltb_lt _ _) Hpos). fold task'.
    assert (Hl : runs task' !! runId
                 = Some (resolve_run exception reason now run)).
    { simpl. rewrite lookup_app_l by lia. done. }
    assert (Hn : runs task' !! (runId + 1)%nat
                 = Some (new_run pending rc now)).
    { simpl. rewrite lookup_app_r by lia.
      replace (runId + 1 - length rs)%nat with 0%nat by lia. done. }
    rewrite Hl, Hn.
    assert (Hlen' : len (runs task') = Z.of_nat runId + 2).
    { simpl. rewrite len_app. unfold len. rewrite Hrs. simpl. lia. }
    rewrite Hlen'. simpl state. simpl reasonResolved. simpl reasonCreated.
    rewrite (proj2 (Z.ltb_ge _ _)) by lia.
    rewrite !bool_decide_eq_false_2 by (intros H; by apply H).
    rewrite bool_decide_eq_true_2 by lia.
    replace (runId + 1)%nat with (S runId) by lia.
    destruct reason; simplify_eq/=; reflexivity.
  - intros Hno task'.
    unfold reportException. rewrite Htask, Hrun.
    rewrite (reportException_modify_running _ _ _ _ _ Hrun Hlen Hst).
    cbn zeta. fold rs.
    assert (Heq : match retry_reason reason with
                  | Some rc =>
                      if 0 <? retriesLeft task
                      then mkTask (taskId task) (definition task)
                             (retriesLeft task - 1)
                             (rs ++ [new_run pending rc now]) 0
                      else task'
                  | None => task'
                  end = task').
    { destruct (retry_reason reason) as [rc|]; [|done].
      destruct Hno as [?|Hle]; [done|].
      by rewrite (proj2 (Z.ltb_ge _ _)) by lia. }
    fold task'. rewrite Heq.
    assert (Hl : runs task' !! runId
                 = Some (resolve_run exception reason now run)) by done.
    assert (Hn : runs task' !! (runId + 1)%nat = None).
    { simpl. apply lookup_ge_None. lia. }
    rewrite Hl, Hn.
    assert (Hlen' : len (runs task') = Z.of_nat runId + 1).
    { unfold len. simpl. rewrite Hrs. lia. }
    rewrite Hlen'. simpl state. simpl reasonResolved.
    rewrite (proj2 (Z.ltb_ge _ _)) by lia.
    rewrite !bool_decide_eq_false_2 by (intros H; by apply H).
    reflexivity.
Qed.

(** ** cancelTask *)

Lemma store_task_id (ctx : Context) (k : string) (t : TaskEntity) :
  Task ctx !! k = Some t → store_task k t ctx = ctx.
Proof.
  intros H. unfold store_task, set_Task. rewrite (insert_id _ _ _ H).
  by destruct ctx.
Qed.

Lemma set_takenUntil_id (t : TaskEntity) (u : Z) :
  takenUntil t = u → set_takenUntil u t = t.
Proof. intros <-. by destruct t. Qed.

Lemma status_set_takenUntil (t : TaskEntity) (u : Z) :
  status (set_takenUntil u t) = status t.
Proof. reflexivity. Qed.

(** C3, as amended: [cancelTask] on an existing task.  Past the deadline it
    reports RequestConflict and changes nothing.  Otherwise a pending or
    running last run is resolved as exception with [reasonResolved] canceled
    and [resolved] set to now; a task without runs gets the run
    [{state: exception, reasonCreated: exception, reasonResolved: canceled}];
    and with a terminal last run the runs, [retriesLeft] and the definition
    stay as they are and the current status is returned, but the row is
    written back with [takenUntil] cleared (which leaves it unchanged only
    when [takenUntil] is the epoch already), and when that last run was
    resolved as exception with reason canceled the resolved message and
    task-exception are sent once more. *)
Theorem cancelTask_cases (ctx : Context) (tid : string) (now : Z)
    (task : TaskEntity) :
  Task ctx !! tid = Some task →
  (task_deadline task < now →
     ∃ e, cancelTask ctx tid now = (ReportError e, ctx)
          ∧ code e = RequestConflict)
  ∧ (now <= task_deadline task →
     let canceled task' :=
       emit [putResolvedMessage tid (task_taskGroupId task')
               (task_schedulerId task') exception;
             publish taskException (status task')
               (Some (length (runs task') - 1)%nat)]
         (store_task tid task' ctx) in
     (∀ run, last_run (runs task) = Some run →
        state run = pending ∨ state run = running →
        let task' :=
          mkTask (taskId task) (definition task) (retriesLeft task)
            (<[(length (runs task) - 1)%nat :=
                 resolve_run exception rr_canceled now run]> (runs task)) 0 in
        cancelTask ctx tid now = (Reply (status task'), canceled task'))
     ∧ (runs task = [] →
        let task' :=
          mkTask (taskId task) (definition task) (retriesLeft task)
            [mkRun exception rc_exception (Some rr_canceled) now None
               (Some now) None None None] 0 in
        cancelTask ctx tid now = (Reply (status task'), canceled task'))
     ∧ (∀ run, last_run (runs task) = Some run →
        terminal (state run) = true →
        let task' := set_takenUntil 0 task in
        runs task' = runs task
        ∧ retriesLeft task' = retriesLeft task
        ∧ definition task' = definition task
        ∧ status task' = status task
        ∧ (takenUntil task = 0 → store_task tid task' ctx = ctx)
        ∧ cancelTask ctx tid now =
            (Reply (status task),
             if bool_decide (state run = exception)
                && bool_decide (reasonResolved run = Some rr_canceled)
             then canceled task'
             else store_task tid task' ctx))).
Proof.
  intros Htask. split.
  - intros Hdl. eexists. unfold cancelTask. rewrite Htask.
    rewrite (proj2 (Z.ltb_lt _ _) Hdl). split; reflexivity.
  - intros Hdl canceled.
    assert (Hd : (task_deadline task <? now) = false)
      by (apply Z.ltb_ge; lia).
    split; [|split].
    + intros run Hlast Hact task'.
      unfold cancelTask. rewrite Htask, Hd.
      assert (Hmod : cancelTask_modify now task = task').
      { unfold cancelTask_modify, last_state. rewrite Hlast.
        unfold alter_last.
        rewrite (alter_as_insert _ _ _ run)
          by (by rewrite <- last_run_lookup).
        destruct Hact as [-> | ->]; reflexivity. }
      rewrite Hmod.
      assert (Hlast' : last_run (runs task')
                       = Some (resolve_run exception rr_canceled now run)).
      { rewrite last_run_lookup. simpl. rewrite length_insert.
        apply list_lookup_insert_eq.
        rewrite last_run_lookup in Hlast.
        apply lookup_lt_Some in Hlast. lia. }
      rewrite Hlast'. reflexivity.
    + intros Hnil task'.
      unfold cancelTask. rewrite Htask, Hd.
      assert (Hmod : cancelTask_modify now task = task').
      { unfold cancelTask_modify, last_state. rewrite Hnil. simpl.
        unfold push_run, set_runs, set_takenUntil. simpl.
        rewrite Hnil. reflexivity. }
      rewrite Hmod. reflexivity.
    + intros run Hlast Hterm task'.
      repeat split.
      * intros H0. unfold task'. rewrite set_takenUntil_id by done.
        by apply store_task_id.
      * unfold cancelTask. rewrite Htask, Hd.
        assert (Hmod : cancelTask_modify now task = task').
        { unfold cancelTask_modify, last_state. rewrite Hlast.
          destruct (state run); try discriminate; reflexivity. }
        rewrite Hmod.
        change (runs task') with (runs task). rewrite Hlast.
        destruct (bool_decide (state run = exception)
                  && bool_decide (reasonResolved run = Some rr_canceled));
          reflexivity.
Qed.

(** ** resolveTask, reportCompleted, reportFailed *)

Lemma haveAllBlobs_spec (ctx : Context) (tid : string) (runId : nat) :
  haveAllBlobs ctx tid runId = true ↔ all_present "blob" ctx tid runId.
Proof.
  unfold haveAllBlobs, all_present. rewrite negb_true_iff.
  rewrite <- not_true_iff_false, existsb_exists. split.
  - intros Hno a Ha Ht Hr Hs. destruct (present a) eqn:Hp; [done|].
    exfalso. apply Hno. exists a. split; [by apply list_elem_of_In|].
    by rewrite !andb_true_iff, !bool_decide_eq_true.
  - intros Hall (a & Ha & Hc).
    rewrite !andb_true_iff, !bool_decide_eq_true in Hc.
    destruct Hc as [[[Ht Hr] Hs] Hp].
    apply list_elem_of_In in Ha. specialize (Hall a Ha Ht Hr Hs). congruence.
Qed.

(** The task row [resolveTask] stores for the last, running run. *)
Lemma resolveTask_modify_running (runId : nat) (target : Target) (now : Z)
    (task : TaskEntity) (run : Run) :
  runs task !! runId = Some run →
  length (runs task) = S runId →
  state run = running →
  resolveTask_modify runId target now task =
    mkTask (taskId task) (definition task) (retriesLeft task)
      (<[runId := resolve_run (target_state target) (target_reason target)
                    now run]> (runs task)) 0.
Proof.
  intros Hrun Hlen Hst. unfold resolveTask_modify.
  rewrite (not_last_running_false _ _ _ Hrun Hlen Hst).
  by rewrite (alter_as_insert _ _ _ _ Hrun).
Qed.

(** [resolveTask] on the last, running run: the artifact gate rejects a
    resolution as completed; otherwise the run is resolved as [target]. *)
Lemma resolveTask_running (ctx : Context) (tid : string) (runId : nat)
    (target : Target) (now : Z) (task : TaskEntity) (run : Run) :
  Task ctx !! tid = Some task →
  runs task !! runId = Some run →
  length (runs task) = S runId →
  state run = running →
  resolveTask ctx tid runId target now =
    if bool_decide (target = target_completed)
       && negb (haveAllBlobs ctx tid runId)
    then
      (ReportError (mkError RequestConflict
         "All blob artifacts must be present to resolve task as completed"),
       ctx)
    else
      let task' :=
        mkTask (taskId task) (definition task) (retriesLeft task)
          (<[runId := resolve_run (target_state target)
                        (target_reason target) now run]> (runs task)) 0 in
      (Reply (status task'),
       emit [putResolvedMessage tid (task_taskGroupId task')
               (task_schedulerId task') (target_state target);
             publish
               match target with
               | target_completed => taskCompleted
               | target_failed => taskFailed
               end (status task') (Some runId)]
         (store_task tid task' ctx)).
Proof.
  intros Htask Hrun Hlen Hst. unfold resolveTask. rewrite Htask, Hrun.
  destruct (bool_decide (target = target_completed)
            && negb (haveAllBlobs ctx tid runId)); [done|].
  rewrite (resolveTask_modify_running _ _ _ _ _ Hrun Hlen Hst).
  cbn zeta. cbn [runs].
  rewrite list_lookup_insert_eq by lia.
  unfold len. rewrite length_insert, Hlen.
  rewrite bool_decide_eq_false_2 by (intros H; apply H; lia).
  destruct target; rewrite emit_emit; reflexivity.
Qed.

(** [reportCompleted] on the last, running run: the target is failed
    exactly for [success === false]; a resolution as completed passes the
    artifact gate first. *)
Lemma reportCompleted_running (ctx : Context) (tid : string) (runId : nat)
    (body : CompletedBody) (now : Z) (task : TaskEntity) (run : Run) :
  Task ctx !! tid = Some task →
  runs task !! runId = Some run →
  length (runs task) = S runId →
  state run = running →
  reportCompleted ctx tid runId body now =
    let resolved_as s rr ex :=
      let task' :=
        mkTask (taskId task) (definition task) (retriesLeft task)
          (<[runId := resolve_run s rr now run]> (runs task)) 0 in
      (Reply (status task'),
       emit [putResolvedMessage tid (task_taskGroupId task')
               (task_schedulerId task') s;
             publish ex (status task') (Some runId)]
         (store_task tid task' ctx)) in
    if bool_decide (success body = Some false)
    then resolved_as failed rr_failed taskFailed
    else if haveAllBlobs ctx tid runId
    then resolved_as completed rr_completed taskCompleted
    else (ReportError (mkError RequestConflict
            "All blob artifacts must be present to resolve task as completed"),
          ctx).
Proof.
  intros Htask Hrun Hlen Hst. unfold reportCompleted.
  rewrite (resolveTask_running _ _ _ _ _ _ _ Htask Hrun Hlen Hst).
  destruct (bool_decide (success body = Some false)); [reflexivity|].
  rewrite bool_decide_eq_true_2 by done. simpl.
  destruct (haveAllBlobs ctx tid runId); reflexivity.
Qed.

(** C10, as amended: on the last, running run, [reportCompleted] with
    [success === false] in the body resolves the run as failed (state
    failed, reasonResolved failed, task-failed published); with any other
    body, also an empty one, it resolves the run as completed when every
    blob artifact of the run is present, and reports RequestConflict,
    leaving the run running, when one is missing. *)
Theorem reportCompleted_body (ctx : Context) (tid : string) (runId : nat)
    (body : CompletedBody) (now : Z) (task : TaskEntity) (run : Run) :
  Task ctx !! tid = Some task →
  runs task !! runId = Some run →
  length (runs task) = S runId →
  state run = running →
  let resolved_as s rr ex :=
    let task' :=
      mkTask (taskId task) (definition task) (retriesLeft task)
        (<[runId := resolve_run s rr now run]> (runs task)) 0 in
    (Reply (status task'),
     emit [putResolvedMessage tid (task_taskGroupId task')
             (task_schedulerId task') s;
           publish ex (status task') (Some runId)]
       (store_task tid task' ctx)) in
  (success body = Some false →
     reportCompleted ctx tid runId body now
     = resolved_as failed rr_failed taskFailed)
  ∧ (success body ≠ Some false → all_present "blob" ctx tid runId →
     reportCompleted ctx tid runId body now
     = resolved_as completed rr_completed taskCompleted)
  ∧ (success body ≠ Some false → ¬ all_present "blob" ctx tid runId →
     ∃ e, reportCompleted ctx tid runId body now = (ReportError e, ctx)
          ∧ code e = RequestConflict).
Proof.
  intros Htask Hrun Hlen Hst resolved_as.
  rewrite (reportCompleted_running _ _ _ _ _ _ _ Htask Hrun Hlen Hst).
  cbv zeta. split; [|split].
  - intros Hs. by rewrite bool_decide_eq_true_2.
  - intros Hs Hall. rewrite bool_decide_eq_false_2 by done.
    apply haveAllBlobs_spec in Hall. by rewrite Hall.
  - intros Hs Hall. rewrite bool_decide_eq_false_2 by done.
    rewrite <- haveAllBlobs_spec in Hall.
    apply not_true_is_false in Hall. rewrite Hall.
    eexists. split; reflexivity.
Qed.

(** C4, as amended: a [reportCompleted] that resolves as completed (the body
    does not carry [success === false]) on the last, running run succeeds
    only if every artifact of storage type [blob] of that run is present;
    if a blob artifact is not present it reports RequestConflict and the
    context, hence the run, is left as it was.  Artifacts of other storage
    types are not looked at. *)
Theorem reportCompleted_blob_gate (ctx : Context) (tid : string)
    (runId : nat) (body : CompletedBody) (now : Z) (task : TaskEntity)
    (run : Run) :
  Task ctx !! tid = Some task →
  runs task !! runId = Some run →
  length (runs task) = S runId →
  state run = running →
  success body ≠ Some false →
  (∀ st ctx', reportCompleted ctx tid runId body now = (Reply st, ctx') →
     all_present "blob" ctx tid runId
     ∧ (∃ run', st_runs st !! runId = Some run' ∧ state run' = completed))
  ∧ (¬ all_present "blob" ctx tid runId →
     ∃ e, reportCompleted ctx tid runId body now = (ReportError e, ctx)
          ∧ code e = RequestConflict
          ∧ Task ctx !! tid = Some task ∧ state run = running)
  ∧ (all_present "blob" ctx tid runId →
     ∃ st ctx', reportCompleted ctx tid runId body now = (Reply st, ctx')).
Proof.
  intros Htask Hrun Hlen Hst Hs.
  rewrite (reportCompleted_running _ _ _ _ _ _ _ Htask Hrun Hlen Hst).
  cbv zeta. rewrite bool_decide_eq_false_2 by done.
  destruct (haveAllBlobs ctx tid runId) eqn:Hb.
  - assert (Hall : all_present "blob" ctx tid runId)
      by (by apply haveAllBlobs_spec).
    split; [|split].
    + intros st ctx' Hreply. split; [done|].
      injection Hreply as <- _. cbn [status st_runs runs].
      eexists. split; [apply list_lookup_insert_eq; lia|done].
    + done.
    + eauto.
  - assert (Hno : ¬ all_present "blob" ctx tid runId).
    { rewrite <- haveAllBlobs_spec. congruence. }
    split; [|split].
    + intros st ctx' Hreply. discriminate.
    + intros _. eexists. repeat split; done.
    + done.
Qed.

(** ** reclaimTask *)

Lemma not_last_running_true (runId : nat) (task : TaskEntity) (run : Run) :
  runs task !! runId = Some run →
  length (runs task) ≠ S runId ∨ state run ≠ running →
  not_last_running runId task = true.
Proof.
  intros Hrun Hno. unfold not_last_running, len. rewrite Hrun.
  apply orb_true_iff. destruct Hno as [Hl | Hs].
  - left. apply bool_decide_eq_true. lia.
  - right. by apply bool_decide_eq_true.
Qed.

(** C6, as amended: [reclaimTask] reports ResourceNotFound when the task or
    the run does not exist.  For an existing run it succeeds exactly when
    the deadline is still ahead ([now < deadline]) and the run is the last
    run and running, and reports RequestConflict otherwise.  A successful
    reclaim advances [takenUntil] to [now + claimTimeout] (and puts a
    claim-expiration message) only when that is strictly greater than the
    run's [takenUntil]; when it is not, the reclaim still succeeds and
    leaves the task as it was. *)
Theorem reclaimTask_cases (ctx : Context) (tid : string) (runId : nat)
    (now : Z) :
  let proposed := now + claimTimeout ctx * 1000 in
  let not_found r :=
    ∃ e, r = (ReportError e, ctx) ∧ code e = ResourceNotFound in
  let conflict r :=
    ∃ e, r = (ReportError e, ctx) ∧ code e = RequestConflict in
  (Task ctx !! tid = None → not_found (reclaimTask ctx tid runId now))
  ∧ (∀ task, Task ctx !! tid = Some task → runs task !! runId = None →
       not_found (reclaimTask ctx tid runId now))
  ∧ (∀ task run, Task ctx !! tid = Some task → runs task !! runId = Some run →
       (task_deadline task <= now → conflict (reclaimTask ctx tid runId now))
       ∧ (length (runs task) ≠ S runId ∨ state run ≠ running →
          conflict (reclaimTask ctx tid runId now))
       ∧ (now < task_deadline task → length (runs task) = S runId →
          state run = running →
          ((∀ u, run_takenUntil run = Some u → u < proposed) →
             let task' :=
               mkTask (taskId task) (definition task) (retriesLeft task)
                 (<[runId := set_run_takenUntil proposed run]> (runs task))
                 proposed in
             reclaimTask ctx tid runId now =
               (Reply (mkReclaimReply (status task') runId (workerGroup run)
                         (workerId run) proposed),
                store_task tid task'
                  (emit [putClaimMessage tid runId proposed] ctx)))
          ∧ (∀ u, run_takenUntil run = Some u → proposed <= u →
             reclaimTask ctx tid runId now =
               (Reply (mkReclaimReply (status task) runId (workerGroup run)
                         (workerId run) proposed),
                ctx)))).
Proof.
  intros proposed not_found conflict. split; [|split].
  - intros Hnone. unfold reclaimTask. rewrite Hnone.
    eexists. split; reflexivity.
  - intros task Htask Hnone. unfold reclaimTask. rewrite Htask, Hnone.
    eexists. split; reflexivity.
  - intros task run Htask Hrun. split; [|split].
    + intros Hdl. unfold reclaimTask. rewrite Htask, Hrun.
      rewrite (proj2 (Z.leb_le _ _) Hdl). eexists. split; reflexivity.
    + intros Hno. unfold reclaimTask. rewrite Htask, Hrun.
      destruct (task_deadline task <=? now); [eexists; split; reflexivity|].
      unfold reclaimTask_modify, reclaim_advances.
      rewrite (not_last_running_true _ _ _ Hrun Hno).
      rewrite (not_last_running_true _ _ _ Hrun Hno).
      rewrite store_task_id by done. eexists. split; reflexivity.
    + intros Hdl Hlen Hst.
      assert (Hd : (task_deadline task <=? now) = false)
        by (apply Z.leb_gt; lia).
      pose proof (not_last_running_false _ _ _ Hrun Hlen Hst) as Hnl.
      split.
      * intros Hadv task'.
        unfold reclaimTask. rewrite Htask, Hrun, Hd. fold proposed.
        assert (Ha : reclaim_advances runId proposed task = true).
        { unfold reclaim_advances. rewrite Hnl, Hrun. simpl.
          destruct (run_takenUntil run) as [u|] eqn:Hu; [|done].
          apply negb_true_iff, Z.leb_gt. by apply Hadv. }
        unfold reclaimTask_modify. rewrite Ha.
        rewrite (alter_as_insert _ _ _ _ Hrun).
        change (set_takenUntil proposed
                  (set_runs (<[runId:=set_run_takenUntil proposed run]>
                               (runs task)) task)) with task'.
        assert (Hrun' : runs task' !! runId
                        = Some (set_run_takenUntil proposed run)).
        { simpl. apply list_lookup_insert_eq. lia. }
        rewrite (not_last_running_false _ _ _ Hrun');
          [|by (simpl; rewrite length_insert)|done].
        rewrite Hrun'. reflexivity.
      * intros u Hu Hle.
        unfold reclaimTask. rewrite Htask, Hrun, Hd. fold proposed.
        assert (Ha : reclaim_advances runId proposed task = false).
        { unfold reclaim_advances. rewrite Hnl, Hrun. simpl. rewrite Hu.
          apply negb_false_iff, Z.leb_le. done. }
        unfold reclaimTask_modify. rewrite Ha, Hnl, Hrun.
        rewrite store_task_id by done. reflexivity.
Qed.

(** ** Validation of the timestamps *)

Lemma patchAndValidateTaskDef_accepts (tid : string) (d : TaskDef) (now : Z) :
  timestamps_accepted now d →
  patchAndValidateTaskDef tid d now = (None, patched tid d).
Proof.
  intros (Hc & Hcd & Hd & Hh & He).
  unfold patchAndValidateTaskDef, patched.
  assert (Hcr : ∀ x, created (match taskGroupId d with
                              | Some _ => d
                              | None => set_taskGroupId x d
                              end) = created d) by (by destruct (taskGroupId d)).
  assert (Hdl : ∀ x, deadline (match taskGroupId d with
                               | Some _ => d
                               | None => set_taskGroupId x d
                               end) = deadline d) by (by destruct (taskGroupId d)).
  assert (Hex : ∀ x, expires (match taskGroupId d with
                              | Some _ => d
                              | None => set_taskGroupId x d
                              end) = expires d) by (by destruct (taskGroupId d)).
  rewrite Hcr, Hdl, Hex.
  rewrite (proj2 (Z.ltb_ge _ _)) by lia.
  rewrite (proj2 (Z.ltb_ge _ _)) by lia.
  rewrite (proj2 (Z.ltb_ge _ _)) by lia.
  rewrite (proj2 (Z.ltb_ge _ _)) by lia.
  rewrite (proj2 (Z.ltb_ge _ _)) by lia.
  assert (Hex' : default 0
            (expires match expires d with
                     | Some _ => match taskGroupId d with
                                 | Some _ => d
                                 | None => set_taskGroupId (Some tid) d
                                 end
                     | None => set_expires (Some (addFullYear (deadline d)))
                                 match taskGroupId d with
                                 | Some _ => d
                                 | None => set_taskGroupId (Some tid) d
                                 end
                     end)
          = default (addFullYear (deadline d)) (expires d)).
  { destruct (expires d) eqn:E.
    - rewrite ?Hex, ?E. reflexivity.
    - cbn [expires set_expires default]. reflexivity. }
  rewrite Hex'.
  rewrite (proj2 (Z.ltb_ge _ _)) by lia.
  reflexivity.
Qed.

Lemma patchAndValidateTaskDef_rejects (tid : string) (d : TaskDef) (now : Z) :
  ¬ timestamps_accepted now d →
  ∃ e d', patchAndValidateTaskDef tid d now = (Some e, d')
          ∧ code e = InputError.
Proof.
  intros Hno. unfold patchAndValidateTaskDef.
  assert (Hcr : ∀ x, created (match taskGroupId d with
                              | Some _ => d
                              | None => set_taskGroupId x d
                              end) = created d) by (by destruct (taskGroupId d)).
  assert (Hdl : ∀ x, deadline (match taskGroupId d with
                               | Some _ => d
                               | None => set_taskGroupId x d
                               end) = deadline d) by (by destruct (taskGroupId d)).
  assert (Hex : ∀ x, expires (match taskGroupId d with
                              | Some _ => d
                              | None => set_taskGroupId x d
                              end) = expires d) by (by destruct (taskGroupId d)).
  rewrite Hcr, Hdl, Hex.
  unfold timestamps_accepted in Hno.
  generalize dependent (addFullYear (deadline d)). intros y Hno.
  destruct (created d <? now - minutes15) eqn:H1; [by eauto|].
  destruct (now + minutes15 <? created d) eqn:H2; [by eauto|].
  destruct (deadline d <? created d) eqn:H3; [by eauto|].
  destruct (deadline d <? now) eqn:H4; [by eauto|].
  destruct (days5 + minutes15 <? deadline d - now) eqn:H5; [by eauto|].
  apply Z.ltb_ge in H1, H2, H3, H4, H5.
  destruct (expires d) as [e|] eqn:E.
  - rewrite ?Hex, ?E. change (default 0 (Some e)) with e.
    destruct (e <? deadline d) eqn:H6; [by eauto|].
    apply Z.ltb_ge in H6. exfalso. apply Hno. cbn [default from_option id]. lia.
  - cbn [expires set_expires]. change (default 0 (Some y)) with y.
    destruct (y <? deadline d) eqn:H6; [by eauto|].
    apply Z.ltb_ge in H6. exfalso. apply Hno. cbn [default from_option id]. lia.
Qed.

Lemma timestamps_accepted_dec (now : Z) (d : TaskDef) :
  timestamps_accepted now d ∨ ¬ timestamps_accepted now d.
Proof. unfold timestamps_accepted. lia. Qed.

(** ** Task groups and creation *)

(** [ensureTaskGroup] touches the three task-group tables only. *)
Lemma ensureTaskGroup_frame (ctx ctx' : Context) (tid : string) (d : TaskDef)
    (r : GroupResult) :
  ensureTaskGroup ctx tid d = (r, ctx') →
  Task ctx' = Task ctx ∧ TaskDependency ctx' = TaskDependency ctx
  ∧ Artifact ctx' = Artifact ctx ∧ log ctx' = log ctx
  ∧ taskGroupExpiresExtension ctx' = taskGroupExpiresExtension ctx
  ∧ claimTimeout ctx' = claimTimeout ctx
  ∧ propertyTooLarge ctx' = propertyTooLarge ctx.
Proof.
  unfold ensureTaskGroup. intros H.
  destruct_matches H; simplify_eq/=; done.
Qed.

(** The errors [ensureTaskGroup] reports are conflicts. *)
Lemma ensureTaskGroup_code (ctx ctx' : Context) (tid : string) (d : TaskDef)
    (r : GroupResult) :
  ensureTaskGroup ctx tid d = (r, ctx') →
  match r with
  | GroupConflict e => code e = RequestConflict
  | GroupOk (Some e) => code e = RequestConflict
  | GroupOk None => True
  end.
Proof.
  unfold ensureTaskGroup. intros H.
  destruct_matches H; simplify_eq/=; done.
Qed.

Lemma respond_code {A} (reported : option ErrorDetail) (r : Response A)
    (c : ErrorCode) :
  is_error c (respond reported r) →
  (∃ e, reported = Some e ∧ code e = c) ∨ (reported = None ∧ is_error c r).
Proof. destruct reported as [e|]; simpl; eauto. Qed.

Lemma trackDependencies_no_error (ctx : Context) (task : TaskEntity)
    (now : Z) :
  (∀ dep, dep ∈ dependencies (definition task) → is_Some (Task ctx !! dep)) →
  (trackDependencies ctx task now).1.1 = None.
Proof.
  intros Hdeps. unfold trackDependencies.
  destruct (existsb _ _) eqn:He.
  - apply existsb_exists in He as (dep & Hin & Hnone).
    apply bool_decide_eq_true in Hnone.
    apply list_elem_of_In, Hdeps in Hin. rewrite Hnone in Hin.
    by destruct Hin.
  - destruct (forallb _ _); [|done].
    by destruct (dt_scheduleTask _ _ _) as [[? ?] ?].
Qed.

Lemma createTask_publish_no_InputError (ctx : Context) (task : TaskEntity)
    (reported : option ErrorDetail) (now : Z) :
  (∀ dep, dep ∈ dependencies (definition task) → is_Some (Task ctx !! dep)) →
  (∀ e, reported = Some e → code e = RequestConflict) →
  ¬ is_error InputError (createTask_publish ctx task reported now).1.
Proof.
  intros Hdeps Hrep Herr. unfold createTask_publish in Herr.
  pose proof (trackDependencies_no_error ctx task now Hdeps) as Htd.
  destruct (bool_decide (task_state task = unscheduled)).
  - destruct (trackDependencies ctx task now) as [[err ctx'] task'].
    simpl in Htd. subst err.
    destruct_matches Herr; simpl in Herr; apply respond_code in Herr as [(e & -> & He)|[_ []]];
      specialize (Hrep e eq_refl); congruence.
  - destruct_matches Herr; simpl in Herr; apply respond_code in Herr as [(e & -> & He)|[_ []]];
      specialize (Hrep e eq_refl); congruence.
Qed.

Lemma patched_fields (tid : string) (d : TaskDef) :
  scopes (patched tid d) = scopes d
  ∧ dependencies (patched tid d) = dependencies d
  ∧ schedulerId (patched tid d) = schedulerId d
  ∧ deadline (patched tid d) = deadline d
  ∧ created (patched tid d) = created d
  ∧ retries (patched tid d) = retries d
  ∧ taskGroupId (patched tid d) = Some (default tid (taskGroupId d))
  ∧ expires (patched tid d)
    = Some (default (addFullYear (deadline d)) (expires d)).
Proof.
  unfold patched.
  destruct (taskGroupId d) eqn:Eg, (expires d) eqn:Ee; simpl;
    rewrite ?Ee; simpl; case_decide; simpl; rewrite ?Eg, ?Ee; done.
Qed.

(** C7, as amended: [patchAndValidateTaskDef] accepts a definition exactly
    when created is within 15 minutes of now, created is not after the
    deadline, the deadline is not before now, the deadline is at most 5 days
    and 15 minutes after now, and expires (deadline plus one calendar year
    when omitted) is not before the deadline.  [createTask] replies
    InputError whenever one of these fails, and, for a definition without a
    scope ending in [**], within the size the store accepts and whose
    dependencies exist, only then.  A definition that passes these checks
    and is too large for the store is answered with InputError after the
    group tables are written and the deadline message is sent. *)
Theorem createTask_timestamps (ctx : Context) (tid : string) (d : TaskDef)
    (now : Z) :
  ((patchAndValidateTaskDef tid d now).1 = None ↔ timestamps_accepted now d)
  ∧ (¬ timestamps_accepted now d →
     ∃ e, createTask ctx tid d now = (ReportError e, ctx)
          ∧ code e = InputError)
  ∧ (timestamps_accepted now d →
     existsb (endsWith "**") (scopes d) = false →
     propertyTooLarge ctx (patched tid d) = false →
     (∀ dep, dep ∈ dependencies d → is_Some (Task ctx !! dep)) →
     ¬ is_error InputError (createTask ctx tid d now).1)
  ∧ (timestamps_accepted now d →
     existsb (endsWith "**") (scopes d) = false →
     propertyTooLarge ctx (patched tid d) = true →
     ∀ ctx1, ensureTaskGroup ctx tid (patched tid d) = (GroupOk None, ctx1) →
       ∃ e, createTask ctx tid d now =
              (ReportError e,
               emit [putDeadlineMessage tid (default tid (taskGroupId d))
                       (schedulerId d) (deadline d)] ctx1)
            ∧ code e = InputError).
Proof.
  split; [|split; [|split]].
  - split.
    + intros Hnone. destruct (timestamps_accepted_dec now d) as [|Hno]; [done|].
      destruct (patchAndValidateTaskDef_rejects tid d now Hno)
        as (e & d' & Heq & _).
      rewrite Heq in Hnone. done.
    + intros Hok. by rewrite patchAndValidateTaskDef_accepts.
  - intros Hno.
    destruct (patchAndValidateTaskDef_rejects tid d now Hno)
      as (e & d' & Heq & Hc).
    exists e. unfold createTask. rewrite Heq. done.
  - intros Hok Hsc Hsize Hdeps. unfold createTask.
    rewrite (patchAndValidateTaskDef_accepts _ _ _ Hok).
    destruct (patched_fields tid d) as (Hs & Hd & _).
    rewrite Hs, Hsc.
    destruct (ensureTaskGroup ctx tid (patched tid d)) as [r ctx1] eqn:Heg.
    pose proof (ensureTaskGroup_code _ _ _ _ _ Heg) as Hcode.
    destruct (ensureTaskGroup_frame _ _ _ _ _ Heg)
      as (HT & _ & _ & _ & _ & _ & Hsz).
    destruct r as [e|reported].
    { simpl. congruence. }
    assert (Hrep : ∀ e, reported = Some e → code e = RequestConflict).
    { intros e ->. done. }
    cbn [Task emit propertyTooLarge]. rewrite HT, Hsz, Hsize.
    destruct (Task ctx !! tid) as [task|] eqn:Htask.
    + case_bool_decide as Hdef.
      * simpl. intros Herr.
        apply respond_code in Herr as [(e & -> & He)|[_ He]].
        -- specialize (Hrep e eq_refl). congruence.
        -- simpl in He. congruence.
      * apply createTask_publish_no_InputError; [|done].
        try apply dec_stable in Hdef. rewrite <- Hdef, Hd. cbn [Task emit].
        rewrite HT. done.
    + apply createTask_publish_no_InputError; [|done].
      cbn [definition createTask_entity]. rewrite Hd.
      intros dep Hin. cbn. rewrite HT.
      destruct (decide (tid = dep)) as [->|Hne].
      * rewrite lookup_insert_eq. eauto.
      * rewrite lookup_insert_ne by done. by apply Hdeps.
  - intros Hok Hsc Hsize ctx1 Heg. unfold createTask.
    rewrite (patchAndValidateTaskDef_accepts _ _ _ Hok).
    destruct (patched_fields tid d)
      as (Hs & _ & Hsched & Hdl & _ & _ & Hgid & _).
    rewrite Hs, Hsc, Heg.
    destruct (ensureTaskGroup_frame _ _ _ _ _ Heg)
      as (_ & _ & _ & _ & _ & _ & Hsz).
    cbn [propertyTooLarge emit]. rewrite Hsz, Hsize, Hgid, Hsched, Hdl.
    eexists. split; reflexivity.
Qed.

(** ** Scheduler of a task group *)

Lemma group_consistent_same_scheduler (ctx : Context) (k1 k2 : string)
    (t1 t2 : TaskEntity) :
  group_consistent ctx →
  Task ctx !! k1 = Some t1 → Task ctx !! k2 = Some t2 →
  task_taskGroupId t1 = task_taskGroupId t2 →
  task_schedulerId t1 = task_schedulerId t2.
Proof.
  intros Hc H1 H2 Hg.
  destruct (Hc _ _ H1) as (g1 & Hg1 & <-).
  destruct (Hc _ _ H2) as (g2 & Hg2 & <-).
  rewrite Hg in Hg1. congruence.
Qed.

(** A group row with another schedulerId makes [ensureTaskGroup] report the
    conflict and return false, without touching a table. *)
Lemma ensureTaskGroup_conflict (ctx : Context) (tid : string) (d : TaskDef)
    (g : TaskGroupEntity) :
  TaskGroup ctx !! default tid (taskGroupId d) = Some g →
  tg_schedulerId g ≠ schedulerId d →
  ∃ e, ensureTaskGroup ctx tid d = (GroupConflict e, ctx)
       ∧ code e = RequestConflict.
Proof.
  intros Hg Hne. unfold ensureTaskGroup. rewrite Hg.
  rewrite bool_decide_eq_true_2 by done. eexists. split; reflexivity.
Qed.

(** Group rows are never removed and keep their schedulerId; after a
    successful [ensureTaskGroup] the group of the definition carries the
    schedulerId of the definition. *)
Lemma ensureTaskGroup_groups (ctx ctx' : Context) (tid : string) (d : TaskDef)
    (r : GroupResult) :
  ensureTaskGroup ctx tid d = (r, ctx') →
  (∀ k g, TaskGroup ctx !! k = Some g →
     ∃ g', TaskGroup ctx' !! k = Some g'
           ∧ tg_schedulerId g' = tg_schedulerId g)
  ∧ (∀ rep, r = GroupOk rep →
     ∃ g, TaskGroup ctx' !! default tid (taskGroupId d) = Some g
          ∧ tg_schedulerId g = schedulerId d).
Proof.
  unfold ensureTaskGroup. intros H.
  set (G := default tid (taskGroupId d)) in *.
  assert (Hlook : ∀ (g1 : TaskGroupEntity) k g,
            (∀ g0, TaskGroup ctx !! G = Some g0 →
                   tg_schedulerId g1 = tg_schedulerId g0) →
            TaskGroup ctx !! k = Some g →
            ∃ g', <[G := g1]> (TaskGroup ctx) !! k = Some g'
                  ∧ tg_schedulerId g' = tg_schedulerId g).
  { intros g1 k g Hsame Hk. destruct (decide (G = k)) as [<-|Hne].
    - rewrite lookup_insert_eq. eauto.
    - rewrite lookup_insert_ne by done. eauto. }
  destruct (TaskGroup ctx !! G) as [g0|] eqn:HG;
    destruct_matches H; simplify_eq/=;
    (split; [intros k g Hk|intros rep Hrep; simplify_eq/=]);
    rewrite ?insert_insert_eq;
    try (apply Hlook; [intros; simplify_eq/=; done|done]);
    rewrite ?lookup_insert_eq; eauto;
    try (eexists; split; [done|]; simpl);
    repeat match goal with
    | Hb : bool_decide _ = false |- _ =>
        apply bool_decide_eq_false, dec_stable in Hb
    end; simpl in *; congruence.
Qed.

Lemma dt_scheduleTask_writes (ctx ctx' : Context) (task task' : TaskEntity)
    (now : Z) (r : option TaskStatus) :
  dt_scheduleTask ctx task now = (r, ctx', task') →
  writes_only task ctx ctx'
  ∧ definition task' = definition task ∧ taskId task' = taskId task.
Proof.
  unfold dt_scheduleTask, writes_only, scheduleTask_modify. intros H.
  destruct (task_deadline task <? now); [by simplify_eq/=; eauto|].
  destruct (runs task) eqn:Hr; simplify_eq/=; rewrite ?Hr; simpl; eauto 10.
Qed.

Lemma trackDependencies_writes (ctx ctx' : Context) (task task' : TaskEntity)
    (now : Z) (r : option ErrorDetail) :
  trackDependencies ctx task now = (r, ctx', task') →
  writes_only task ctx ctx'
  ∧ definition task' = definition task ∧ taskId task' = taskId task.
Proof.
  unfold trackDependencies. intros H.
  destruct (existsb _ _); [by simplify_eq/=; unfold writes_only; eauto|].
  destruct (forallb _ _); [|by simplify_eq/=; unfold writes_only; eauto].
  destruct (dt_scheduleTask _ _ _) as [[r0 c0] t0] eqn:Hs. simplify_eq/=.
  apply dt_scheduleTask_writes in Hs as [[HG HT] Hdef]. done.
Qed.

Lemma createTask_publish_writes (ctx ctx' : Context) (task : TaskEntity)
    (reported : option ErrorDetail) (now : Z) (r : Response TaskStatus) :
  createTask_publish ctx task reported now = (r, ctx') →
  writes_only task ctx ctx'.
Proof.
  unfold createTask_publish. intros H.
  destruct (bool_decide (task_state task = unscheduled)).
  - destruct (trackDependencies ctx task now) as [[err c0] t0] eqn:Ht.
    apply trackDependencies_writes in Ht as [[HG HT] _].
    destruct_matches H; simplify_eq/=; done.
  - destruct_matches H; simplify_eq/=; unfold writes_only; eauto.
Qed.

Lemma defineTask_publish_writes (ctx ctx' : Context) (task : TaskEntity)
    (reported : option ErrorDetail) (now : Z) (r : Response TaskStatus) :
  defineTask_publish ctx task reported now = (r, ctx') →
  writes_only task ctx ctx'.
Proof.
  unfold defineTask_publish. intros H.
  destruct (bool_decide (task_state task = unscheduled)).
  - destruct (trackDependencies ctx task now) as [[err c0] t0] eqn:Ht.
    apply trackDependencies_writes in Ht as [[HG HT] _].
    destruct_matches H; simplify_eq/=; done.
  - destruct_matches H; simplify_eq/=; unfold writes_only; eauto.
Qed.

(** Writing the row of a task that agrees with its group keeps every task in
    agreement with its group. *)
Lemma group_consistent_writes (task : TaskEntity) (ctx ctx' : Context) :
  writes_only task ctx ctx' →
  (∃ g, TaskGroup ctx !! task_taskGroupId task = Some g
        ∧ tg_schedulerId g = task_schedulerId task) →
  group_consistent ctx → group_consistent ctx'.
Proof.
  intros [HG HT] Hg Hc k t Ht. rewrite HG.
  destruct HT as [HT|(t' & HT & Hd & Hi)]; rewrite HT in Ht.
  - eauto.
  - destruct (decide (taskId task = k)) as [<-|Hne].
    + rewrite lookup_insert_eq in Ht. simplify_eq.
      unfold task_taskGroupId, task_schedulerId in *. by rewrite Hd, Hi.
    + rewrite lookup_insert_ne in Ht by done. eauto.
Qed.

Lemma group_consistent_groups (ctx ctx' : Context) :
  Task ctx' = Task ctx →
  (∀ k g, TaskGroup ctx !! k = Some g →
     ∃ g', TaskGroup ctx' !! k = Some g'
           ∧ tg_schedulerId g' = tg_schedulerId g) →
  group_consistent ctx → group_consistent ctx'.
Proof.
  intros HT HG Hc k t Ht. rewrite HT in Ht.
  destruct (Hc _ _ Ht) as (g & Hg & Hs).
  destruct (HG _ _ Hg) as (g' & Hg' & Hs'). exists g'. split; congruence.
Qed.

(** Both creation handlers keep every task in agreement with its group. *)
Lemma createTask_group_consistent (ctx : Context) (tid : string)
    (d : TaskDef) (now : Z) :
  group_consistent ctx → group_consistent (createTask ctx tid d now).2.
Proof.
  intros Hc. unfold createTask.
  destruct (patchAndValidateTaskDef tid d now) as [[e|] d'] eqn:Hp; [done|].
  destruct (existsb _ _); [done|].
  destruct (ensureTaskGroup ctx tid d') as [r ctx1] eqn:Heg.
  destruct (ensureTaskGroup_frame _ _ _ _ _ Heg) as (HT & _).
  destruct (ensureTaskGroup_groups _ _ _ _ _ Heg) as (Hkeep & Hnew).
  pose proof (group_consistent_groups ctx ctx1 HT Hkeep Hc) as Hc1.
  destruct r as [e|reported]; [done|].
  destruct (Hnew reported eq_refl) as (g & Hg & Hs).
  set (ctx2 := emit _ ctx1).
  assert (Hc2 : group_consistent ctx2) by done.
  destruct (propertyTooLarge ctx2 _); [done|].
  destruct (Task ctx2 !! tid) as [task|] eqn:Htask.
  - case_bool_decide as Hdef; [done|].
    destruct (createTask_publish ctx2 task reported now) as [r' ctx3] eqn:Hpub.
    apply createTask_publish_writes in Hpub.
    eapply group_consistent_writes; [exact Hpub| |done]. eauto.
  - destruct (createTask_publish _ _ reported now) as [r' ctx3] eqn:Hpub.
    apply createTask_publish_writes in Hpub.
    eapply group_consistent_writes; [exact Hpub|by exists g|].
    intros k t Hk. cbn in Hk.
    destruct (decide (tid = k)) as [<-|Hne].
    + rewrite lookup_insert_eq in Hk. simplify_eq. by exists g.
    + rewrite lookup_insert_ne in Hk by done. apply (Hc2 k t Hk).
Qed.

Lemma defineTask_group_consistent (ctx : Context) (tid : string)
    (d : TaskDef) (now : Z) :
  group_consistent ctx → group_consistent (defineTask ctx tid d now).2.
Proof.
  intros Hc. unfold defineTask.
  destruct (patchAndValidateTaskDef tid d now) as [[e|] d'] eqn:Hp; [done|].
  set (d2 := self_dependent tid d').
  destruct (ensureTaskGroup ctx tid d2) as [r ctx1] eqn:Heg.
  destruct (ensureTaskGroup_frame _ _ _ _ _ Heg) as (HT & _).
  destruct (ensureTaskGroup_groups _ _ _ _ _ Heg) as (Hkeep & Hnew).
  pose proof (group_consistent_groups ctx ctx1 HT Hkeep Hc) as Hc1.
  destruct r as [e|reported]; [done|].
  destruct (Hnew reported eq_refl) as (g & Hg & Hs).
  set (ctx2 := emit _ ctx1).
  assert (Hc2 : group_consistent ctx2) by done.
  destruct (propertyTooLarge ctx2 _); [done|].
  destruct (Task ctx2 !! tid) as [task|] eqn:Htask.
  - case_bool_decide as Hdef; [done|].
    destruct (defineTask_publish ctx2 task reported now) as [r' ctx3] eqn:Hpub.
    apply defineTask_publish_writes in Hpub.
    eapply group_consistent_writes; [exact Hpub| |done]. eauto.
  - destruct (defineTask_publish _ _ reported now) as [r' ctx3] eqn:Hpub.
    apply defineTask_publish_writes in Hpub.
    eapply group_consistent_writes; [exact Hpub|by exists g|].
    intros k t Hk. cbn in Hk.
    destruct (decide (tid = k)) as [<-|Hne].
    + rewrite lookup_insert_eq in Hk. simplify_eq. by exists g.
    + rewrite lookup_insert_ne in Hk by done. apply (Hc2 k t Hk).
Qed.

(** C8: a group row with schedulerId S1 and a [createTask] (or [defineTask])
    into that group with another schedulerId.  The handler replies with an
    error and leaves the context, so the TaskGroup row with its schedulerId
    and expires, as it was; the error is RequestConflict for every
    definition that passes the validation of timestamps and scopes (an
    invalid definition is rejected with InputError before the group is
    looked at).  Both handlers keep the invariant that every task agrees
    with the schedulerId of its group, so that tasks sharing a taskGroupId
    have the same schedulerId. *)
Theorem createTask_scheduler_conflict (ctx : Context) (tid : string)
    (d : TaskDef) (now : Z) (G : string) (g : TaskGroupEntity) :
  default tid (taskGroupId d) = G →
  TaskGroup ctx !! G = Some g →
  tg_schedulerId g ≠ schedulerId d →
  (∃ e, createTask ctx tid d now = (ReportError e, ctx)
        ∧ (timestamps_accepted now d →
           existsb (endsWith "**") (scopes d) = false →
           code e = RequestConflict))
  ∧ (∃ e, defineTask ctx tid d now = (ReportError e, ctx)
          ∧ (timestamps_accepted now d → code e = RequestConflict))
  ∧ TaskGroup (createTask ctx tid d now).2 !! G = Some g
  ∧ TaskGroup (defineTask ctx tid d now).2 !! G = Some g
  ∧ (∀ d' now', group_consistent ctx →
       group_consistent (createTask ctx tid d' now').2
       ∧ group_consistent (defineTask ctx tid d' now').2
       ∧ ∀ k1 k2 t1 t2,
           Task (createTask ctx tid d' now').2 !! k1 = Some t1 →
           Task (createTask ctx tid d' now').2 !! k2 = Some t2 →
           task_taskGroupId t1 = task_taskGroupId t2 →
           task_schedulerId t1 = task_schedulerId t2).
Proof.
  intros HG Hg Hne.
  destruct (patched_fields tid d)
    as (Hsc & Hdeps & Hsched & _ & _ & _ & Hgid & _).
  assert (Hcreate : ∃ e, createTask ctx tid d now = (ReportError e, ctx)
        ∧ (timestamps_accepted now d →
           existsb (endsWith "**") (scopes d) = false →
           code e = RequestConflict)).
  { destruct (timestamps_accepted_dec now d) as [Hok|Hno].
    - unfold createTask.
      rewrite (patchAndValidateTaskDef_accepts _ _ _ Hok). rewrite Hsc.
      destruct (existsb _ _) eqn:Hstar.
      + eexists. split; [done|]. intros _ ?. done.
      + destruct (ensureTaskGroup_conflict ctx tid (patched tid d) g)
          as (e & He & Hc).
        * rewrite Hgid. simpl. by rewrite HG.
        * by rewrite Hsched.
        * rewrite He. eauto.
    - destruct (patchAndValidateTaskDef_rejects tid d now Hno)
        as (e & d0 & Heq & Hc).
      unfold createTask. rewrite Heq. eexists. split; [done|]. done. }
  assert (Hdefine : ∃ e, defineTask ctx tid d now = (ReportError e, ctx)
          ∧ (timestamps_accepted now d → code e = RequestConflict)).
  { destruct (timestamps_accepted_dec now d) as [Hok|Hno].
    - unfold defineTask.
      rewrite (patchAndValidateTaskDef_accepts _ _ _ Hok).
      set (d2 := self_dependent tid (patched tid d)).
      assert (Hd2 : taskGroupId d2 = taskGroupId (patched tid d)
                    ∧ schedulerId d2 = schedulerId (patched tid d)).
      { unfold d2, self_dependent. by case_bool_decide. }
      destruct Hd2 as [Hd2g Hd2s].
      destruct (ensureTaskGroup_conflict ctx tid d2 g) as (e & He & Hc).
      + rewrite Hd2g, Hgid. simpl. by rewrite HG.
      + by rewrite Hd2s, Hsched.
      + rewrite He. eauto.
    - destruct (patchAndValidateTaskDef_rejects tid d now Hno)
        as (e & d0 & Heq & Hc).
      unfold defineTask. rewrite Heq. eexists. split; [done|]. done. }
  split; [done|]. split; [done|].
  destruct Hcreate as (e1 & -> & _). destruct Hdefine as (e2 & -> & _).
  split; [done|]. split; [done|].
  intros d' now' Hc.
  pose proof (createTask_group_consistent ctx tid d' now' Hc) as Hc1.
  split; [done|]. split; [by apply defineTask_group_consistent|].
  intros k1 k2 t1 t2. by apply group_consistent_same_scheduler.
Qed.

(** ** Scopes ending in two stars *)

(** [createTask] rejects every definition with a scope that ends in [**]. *)
Lemma createTask_rejects_star_scope (ctx : Context) (tid : string)
    (d : TaskDef) (now : Z) :
  existsb (endsWith "**") (scopes d) = true →
  ∃ e, createTask ctx tid d now = (ReportError e, ctx) ∧ code e = InputError.
Proof.
  intros Hstar. destruct (timestamps_accepted_dec now d) as [Hok|Hno].
  - unfold createTask. rewrite (patchAndValidateTaskDef_accepts _ _ _ Hok).
    destruct (patched_fields tid d) as (-> & _). rewrite Hstar.
    eexists. split; reflexivity.
  - destruct (patchAndValidateTaskDef_rejects tid d now Hno)
      as (e & d0 & Heq & Hc).
    unfold createTask. rewrite Heq. eauto.
Qed.

(** C9: [defineTask] has no check of the scopes.  The definition
    [def_star_scope], which [createTask] rejects with InputError for its
    scope [queue:create-task:**], is accepted by [defineTask]: the task is
    stored with that scope and its status is returned. *)
Theorem defineTask_accepts_star_scope :
  existsb (endsWith "**") (scopes def_star_scope) = true
  ∧ (∃ e, createTask empty_ctx "T1" def_star_scope now0
          = (ReportError e, empty_ctx) ∧ code e = InputError)
  ∧ ∃ st ctx' task,
      defineTask empty_ctx "T1" def_star_scope now0 = (Reply st, ctx')
      ∧ Task ctx' !! "T1" = Some task
      ∧ scopes (definition task) = ["queue:create-task:**"]
      ∧ st_state st = unscheduled.
Proof.
  split; [reflexivity|]. split.
  - apply createTask_rejects_star_scope. reflexivity.
  - eexists _, _, _. split; [vm_compute; reflexivity|].
    split; [vm_compute; reflexivity|]. split; reflexivity.
Qed.

(** ** The handlers on concrete inputs *)

(** Closed conjunctions of equations, each decided by evaluation. *)
Ltac compute_conj :=
  repeat match goal with
         | |- _ ∧ _ => split; [vm_compute; reflexivity|]
         end;
  vm_compute; reflexivity.

Lemma ctx_running_task : Task ctx_running !! "T1" = Some task_running.
Proof. vm_compute. reflexivity. Defined.

(** A worker shutdown on the run of [ctx_running], two retries left. *)
Lemma reportException_retries_witness :
  ∃ st ctx',
    reportException ctx_running "T1" 0 rr_worker_shutdown (now0 + 5000)
    = (Reply st, ctx')
    ∧ st_retriesLeft st = 1
    ∧ state <$> st_runs st = [exception; pending]
    ∧ reasonCreated <$> st_runs st = [rc_scheduled; rc_retry]
    ∧ log ctx' = log ctx_running
                 ++ [putPendingMessage "T1" 1; publish taskPending st (Some 1%nat)].
Proof.
  destruct (reportException_retries ctx_running "T1" 0 rr_worker_shutdown
              (now0 + 5000) task_running run_running
              ctx_running_task eq_refl eq_refl eq_refl) as [Hretry _].
  specialize (Hretry rc_retry eq_refl).
  eexists _, _. split; [apply Hretry; reflexivity|].
  compute_conj.
Defined.

(** Cancelling the pending task of [ctx_pending]. *)
Lemma cancelTask_cases_witness :
  ∃ st ctx',
    cancelTask ctx_pending "T1" (now0 + 1000) = (Reply st, ctx')
    ∧ st_state st = exception
    ∧ (reasonResolved <$> st_runs st) = [Some rr_canceled]
    ∧ (resolved <$> st_runs st) = [Some (now0 + 1000)].
Proof.
  destruct (cancelTask_cases ctx_pending "T1" (now0 + 1000)
              (createTask_entity "T1" (patched "T1" def0) now0))
    as [_ Hlive].
  { vm_compute. reflexivity. }
  destruct Hlive as (Hactive & _ & _).
  { vm_compute. discriminate. }
  eexists _, _. split.
  - apply (Hactive (new_run pending rc_scheduled now0) eq_refl).
    left. reflexivity.
  - compute_conj.
Defined.

(** The claim as stated fails: the last run of the task of [ctx_canceled]
    is resolved, and cancelling the task again, before its deadline, does
    not leave things as they are: the resolved message and task-exception
    are sent once more. *)
Lemma cancelTask_again_publishes :
  ∃ task run,
    Task ctx_canceled !! "T1" = Some task
    ∧ now0 + 2000 <= task_deadline task
    ∧ last_run (runs task) = Some run
    ∧ terminal (state run) = true
    ∧ (cancelTask ctx_canceled "T1" (now0 + 2000)).2 ≠ ctx_canceled
    ∧ length (log (cancelTask ctx_canceled "T1" (now0 + 2000)).2)
      = (length (log ctx_canceled) + 2)%nat.
Proof.
  eexists _, _. split; [vm_compute; reflexivity|].
  split; [vm_compute; discriminate|].
  split; [vm_compute; reflexivity|].
  split; [vm_compute; reflexivity|].
  split; [|vm_compute; reflexivity].
  intros H. apply (f_equal (λ c, length (log c))) in H.
  vm_compute in H. discriminate H.
Qed.

(** [reportCompleted] with the body of a very old worker. *)
Lemma reportCompleted_body_witness :
  ∃ st ctx',
    reportCompleted ctx_running "T1" 0 (mkCompletedBody (Some false))
      (now0 + 5000) = (Reply st, ctx')
    ∧ st_state st = failed
    ∧ (reasonResolved <$> st_runs st) = [Some rr_failed].
Proof.
  destruct (reportCompleted_body ctx_running "T1" 0
              (mkCompletedBody (Some false)) (now0 + 5000)
              task_running run_running
              ctx_running_task eq_refl eq_refl eq_refl) as (Hfailed & _ & _).
  eexists _, _. split; [apply Hfailed; reflexivity|].
  compute_conj.
Defined.

(** The claim as stated fails: with an empty body and a blob artifact that
    is not present, the running last run is not resolved as completed. *)
Lemma reportCompleted_empty_body_conflict :
  Task (ctx_artifact "blob") !! "T1" = Some task_running
  ∧ last_run (runs task_running) = Some run_running
  ∧ state run_running = running
  ∧ success (mkCompletedBody None) ≠ Some false
  ∧ ∃ e, reportCompleted (ctx_artifact "blob") "T1" 0 (mkCompletedBody None)
           (now0 + 5000) = (ReportError e, ctx_artifact "blob")
         ∧ code e = RequestConflict.
Proof.
  split; [vm_compute; reflexivity|]. split; [reflexivity|].
  split; [reflexivity|]. split; [discriminate|].
  eexists. split; [vm_compute; reflexivity|reflexivity].
Qed.

(** A blob artifact that is not present blocks [reportCompleted]. *)
Lemma reportCompleted_blob_gate_witness :
  ∃ e, reportCompleted (ctx_artifact "blob") "T1" 0 (mkCompletedBody None)
         (now0 + 5000) = (ReportError e, ctx_artifact "blob")
       ∧ code e = RequestConflict.
Proof.
  destruct (reportCompleted_blob_gate (ctx_artifact "blob") "T1" 0
              (mkCompletedBody None) (now0 + 5000) task_running run_running)
    as (_ & Hmissing & _).
  - vm_compute. reflexivity.
  - reflexivity.
  - reflexivity.
  - reflexivity.
  - discriminate.
  - destruct Hmissing as (e & He & Hc & _).
    + intros Hall.
      specialize (Hall (mkArtifact "T1" 0 "public/build.tar.gz" "blob" false)).
      assert (false = true) as Hf; [|discriminate Hf].
      apply Hall; [|reflexivity|reflexivity|reflexivity].
      apply list_elem_of_here.
    + exists e. split; [exact He|exact Hc].
Defined.

(** The claim as stated fails: an artifact of storage type [object] that is
    not present does not stop [reportCompleted]; the run is resolved as
    completed. *)
Lemma reportCompleted_object_not_checked :
  Task (ctx_artifact "object") !! "T1" = Some task_running
  ∧ last_run (runs task_running) = Some run_running
  ∧ state run_running = running
  ∧ ¬ all_present "object" (ctx_artifact "object") "T1" 0
  ∧ ∃ st ctx',
      reportCompleted (ctx_artifact "object") "T1" 0 (mkCompletedBody None)
        (now0 + 5000) = (Reply st, ctx')
      ∧ st_state st = completed.
Proof.
  split; [vm_compute; reflexivity|]. split; [reflexivity|].
  split; [reflexivity|]. split.
  - intros Hall.
    specialize (Hall (mkArtifact "T1" 0 "public/build.tar.gz" "object" false)).
    assert (false = true) as Hf; [|discriminate Hf].
    apply Hall; [|reflexivity|reflexivity|reflexivity].
    apply list_elem_of_here.
  - eexists _, _. split; [vm_compute; reflexivity|reflexivity].
Qed.

(** A reclaim five seconds after the claim. *)
Lemma reclaimTask_cases_witness :
  ∃ r ctx',
    reclaimTask ctx_running "T1" 0 (now0 + 6000) = (Reply r, ctx')
    ∧ rp_takenUntil r = now0 + 6000 + 1200 * 1000
    ∧ (run_takenUntil <$> st_runs (rp_status r))
      = [Some (now0 + 6000 + 1200 * 1000)]
    ∧ log ctx' = log ctx_running
                 ++ [putClaimMessage "T1" 0 (now0 + 6000 + 1200 * 1000)].
Proof.
  destruct (reclaimTask_cases ctx_running "T1" 0 (now0 + 6000))
    as (_ & _ & Hrun).
  destruct (Hrun task_running run_running ctx_running_task eq_refl)
    as (_ & _ & Hlive).
  destruct Hlive as [Hadv _]; [vm_compute; reflexivity|reflexivity|reflexivity|].
  eexists _, _. split.
  - apply Hadv. intros u Hu. injection Hu as <-. vm_compute. reflexivity.
  - compute_conj.
Defined.

(** The claim as stated fails: a reclaim at the instant of the claim proposes
    the [takenUntil] the run already has, does not advance it, and succeeds
    all the same. *)
Lemma reclaimTask_not_advancing_succeeds :
  Task ctx_running !! "T1" = Some task_running
  ∧ run_takenUntil run_running = Some (now0 + 1000 + claimTimeout ctx_running * 1000)
  ∧ ∃ r,
      reclaimTask ctx_running "T1" 0 (now0 + 1000) = (Reply r, ctx_running)
      ∧ st_runs (rp_status r) = [run_running].
Proof.
  split; [vm_compute; reflexivity|]. split; [reflexivity|].
  eexists. split; [vm_compute; reflexivity|reflexivity].
Qed.

(** The claim as stated fails in both directions: [def_long] breaks the rule
    "deadline - created at most 5 days and 15 minutes" and is accepted;
    [def_early_deadline] keeps all four rules and is rejected. *)
Lemma createTask_timestamps_counterexample :
  (¬ spec_timestamps_valid now0 def_long
   ∧ ∃ st ctx', createTask empty_ctx "T1" def_long now0 = (Reply st, ctx'))
  ∧ (spec_timestamps_valid now0 def_early_deadline
     ∧ ∃ e, createTask empty_ctx "T1" def_early_deadline now0
            = (ReportError e, empty_ctx) ∧ code e = InputError).
Proof.
  split; split.
  - unfold spec_timestamps_valid. vm_compute. intros (_ & _ & H & _).
    by apply H.
  - eexists _, _. vm_compute. reflexivity.
  - unfold spec_timestamps_valid. vm_compute. repeat split; discriminate.
  - eexists. split; [vm_compute; reflexivity|reflexivity].
Qed.

(** A definition a minute late by the rules of the code. *)
Lemma createTask_timestamps_witness :
  ¬ timestamps_accepted (now0 + 3600001) def0
  ∧ ∃ e, createTask empty_ctx "T1" def0 (now0 + 3600001)
         = (ReportError e, empty_ctx) ∧ code e = InputError.
Proof.
  assert (Hno : ¬ timestamps_accepted (now0 + 3600001) def0).
  { unfold timestamps_accepted. vm_compute. intros ([H _] & _). by apply H. }
  split; [exact Hno|].
  destruct (createTask_timestamps empty_ctx "T1" def0 (now0 + 3600001))
    as (_ & Hrej & _).
  exact (Hrej Hno).
Defined.

(** A task of another scheduler sent into the group of [T1]. *)
Lemma createTask_scheduler_conflict_witness :
  ∃ e, createTask ctx_pending "T2" def_other_scheduler now0
       = (ReportError e, ctx_pending) ∧ code e = RequestConflict.
Proof.
  destruct (createTask_scheduler_conflict ctx_pending "T2"
              def_other_scheduler now0 "T1"
              (mkTaskGroup "sched" (1604278800000 + 31536000 * 1000)))
    as ((e & He & Hc) & _).
  - reflexivity.
  - vm_compute. reflexivity.
  - simpl. discriminate.
  - exists e. split; [exact He|]. apply Hc.
    + unfold timestamps_accepted. vm_compute.
      repeat split; discriminate.
    + reflexivity.
Defined.

(** ** The modifiers keep a task within its budget of runs *)

Lemma append_only_refl (l : list Run) : append_only l l.
Proof. intros i r H. eauto. Qed.

Lemma append_only_app (l : list Run) (r : Run) : append_only l (l ++ [r]).
Proof.
  intros i x H. exists x. rewrite lookup_app_l by (by eapply lookup_lt_Some).
  done.
Qed.

Lemma append_only_trans (l1 l2 l3 : list Run) :
  append_only l1 l2 → append_only l2 l3 → append_only l1 l3.
Proof.
  intros H12 H23 i r H.
  destruct (H12 i r H) as (r2 & H2 & Hc2 & Hs2 & Ht2).
  destruct (H23 i r2 H2) as (r3 & H3 & Hc3 & Hs3 & Ht3).
  exists r3. repeat split; [done|congruence|congruence|].
  intros Ht. specialize (Ht2 Ht). subst r2. by apply Ht3.
Qed.

(** Altering a run that is not in a terminal state, keeping its origin. *)
Lemma append_only_alter (f : Run → Run) (i : nat) (l : list Run) :
  (∀ r, l !! i = Some r → terminal (state r) = false
        ∧ reasonCreated (f r) = reasonCreated r
        ∧ scheduled (f r) = scheduled r) →
  append_only l (alter f i l).
Proof.
  intros Hf j r Hj. destruct (decide (i = j)) as [<-|Hne].
  - exists (f r). rewrite list_lookup_alter_eq, Hj.
    destruct (Hf r Hj) as (Ht & Hc & Hs). rewrite Ht. done.
  - rewrite list_lookup_alter_ne by done. eauto.
Qed.

Lemma Forall_alter_state (f : Run → Run) (i : nat) (l : list Run) :
  (∀ r, l !! i = Some r → state r ≠ unscheduled →
        state (f r) ≠ unscheduled) →
  Forall (λ r, state r ≠ unscheduled) l →
  Forall (λ r, state r ≠ unscheduled) (alter f i l).
Proof.
  intros Hf Hl. apply Forall_lookup. intros j r Hj.
  destruct (decide (i = j)) as [<-|Hne].
  - rewrite list_lookup_alter_eq in Hj.
    destruct (l !! i) as [r0|] eqn:Hi; simplify_eq/=.
    apply Hf; [done|]. by eapply (proj1 (Forall_lookup _ _) Hl).
  - rewrite list_lookup_alter_ne in Hj by done.
    by eapply (proj1 (Forall_lookup _ _) Hl).
Qed.

Lemma last_state_nil_or (l : list Run) :
  Forall (λ r, state r ≠ unscheduled) l →
  last_state l = unscheduled → l = [].
Proof.
  intros Hl Hs. unfold last_state in Hs.
  destruct (last_run l) as [r|] eqn:Hr.
  - unfold last_run in Hr. apply last_Some in Hr as [l' ->].
    apply Forall_app in Hl as [_ Hl]. by inversion_clear Hl.
  - unfold last_run in Hr. by apply last_None in Hr.
Qed.

Lemma last_state_lookup (l : list Run) (s : State) :
  last_state l = s → s ≠ unscheduled →
  ∃ r, l !! (length l - 1)%nat = Some r ∧ state r = s.
Proof.
  unfold last_state. rewrite last_run_lookup.
  destruct (l !! (length l - 1)%nat) as [r|]; [eauto|congruence].
Qed.

Lemma not_last_running_lookup (runId : nat) (t : TaskEntity) :
  not_last_running runId t = false →
  ∃ r, runs t !! runId = Some r ∧ state r = running
       ∧ length (runs t) = S runId.
Proof.
  unfold not_last_running, len. intros H.
  apply orb_false_iff in H as [H1 H2].
  apply bool_decide_eq_false in H1.
  destruct (runs t !! runId) as [r|]; [|done].
  apply bool_decide_eq_false in H2.
  exists r. split; [done|]. split; [by apply dec_stable|].
  destruct (decide (length (runs t) = S runId)) as [|Hne]; [done|].
  exfalso. apply H1. lia.
Qed.

Lemma task_step_refl (t : TaskEntity) : task_step t t.
Proof. repeat split. apply append_only_refl. Qed.

Lemma rerunTask_modify_step (now : Z) (t : TaskEntity) :
  task_step t (rerunTask_modify now t).
Proof.
  unfold rerunTask_modify.
  destruct (bool_decide _ || bool_decide _); [apply task_step_refl|].
  destruct (MAX_RUNS_ALLOWED <=? len (runs t)); [apply task_step_refl|].
  repeat split. apply append_only_app.
Qed.

Lemma rerunTask_modify_ok (now : Z) (t : TaskEntity) :
  task_ok t → task_ok (rerunTask_modify now t).
Proof.
  intros (Hr & Hb & Hs). unfold rerunTask_modify.
  destruct (bool_decide _ || bool_decide _); [done|].
  destruct (MAX_RUNS_ALLOWED <=? len (runs t)) eqn:Hmax; [done|].
  apply Z.leb_gt in Hmax. pose proof (len_nonneg (runs t)).
  unfold task_ok, task_retries in *. cbn. rewrite len_app.
  change (len [new_run pending rc_rerun now]) with 1.
  unfold MAX_RUNS_ALLOWED in *. repeat split; try lia.
  apply Forall_app. split; [done|]. by repeat constructor.
Qed.

Lemma cancelTask_modify_step (now : Z) (t : TaskEntity) :
  task_step t (cancelTask_modify now t).
Proof.
  unfold cancelTask_modify.
  assert (Hact : append_only (runs t)
            (runs (if bool_decide (last_state (runs t) = pending)
                     || bool_decide (last_state (runs t) = running)
                   then set_runs
                          (alter_last (resolve_run exception rr_canceled now)
                             (runs t)) t
                   else t))).
  { destruct (bool_decide (last_state (runs t) = pending)
              || bool_decide (last_state (runs t) = running)) eqn:Hact;
      [|apply append_only_refl].
    assert (Hlast : ∃ r, runs t !! (length (runs t) - 1)%nat = Some r
                         ∧ terminal (state r) = false).
    { apply orb_true_iff in Hact as [H|H]; apply bool_decide_eq_true in H;
        apply last_state_lookup in H as (r & Hl & Hst); try done;
        exists r; by rewrite Hst. }
    destruct Hlast as (r & Hl & Ht).
    cbn. unfold alter_last. apply append_only_alter.
    intros r' Hr'. rewrite Hl in Hr'. by simplify_eq. }
  repeat split.
  - destruct (bool_decide _ || bool_decide _); by destruct (bool_decide _).
  - destruct (bool_decide _ || bool_decide _); by destruct (bool_decide _).
  - destruct (bool_decide (last_state (runs t) = unscheduled)); cbn;
      [|exact Hact].
    eapply append_only_trans; [exact Hact|apply append_only_app].
Qed.

Lemma cancelTask_modify_ok (now : Z) (t : TaskEntity) :
  task_ok t → task_ok (cancelTask_modify now t).
Proof.
  intros (Hr & Hb & Hs). unfold cancelTask_modify.
  destruct (bool_decide (last_state (runs t) = pending)
            || bool_decide (last_state (runs t) = running)) eqn:Hact.
  - assert (Hne : last_state (runs t) ≠ unscheduled).
    { apply orb_true_iff in Hact as [H|H]; apply bool_decide_eq_true in H;
        congruence. }
    rewrite bool_decide_eq_false_2 by done.
    unfold task_ok, task_retries in *. cbn. unfold alter_last.
    rewrite len_alter. repeat split; try lia.
    by apply Forall_alter_state.
  - destruct (bool_decide (last_state (runs t) = unscheduled)) eqn:Hun;
      [|done].
    apply bool_decide_eq_true in Hun.
    apply last_state_nil_or in Hun; [|done].
    unfold task_ok, task_retries in *. cbn. rewrite Hun in *.
    cbn in *. unfold len in *. cbn in *.
    unfold MAX_RUNS_ALLOWED in *. repeat split; try lia.
    by repeat constructor.
Qed.

Lemma reclaimTask_modify_step (runId : nat) (u : Z) (t : TaskEntity) :
  task_step t (reclaimTask_modify runId u t).
Proof.
  unfold reclaimTask_modify, reclaim_advances.
  destruct (not_last_running runId t) eqn:Hn; [apply task_step_refl|].
  destruct (not_last_running_lookup _ _ Hn) as (r & Hl & Hst & Hlen).
  destruct (match runs t !! runId ≫= run_takenUntil with
            | Some u0 => negb (u <=? u0)
            | None => true
            end); [|apply task_step_refl].
  repeat split. cbn. apply append_only_alter.
  intros r' Hr'. rewrite Hl in Hr'. simplify_eq. by rewrite Hst.
Qed.

Lemma reclaimTask_modify_ok (runId : nat) (u : Z) (t : TaskEntity) :
  task_ok t → task_ok (reclaimTask_modify runId u t).
Proof.
  intros (Hr & Hb & Hs). unfold reclaimTask_modify.
  destruct (reclaim_advances runId u t); [|done].
  unfold task_ok, task_retries in *. cbn. rewrite len_alter.
  repeat split; try lia. by apply Forall_alter_state.
Qed.

Lemma resolveTask_modify_step (runId : nat) (target : Target) (now : Z)
    (t : TaskEntity) :
  task_step t (resolveTask_modify runId target now t).
Proof.
  unfold resolveTask_modify.
  destruct (not_last_running runId t) eqn:Hn; [apply task_step_refl|].
  destruct (not_last_running_lookup _ _ Hn) as (r & Hl & Hst & Hlen).
  repeat split. cbn. apply append_only_alter.
  intros r' Hr'. rewrite Hl in Hr'. simplify_eq. by rewrite Hst.
Qed.

Lemma resolveTask_modify_ok (runId : nat) (target : Target) (now : Z)
    (t : TaskEntity) :
  task_ok t → task_ok (resolveTask_modify runId target now t).
Proof.
  intros (Hr & Hb & Hs). unfold resolveTask_modify.
  destruct (not_last_running runId t); [done|].
  unfold task_ok, task_retries in *. cbn. rewrite len_alter.
  repeat split; try lia. apply Forall_alter_state; [|done].
  intros r0 _ _. by destruct target.
Qed.

(** The row [reportException] writes, whatever the row before. *)
Lemma reportException_modify_cases (runId : nat) (reason : ReasonResolved)
    (now : Z) (t : TaskEntity) :
  reportException_modify runId reason now t = t
  ∨ ∃ r, runs t !! runId = Some r ∧ state r = running
         ∧ length (runs t) = S runId
         ∧ let rs := alter (resolve_run exception reason now) runId (runs t) in
           (reportException_modify runId reason now t
            = mkTask (taskId t) (definition t) (retriesLeft t) rs 0
            ∨ ∃ rc, 0 < retriesLeft t
                    ∧ reportException_modify runId reason now t
                      = mkTask (taskId t) (definition t) (retriesLeft t - 1)
                          (rs ++ [new_run pending rc now]) 0).
Proof.
  destruct (not_last_running runId t) eqn:Hn.
  { left. unfold reportException_modify. by rewrite Hn. }
  destruct (not_last_running_lookup _ _ Hn) as (r & Hl & Hst & Hlen).
  right. exists r. repeat split; try done. cbv zeta.
  rewrite (reportException_modify_running _ _ _ _ _ Hl Hlen Hst). cbv zeta.
  rewrite <- (alter_as_insert (resolve_run exception reason now) _ _ _ Hl).
  destruct (retry_reason reason) as [rc|]; [|by left].
  destruct (0 <? retriesLeft t) eqn:Hpos; [|by left].
  apply Z.ltb_lt in Hpos. right. eauto.
Qed.

Lemma reportException_modify_step (runId : nat) (reason : ReasonResolved)
    (now : Z) (t : TaskEntity) :
  task_step t (reportException_modify runId reason now t).
Proof.
  destruct (reportException_modify_cases runId reason now t)
    as [->|(r & Hl & Hst & Hlen & Hcases)]; [apply task_step_refl|].
  assert (Halt : append_only (runs t)
            (alter (resolve_run exception reason now) runId (runs t))).
  { apply append_only_alter. intros r' Hr'. rewrite Hl in Hr'.
    simplify_eq. by rewrite Hst. }
  destruct Hcases as [->|(rc & _ & ->)]; repeat split; cbn; [done|].
  eapply append_only_trans; [exact Halt|apply append_only_app].
Qed.

Lemma reportException_modify_ok (runId : nat) (reason : ReasonResolved)
    (now : Z) (t : TaskEntity) :
  task_ok t → task_ok (reportException_modify runId reason now t).
Proof.
  intros (Hr & Hb & Hs).
  destruct (reportException_modify_cases runId reason now t)
    as [->|(r & Hl & Hst & Hlen & Hcases)]; [done|].
  assert (Hlen' : len (runs t) = Z.of_nat runId + 1) by (unfold len; lia).
  assert (HF : Forall (λ r, state r ≠ unscheduled)
            (alter (resolve_run exception reason now) runId (runs t))).
  { by apply Forall_alter_state. }
  destruct Hcases as [->|(rc & Hpos & ->)];
    unfold task_ok, task_retries in *; cbn;
    rewrite ?len_app, ?len_alter.
  - repeat split; try lia. done.
  - change (len [new_run pending rc now]) with 1.
    unfold MAX_RUNS_ALLOWED in *. repeat split; try lia.
    apply Forall_app. split; [done|]. by repeat constructor.
Qed.

(** ** The handlers write one row, through their modifier *)

Lemma modifies_emit (f : TaskEntity → TaskEntity) (tid : string)
    (es : list Effect) (ctx ctx' : Context) :
  modifies f tid ctx ctx' → modifies f tid ctx (emit es ctx').
Proof. done. Qed.

Lemma modifies_store (f : TaskEntity → TaskEntity) (tid : string)
    (ctx : Context) (t : TaskEntity) :
  Task ctx !! tid = Some t → modifies f tid ctx (store_task tid (f t) ctx).
Proof. intros H. right. eauto. Qed.

Lemma modifies_refl (f : TaskEntity → TaskEntity) (tid : string)
    (ctx : Context) : modifies f tid ctx ctx.
Proof. by left. Qed.

Lemma rerunTask_modifies (ctx : Context) (tid : string) (now : Z) :
  modifies (rerunTask_modify now) tid ctx (rerunTask ctx tid now).2.
Proof.
  unfold rerunTask. destruct (Task ctx !! tid) as [t|] eqn:Ht;
    [|apply modifies_refl].
  destruct (task_deadline t <? now); [apply modifies_refl|].
  repeat match goal with
  | |- context [if ?c then _ else _] => destruct c
  end; cbn [snd]; repeat apply modifies_emit; by apply modifies_store.
Qed.

Lemma cancelTask_modifies (ctx : Context) (tid : string) (now : Z) :
  modifies (cancelTask_modify now) tid ctx (cancelTask ctx tid now).2.
Proof.
  unfold cancelTask. destruct (Task ctx !! tid) as [t|] eqn:Ht;
    [|apply modifies_refl].
  destruct (task_deadline t <? now); [apply modifies_refl|].
  destruct (last_run _); cbn [snd]; [|by apply modifies_store].
  destruct (_ && _); repeat apply modifies_emit; by apply modifies_store.
Qed.

Lemma reclaimTask_modifies (ctx : Context) (tid : string) (runId : nat)
    (now : Z) :
  modifies (reclaimTask_modify runId (now + claimTimeout ctx * 1000)) tid ctx
    (reclaimTask ctx tid runId now).2.
Proof.
  unfold reclaimTask. destruct (Task ctx !! tid) as [t|] eqn:Ht;
    [|apply modifies_refl].
  destruct (runs t !! runId); [|apply modifies_refl].
  destruct (task_deadline t <=? now); [apply modifies_refl|].
  assert (Hm : ∀ c, Task c = Task ctx →
            modifies (reclaimTask_modify runId (now + claimTimeout ctx * 1000))
              tid ctx
              (store_task tid
                 (reclaimTask_modify runId (now + claimTimeout ctx * 1000) t)
                 c)).
  { intros c Hc. right. exists t. split; [done|]. cbn. by rewrite Hc. }
  destruct (reclaim_advances _ _ _);
    destruct (not_last_running _ _); cbn [snd]; by apply Hm.
Qed.

Lemma resolveTask_modifies (ctx : Context) (tid : string) (runId : nat)
    (target : Target) (now : Z) :
  modifies (resolveTask_modify runId target now) tid ctx
    (resolveTask ctx tid runId target now).2.
Proof.
  unfold resolveTask. destruct (Task ctx !! tid) as [t|] eqn:Ht;
    [|apply modifies_refl].
  destruct (runs t !! runId); [|apply modifies_refl].
  destruct (_ && _); [apply modifies_refl|].
  destruct (_ || _); cbn [snd]; [by apply modifies_store|].
  destruct target; repeat apply modifies_emit; by apply modifies_store.
Qed.

Lemma reportException_modifies (ctx : Context) (tid : string) (runId : nat)
    (reason : ReasonResolved) (now : Z) :
  modifies (reportException_modify runId reason now) tid ctx
    (reportException ctx tid runId reason now).2.
Proof.
  unfold reportException. destruct (Task ctx !! tid) as [t|] eqn:Ht;
    [|apply modifies_refl].
  destruct (runs t !! runId); [|apply modifies_refl].
  repeat match goal with
  | |- context [if ?c then _ else _] => destruct c
  end; cbn [snd]; repeat apply modifies_emit; by apply modifies_store.
Qed.

(** The modifier a request applies and the row it applies it to. *)
Lemma handle_modifies (ctx : Context) (req : Request) (now : Z) :
  ∃ f tid,
    modifies f tid ctx (handle ctx req now)
    ∧ (∀ t, task_step t (f t)) ∧ (∀ t, task_ok t → task_ok (f t)).
Proof.
  destruct req as [tid|tid|tid runId|tid runId body|tid runId|tid runId reason];
    cbn [handle].
  - exists (rerunTask_modify now), tid.
    split; [apply rerunTask_modifies|]. split;
      [apply rerunTask_modify_step|apply rerunTask_modify_ok].
  - exists (cancelTask_modify now), tid.
    split; [apply cancelTask_modifies|]. split;
      [apply cancelTask_modify_step|apply cancelTask_modify_ok].
  - exists (reclaimTask_modify runId (now + claimTimeout ctx * 1000)), tid.
    split; [apply reclaimTask_modifies|]. split;
      [apply reclaimTask_modify_step|apply reclaimTask_modify_ok].
  - eexists _, tid.
    split; [apply resolveTask_modifies|]. split;
      [apply resolveTask_modify_step|apply resolveTask_modify_ok].
  - eexists _, tid.
    split; [apply resolveTask_modifies|]. split;
      [apply resolveTask_modify_step|apply resolveTask_modify_ok].
  - exists (reportException_modify runId reason now), tid.
    split; [apply reportException_modifies|]. split;
      [apply reportException_modify_step|apply reportException_modify_ok].
Qed.

Lemma handle_step (ctx : Context) (req : Request) (now : Z) :
  (∀ k t, Task ctx !! k = Some t →
     ∃ t', Task (handle ctx req now) !! k = Some t' ∧ task_step t t')
  ∧ (∀ k, Task ctx !! k = None → Task (handle ctx req now) !! k = None).
Proof.
  destruct (handle_modifies ctx req now)
    as (f & tid & [HT|(t0 & Ht0 & HT)] & Hstep & _); rewrite HT.
  - split; [|done]. intros k t Hk. exists t. split; [done|].
    apply task_step_refl.
  - split.
    + intros k t Hk. destruct (decide (tid = k)) as [<-|Hne].
      * rewrite lookup_insert_eq. simplify_eq. eauto.
      * rewrite lookup_insert_ne by done. exists t. split; [done|].
        apply task_step_refl.
    + intros k Hk. rewrite lookup_insert_ne; [done|]. congruence.
Qed.

Lemma handle_ok (ctx : Context) (req : Request) (now : Z) :
  tasks_ok ctx → tasks_ok (handle ctx req now).
Proof.
  intros Hok.
  destruct (handle_modifies ctx req now)
    as (f & tid & [HT|(t0 & Ht0 & HT)] & _ & Hf); intros k t; rewrite HT.
  - apply Hok.
  - destruct (decide (tid = k)) as [<-|Hne].
    + rewrite lookup_insert_eq. intros [= <-]. apply Hf. by eapply Hok.
    + rewrite lookup_insert_ne by done. apply Hok.
Qed.

Lemma task_step_trans (t1 t2 t3 : TaskEntity) :
  task_step t1 t2 → task_step t2 t3 → task_step t1 t3.
Proof.
  intros (Hi1 & Hd1 & Ha1) (Hi2 & Hd2 & Ha2).
  repeat split; [congruence|congruence|by eapply append_only_trans].
Qed.

(** X1: whatever requests for rerun, cancel, reclaim, completion, failure
    and exception are served, in whatever order and at whatever instants, no
    task row is removed or added, a task keeps its taskId and definition, and
    its runs are append-only: every run stays at its index with its origin,
    and a run that has reached completed, failed or exception is never
    changed again. *)
Theorem requests_append_only (ctx : Context) (reqs : list (Request * Z)) :
  (∀ k t, Task ctx !! k = Some t →
     ∃ t', Task (handle_all ctx reqs) !! k = Some t'
           ∧ taskId t' = taskId t ∧ definition t' = definition t
           ∧ append_only (runs t) (runs t'))
  ∧ (∀ k, Task ctx !! k = None → Task (handle_all ctx reqs) !! k = None).
Proof.
  revert ctx. induction reqs as [|[req now] reqs IH]; intros ctx.
  - split; [|done]. intros k t Hk. exists t. split; [done|].
    apply task_step_refl.
  - cbn [handle_all foldl fst snd].
    destruct (handle_step ctx req now) as [Hstep Hnone].
    destruct (IH (handle ctx req now)) as [IHstep IHnone].
    split.
    + intros k t Hk. destruct (Hstep k t Hk) as (t1 & Hk1 & Hs1).
      destruct (IHstep k t1 Hk1) as (t2 & Hk2 & Hs2).
      exists t2. split; [exact Hk2|].
      by apply (task_step_trans t t1 t2).
    + intros k Hk. apply IHnone, Hnone, Hk.
Qed.

(** X2: the budget of runs.  If every task row starts with
    [0 <= retriesLeft <= retries], with its runs (counting at least one)
    plus [retriesLeft] within [MAX_RUNS_ALLOWED] and without a run in state
    unscheduled, then the same holds after any sequence of requests for
    rerun, cancel, reclaim, completion, failure and exception; in
    particular every task still has at most [MAX_RUNS_ALLOWED] runs and
    [0 <= retriesLeft <= retries]. *)
Theorem requests_keep_run_budget (ctx : Context)
    (reqs : list (Request * Z)) :
  tasks_ok ctx →
  tasks_ok (handle_all ctx reqs)
  ∧ ∀ k t, Task (handle_all ctx reqs) !! k = Some t →
      len (runs t) <= MAX_RUNS_ALLOWED
      ∧ 0 <= retriesLeft t <= task_retries t.
Proof.
  intros Hok.
  assert (Hall : tasks_ok (handle_all ctx reqs)).
  { revert ctx Hok. induction reqs as [|[req now] reqs IH]; intros ctx Hok.
    - done.
    - cbn [handle_all foldl fst snd]. apply IH. by apply handle_ok. }
  split; [done|]. intros k t Hk.
  destruct (Hall k t Hk) as (Hr & Hb & _). split; [lia|done].
Qed.

(** ** rerunTask *)

(** X3: [rerunTask] on an existing task whose deadline has not passed.  With
    a pending last run the task is left alone and announced again (pending
    message and task-pending for the last run); with a running last run
    nothing happens; in both cases the current status is returned.
    Otherwise (last run resolved, or no run at all) a pending run with
    [reasonCreated] rerun is appended, [retriesLeft] is reset to
    [min retries (MAX_RUNS_ALLOWED - runs.length)] counted after the push,
    and the run is announced, unless the task has [MAX_RUNS_ALLOWED] runs
    already, which is a RequestConflict.  A passed deadline is a
    RequestConflict too, an unknown taskId a ResourceNotFound; an error
    leaves the context as it was. *)
Theorem rerunTask_cases (ctx : Context) (tid : string) (now : Z) :
  let failed_with c r := ∃ e, r = (ReportError e, ctx) ∧ code e = c in
  (Task ctx !! tid = None →
     failed_with ResourceNotFound (rerunTask ctx tid now))
  ∧ ∀ task, Task ctx !! tid = Some task →
      (task_deadline task < now →
         failed_with RequestConflict (rerunTask ctx tid now))
      ∧ (now <= task_deadline task →
         (last_state (runs task) = pending →
            rerunTask ctx tid now =
              (Reply (status task),
               emit [putPendingMessage tid (length (runs task) - 1);
                     publish taskPending (status task)
                       (Some (length (runs task) - 1)%nat)] ctx))
         ∧ (last_state (runs task) = running →
            rerunTask ctx tid now = (Reply (status task), ctx))
         ∧ (last_state (runs task) ≠ pending →
            last_state (runs task) ≠ running →
            (MAX_RUNS_ALLOWED <= len (runs task) →
               failed_with RequestConflict (rerunTask ctx tid now))
            ∧ (len (runs task) < MAX_RUNS_ALLOWED →
               let task' :=
                 mkTask (taskId task) (definition task)
                   (Z.min (task_retries task)
                      (MAX_RUNS_ALLOWED - (len (runs task) + 1)))
                   (runs task ++ [new_run pending rc_rerun now]) 0 in
               rerunTask ctx tid now =
                 (Reply (status task'),
                  emit [putPendingMessage tid (length (runs task));
                        publish taskPending (status task')
                          (Some (length (runs task)))]
                    (store_task tid task' ctx))))).
Proof.
  intros failed_with. split.
  { intros Hnone. unfold rerunTask. rewrite Hnone.
    eexists. split; reflexivity. }
  intros task Htask. split.
  { intros Hdl. unfold rerunTask. rewrite Htask.
    rewrite (proj2 (Z.ltb_lt _ _) Hdl). eexists. split; reflexivity. }
  intros Hdl.
  assert (Hd : (task_deadline task <? now) = false) by (apply Z.ltb_ge; lia).
  split; [|split].
  - intros Hp. unfold rerunTask. rewrite Htask, Hd.
    assert (Hmod : rerunTask_modify now task = task).
    { unfold rerunTask_modify. rewrite Hp.
      by rewrite (bool_decide_eq_true_2 (pending = pending)). }
    rewrite Hmod, store_task_id by done.
    change (task_state task) with (last_state (runs task)). rewrite Hp.
    reflexivity.
  - intros Hr. unfold rerunTask. rewrite Htask, Hd.
    assert (Hmod : rerunTask_modify now task = task).
    { unfold rerunTask_modify. rewrite Hr.
      rewrite (bool_decide_eq_true_2 (running = running)) by done.
      by rewrite orb_true_r. }
    rewrite Hmod, store_task_id by done.
    change (task_state task) with (last_state (runs task)). rewrite Hr.
    reflexivity.
  - intros Hnp Hnr. split.
    + intros Hmax. unfold rerunTask. rewrite Htask, Hd.
      assert (Hmod : rerunTask_modify now task = task).
      { unfold rerunTask_modify.
        rewrite (bool_decide_eq_false_2 (last_state (runs task) = pending))
          by done.
        rewrite (bool_decide_eq_false_2 (last_state (runs task) = running))
          by done.
        cbn [orb]. by rewrite (proj2 (Z.leb_le _ _) Hmax). }
      rewrite Hmod, store_task_id by done.
      change (task_state task) with (last_state (runs task)).
      rewrite (bool_decide_eq_true_2 (last_state (runs task) ≠ pending))
        by done.
      rewrite (bool_decide_eq_true_2 (last_state (runs task) ≠ running))
        by done.
      rewrite (proj2 (Z.leb_le _ _) Hmax).
      eexists. split; reflexivity.
    + intros Hlt task'. unfold rerunTask. rewrite Htask, Hd.
      assert (Hmod : rerunTask_modify now task = task').
      { unfold rerunTask_modify.
        rewrite (bool_decide_eq_false_2 (last_state (runs task) = pending))
          by done.
        rewrite (bool_decide_eq_false_2 (last_state (runs task) = running))
          by done.
        cbn [orb]. rewrite (proj2 (Z.leb_gt _ _) Hlt).
        unfold task', push_run, set_runs, set_retriesLeft, set_takenUntil,
          task_retries. cbn. rewrite len_app. reflexivity. }
      rewrite Hmod.
      assert (Hst : task_state task' = pending).
      { unfold task_state, task'. cbn. by rewrite last_run_snoc. }
      rewrite Hst.
      rewrite (bool_decide_eq_false_2 (pending ≠ pending))
        by (intros H; by apply H).
      cbn [andb]. rewrite bool_decide_eq_true_2 by done.
      replace (length (runs task') - 1)%nat with (length (runs task)).
      2:{ unfold task'. cbn. rewrite length_app. cbn. lia. }
      reflexivity.
Qed.

(** ** Resolved runs are final *)

Lemma terminal_not_running (r : Run) :
  terminal (state r) = true → state r ≠ running.
Proof. by destruct (state r). Qed.

Lemma not_last_running_terminal (runId : nat) (task : TaskEntity)
    (run : Run) :
  runs task !! runId = Some run → terminal (state run) = true →
  not_last_running runId task = true.
Proof.
  intros Hrun Ht. apply (not_last_running_true _ _ run Hrun).
  right. by apply terminal_not_running.
Qed.

(** X4: a run that has reached completed, failed or exception keeps its
    outcome.  [reportCompleted] and [reportFailed] for another outcome than
    the run has, [reportException] for another reason than the run was
    resolved with, and every [reclaimTask] are refused with RequestConflict,
    and nothing is written or published. *)
Theorem resolved_run_is_final (ctx : Context) (tid : string) (runId : nat)
    (now : Z) (task : TaskEntity) (run : Run) :
  Task ctx !! tid = Some task →
  runs task !! runId = Some run →
  terminal (state run) = true →
  let conflict {A} (r : Response A * Context) :=
    ∃ e, r = (ReportError e, ctx) ∧ code e = RequestConflict in
  (∀ target, state run ≠ target_state target →
     conflict (resolveTask ctx tid runId target now))
  ∧ (∀ body, state run ≠ completed → success body ≠ Some false →
     conflict (reportCompleted ctx tid runId body now))
  ∧ (state run ≠ failed → conflict (reportFailed ctx tid runId now))
  ∧ (∀ reason, state run ≠ exception ∨ reasonResolved run ≠ Some reason →
     conflict (reportException ctx tid runId reason now))
  ∧ conflict (reclaimTask ctx tid runId now).
Proof.
  intros Htask Hrun Hterm conflict.
  pose proof (not_last_running_terminal _ _ _ Hrun Hterm) as Hn.
  assert (Hres : ∀ target, state run ≠ target_state target →
            conflict _ (resolveTask ctx tid runId target now)).
  { intros target Hne. unfold resolveTask. rewrite Htask, Hrun.
    destruct (_ && _); [eexists; split; reflexivity|].
    unfold resolveTask_modify. rewrite Hn, Hrun.
    rewrite store_task_id by done.
    rewrite (bool_decide_eq_true_2 (state run ≠ target_state target)) by done.
    rewrite orb_true_l, orb_true_r. eexists. split; reflexivity. }
  split; [exact Hres|]. split; [|split; [|split]].
  - intros body Hne Hs. unfold reportCompleted.
    rewrite bool_decide_eq_false_2 by done. by apply Hres.
  - intros Hne. unfold reportFailed. by apply Hres.
  - intros reason Hne. unfold reportException. rewrite Htask, Hrun.
    unfold reportException_modify. rewrite Hn, Hrun.
    rewrite store_task_id by done.
    assert (Hc : bool_decide (state run ≠ exception)
                 || bool_decide (reasonResolved run ≠ Some reason) = true).
    { apply orb_true_iff. destruct Hne as [H|H]; [left|right];
        by apply bool_decide_eq_true. }
    rewrite <- orb_assoc, Hc, orb_true_r. eexists. split; reflexivity.
  - unfold reclaimTask. rewrite Htask, Hrun.
    destruct (task_deadline task <=? now); [eexists; split; reflexivity|].
    unfold reclaimTask_modify, reclaim_advances. rewrite Hn, Hn.
    rewrite store_task_id by done. eexists. split; reflexivity.
Qed.

(** X5: reporting the same outcome again is answered like the first report.
    After [resolveTask] has resolved the last, running run as [target], a
    second [resolveTask] for the same run and target (at any later instant)
    replies with the same status, leaves the row as it is, and sends the
    resolved message and the event once more. *)
Theorem resolveTask_repeat (ctx : Context) (tid : string) (runId : nat)
    (target : Target) (now now' : Z) (task : TaskEntity) (run : Run) :
  Task ctx !! tid = Some task →
  runs task !! runId = Some run →
  length (runs task) = S runId →
  state run = running →
  target = target_failed ∨ haveAllBlobs ctx tid runId = true →
  ∃ st ctx1,
    resolveTask ctx tid runId target now = (Reply st, ctx1)
    ∧ resolveTask ctx1 tid runId target now' =
        (Reply st,
         emit [putResolvedMessage tid (st_taskGroupId st) (st_schedulerId st)
                 (target_state target);
               publish
                 match target with
                 | target_completed => taskCompleted
                 | target_failed => taskFailed
                 end st (Some runId)] ctx1).
Proof.
  intros Htask Hrun Hlen Hst Hgate.
  rewrite (resolveTask_running _ _ _ _ _ _ _ Htask Hrun Hlen Hst).
  assert (Hg : bool_decide (target = target_completed)
               && negb (haveAllBlobs ctx tid runId) = false).
  { destruct Hgate as [-> | ->]; [done|]. by rewrite andb_false_r. }
  rewrite Hg. cbv zeta.
  set (task' := mkTask (taskId task) (definition task) (retriesLeft task)
                  (<[runId := resolve_run (target_state target)
                                (target_reason target) now run]> (runs task))
                  0).
  eexists _, _. split; [reflexivity|].
  set (ctx1 := emit _ (store_task tid task' ctx)).
  assert (Htask1 : Task ctx1 !! tid = Some task').
  { cbn. apply lookup_insert_eq. }
  assert (Hrun1 : runs task' !! runId
                  = Some (resolve_run (target_state target)
                            (target_reason target) now run)).
  { cbn. apply list_lookup_insert_eq. lia. }
  unfold resolveTask. rewrite Htask1, Hrun1.
  change (haveAllBlobs ctx1 tid runId) with (haveAllBlobs ctx tid runId).
  rewrite Hg.
  assert (Hn : not_last_running runId task' = true).
  { apply (not_last_running_true _ _ _ Hrun1). right. by destruct target. }
  unfold resolveTask_modify. rewrite Hn, Hrun1.
  rewrite store_task_id by done.
  assert (Hl : len (runs task') - 1 = Z.of_nat runId).
  { unfold len. cbn. rewrite length_insert. lia. }
  rewrite (bool_decide_eq_false_2 (len (runs task') - 1 ≠ Z.of_nat runId))
    by (intros H; by apply H).
  cbn [state reasonResolved resolve_run orb].
  rewrite !bool_decide_eq_false_2 by (intros H; by apply H).
  cbn [orb]. destruct target; rewrite emit_emit; reflexivity.
Qed.

(** X6: [reportFailed] does not look at the artifacts: on the last, running
    run it resolves the run as failed (state and reasonResolved failed,
    resolved now), clears the task's [takenUntil], and sends the resolved
    message and task-failed, whatever the Artifact table holds. *)
Theorem reportFailed_no_artifact_gate (ctx : Context) (tid : string)
    (runId : nat) (now : Z) (task : TaskEntity) (run : Run) :
  Task ctx !! tid = Some task →
  runs task !! runId = Some run →
  length (runs task) = S runId →
  state run = running →
  let task' :=
    mkTask (taskId task) (definition task) (retriesLeft task)
      (<[runId := resolve_run failed rr_failed now run]> (runs task)) 0 in
  reportFailed ctx tid runId now =
    (Reply (status task'),
     emit [putResolvedMessage tid (task_taskGroupId task')
             (task_schedulerId task') failed;
           publish taskFailed (status task') (Some runId)]
       (store_task tid task' ctx)).
Proof.
  intros Htask Hrun Hlen Hst task'. unfold reportFailed.
  by rewrite (resolveTask_running _ _ _ _ _ _ _ Htask Hrun Hlen Hst).
Qed.

(** X7: unknown tasks and runs.  Every handler that addresses a task replies
    ResourceNotFound for a taskId without a row, and the handlers of the
    worker interface reply ResourceNotFound for a runId the task does not
    have (before looking at the deadline, the artifacts or the state); in
    all these cases nothing is written or published. *)
Theorem unknown_task_or_run (ctx : Context) (tid : string) (runId : nat)
    (now : Z) :
  let not_found {A} (r : Response A * Context) :=
    ∃ e, r = (ReportError e, ctx) ∧ code e = ResourceNotFound in
  (Task ctx !! tid = None ∨
   (∃ task, Task ctx !! tid = Some task ∧ length (runs task) <= runId)%nat →
     (∀ body, not_found (reportCompleted ctx tid runId body now))
     ∧ not_found (reportFailed ctx tid runId now)
     ∧ (∀ reason, not_found (reportException ctx tid runId reason now))
     ∧ not_found (reclaimTask ctx tid runId now))
  ∧ (Task ctx !! tid = None →
     not_found (scheduleTask ctx tid now)
     ∧ not_found (rerunTask ctx tid now)
     ∧ not_found (cancelTask ctx tid now)).
Proof.
  intros not_found. split.
  - intros Hmiss.
    assert (Hres : ∀ target, not_found _ (resolveTask ctx tid runId target now)).
    { intros target. unfold resolveTask.
      destruct Hmiss as [-> | (task & -> & Hlen)];
        [eexists; split; reflexivity|].
      rewrite (proj2 (lookup_ge_None _ _) Hlen). eexists. split; reflexivity. }
    split; [intros body; apply Hres|]. split; [apply Hres|].
    split; [intros reason|].
    + unfold reportException.
      destruct Hmiss as [-> | (task & -> & Hlen)];
        [eexists; split; reflexivity|].
      rewrite (proj2 (lookup_ge_None _ _) Hlen). eexists. split; reflexivity.
    + unfold reclaimTask.
      destruct Hmiss as [-> | (task & -> & Hlen)];
        [eexists; split; reflexivity|].
      rewrite (proj2 (lookup_ge_None _ _) Hlen). eexists. split; reflexivity.
  - intros Hnone. unfold scheduleTask, rerunTask, cancelTask.
    rewrite Hnone. repeat split; eexists; split; reflexivity.
Qed.

(** ** cancelTask ends with a resolved task *)

Lemma cancelTask_modify_last (now : Z) (t : TaskEntity) :
  ∃ r, last_run (runs (cancelTask_modify now t)) = Some r
       ∧ terminal (state r) = true
       ∧ takenUntil (cancelTask_modify now t) = 0.
Proof.
  unfold cancelTask_modify.
  destruct (bool_decide (last_state (runs t) = pending)
            || bool_decide (last_state (runs t) = running)) eqn:Hact.
  - assert (Hne : last_state (runs t) ≠ unscheduled).
    { apply orb_true_iff in Hact as [H|H]; apply bool_decide_eq_true in H;
        congruence. }
    assert (Hlast : ∃ r, runs t !! (length (runs t) - 1)%nat = Some r).
    { apply orb_true_iff in Hact as [H|H]; apply bool_decide_eq_true in H;
        apply last_state_lookup in H as (r & Hl & _); eauto; congruence. }
    destruct Hlast as (r & Hl).
    rewrite bool_decide_eq_false_2 by done.
    exists (resolve_run exception rr_canceled now r). cbn.
    split; [|done]. rewrite last_run_lookup. unfold alter_last.
    by rewrite length_alter, list_lookup_alter_eq, Hl.
  - destruct (bool_decide (last_state (runs t) = unscheduled)) eqn:Hun.
    + eexists. cbn. rewrite last_run_snoc. done.
    + apply orb_false_iff in Hact as [Hp Hr].
      apply bool_decide_eq_false in Hp, Hr, Hun.
      unfold last_state in *.
      destruct (last_run (runs t)) as [r|] eqn:Hlast; [|done].
      exists r. split; [exact Hlast|]. split; [|done].
      by destruct (state r).
Qed.

(** X8: [cancelTask] on an existing task before its deadline always
    succeeds and leaves the task resolved: the stored row, whose status is
    the reply, ends with a run in state completed, failed or exception, and
    its [takenUntil] is the epoch.  The branch "There should exist a run
    after cancelTask!" is never taken, for no context and no taskId. *)
Theorem cancelTask_resolves (ctx : Context) (tid : string) (now : Z) :
  (∀ task, Task ctx !! tid = Some task → now <= task_deadline task →
     ∃ task' ctx' run,
       cancelTask ctx tid now = (Reply (status task'), ctx')
       ∧ Task ctx' !! tid = Some task'
       ∧ last_run (runs task') = Some run
       ∧ terminal (state run) = true
       ∧ terminal (st_state (status task')) = true
       ∧ takenUntil task' = 0)
  ∧ ¬ is_error InternalServerError (cancelTask ctx tid now).1.
Proof.
  split.
  - intros task Htask Hdl. unfold cancelTask. rewrite Htask.
    rewrite (proj2 (Z.ltb_ge _ _)) by lia.
    destruct (cancelTask_modify_last now task) as (r & Hl & Ht & Hu).
    rewrite Hl.
    exists (cancelTask_modify now task).
    eexists _, r. split; [reflexivity|].
    split.
    { destruct (_ && _); cbn; apply lookup_insert_eq. }
    repeat split; try done.
    cbn. unfold task_state. by rewrite Hl.
  - unfold cancelTask.
    destruct (Task ctx !! tid) as [task|]; [|cbn; discriminate].
    destruct (task_deadline task <? now); [cbn; discriminate|].
    destruct (cancelTask_modify_last now task) as (r & Hl & _).
    rewrite Hl. cbn. intros [].
Qed.

(** ** reclaimTask never shortens a claim *)

(** X9: after a successful [reclaimTask] the [takenUntil] of the run is the
    later of the one it had and [now + claimTimeout]; it is never moved
    back.  The reply always carries [now + claimTimeout], also when the
    stored value is later. *)
Theorem reclaimTask_takenUntil (ctx ctx' : Context) (tid : string)
    (runId : nat) (now u : Z) (task : TaskEntity) (run : Run)
    (r : ReclaimReply) :
  Task ctx !! tid = Some task →
  runs task !! runId = Some run →
  run_takenUntil run = Some u →
  reclaimTask ctx tid runId now = (Reply r, ctx') →
  rp_takenUntil r = now + claimTimeout ctx * 1000
  ∧ ∃ task' run',
      Task ctx' !! tid = Some task'
      ∧ runs task' !! runId = Some run'
      ∧ run_takenUntil run' = Some (Z.max u (now + claimTimeout ctx * 1000))
      ∧ state run' = running
      ∧ rp_status r = status task'.
Proof.
  intros Htask Hrun Hu Hreply. unfold reclaimTask in Hreply.
  rewrite Htask, Hrun in Hreply.
  destruct (task_deadline task <=? now); [done|].
  set (p := now + claimTimeout ctx * 1000) in *.
  destruct (not_last_running runId task) eqn:Hn.
  { exfalso. unfold reclaimTask_modify, reclaim_advances in Hreply.
    rewrite Hn in Hreply. rewrite Hn in Hreply. done. }
  destruct (not_last_running_lookup _ _ Hn) as (r0 & Hl & Hst & Hlen).
  rewrite Hrun in Hl. simplify_eq.
  unfold reclaimTask_modify, reclaim_advances in Hreply.
  rewrite Hn, Hrun in Hreply. cbn [mbind option_bind] in Hreply.
  rewrite Hu in Hreply.
  destruct (p <=? u) eqn:Hle; cbn [negb] in Hreply.
  - apply Z.leb_le in Hle. rewrite Hn, Hrun in Hreply.
    rewrite store_task_id in Hreply by done. simplify_eq.
    split; [done|]. exists task, r0. repeat split; try done.
    rewrite Hu. f_equal. lia.
  - apply Z.leb_gt in Hle.
    set (task' := set_takenUntil p
                    (set_runs (alter (set_run_takenUntil p) runId (runs task))
                       task)) in *.
    assert (Hrun' : runs task' !! runId = Some (set_run_takenUntil p r0)).
    { cbn. by rewrite list_lookup_alter_eq, Hrun. }
    rewrite (not_last_running_false _ _ _ Hrun') in Hreply;
      [|by (cbn; rewrite length_alter)|done].
    simplify_eq. split; [done|].
    exists task', (set_run_takenUntil p r0). repeat split; try done.
    + cbn. apply lookup_insert_eq.
    + cbn. f_equal. lia.
Qed.

(** ** ensureTaskGroup sets the group tables up, once *)

Lemma set_TaskGroup_id (ctx : Context) (k : string) (g : TaskGroupEntity) :
  TaskGroup ctx !! k = Some g →
  set_TaskGroup (<[k := g]> (TaskGroup ctx)) ctx = ctx.
Proof.
  intros H. unfold set_TaskGroup. rewrite (insert_id _ _ _ H).
  by destruct ctx.
Qed.

(** With the tables set up for the task, [ensureTaskGroup] changes
    nothing. *)
Lemma ensureTaskGroup_settled (ctx : Context) (tid : string) (d : TaskDef) :
  group_settled ctx tid d →
  ensureTaskGroup ctx tid d = (GroupOk None, ctx).
Proof.
  intros ((g & Hg & Hs & He) & [m Hm] & Ha). unfold ensureTaskGroup.
  cbv zeta. rewrite Hg.
  rewrite bool_decide_eq_false_2 by (intros H; by apply H).
  destruct (tg_expires g <? default 0 (expires d)) eqn:Hlt.
  - apply Z.ltb_lt in Hlt. destruct He as [He|He]; [lia|].
    rewrite <- He.
    replace (mkTaskGroup (tg_schedulerId g) (tg_expires g)) with g
      by (by destruct g).
    rewrite set_TaskGroup_id by done. rewrite Hm, Ha.
    by rewrite bool_decide_eq_false_2 by (intros H; by apply H).
  - rewrite Hm, Ha.
    by rewrite bool_decide_eq_false_2 by (intros H; by apply H).
Qed.

(** What a successful [ensureTaskGroup] leaves in the group tables. *)
Lemma ensureTaskGroup_result (ctx ctx' : Context) (tid : string)
    (d : TaskDef) (rep : option ErrorDetail) :
  ensureTaskGroup ctx tid d = (GroupOk rep, ctx') →
  let G := default tid (taskGroupId d) in
  let E := default 0 (expires d) in
  (∃ g, TaskGroup ctx' !! G = Some g
        ∧ tg_schedulerId g = schedulerId d
        ∧ (E <= tg_expires g
           ∨ tg_expires g = E + taskGroupExpiresExtension ctx * 1000)
        ∧ (∀ g0, TaskGroup ctx !! G = Some g0 →
             tg_schedulerId g0 = schedulerId d
             ∧ (tg_expires g = tg_expires g0
                ∨ tg_expires g0 < E
                  ∧ tg_expires g = E + taskGroupExpiresExtension ctx * 1000)))
  ∧ (∀ k, k ≠ G → TaskGroup ctx' !! k = TaskGroup ctx !! k)
  ∧ is_Some (TaskGroupMember ctx' !! (G, tid))
  ∧ (∀ k, k ≠ (G, tid) →
       TaskGroupMember ctx' !! k = TaskGroupMember ctx !! k
       ∧ TaskGroupActiveSet ctx' !! k = TaskGroupActiveSet ctx !! k)
  ∧ match rep with
    | None =>
        TaskGroupActiveSet ctx' !! (G, tid) = Some E
        ∧ (∀ a, TaskGroupActiveSet ctx !! (G, tid) = Some a → a = E)
    | Some e =>
        code e = RequestConflict
        ∧ ∃ a, TaskGroupActiveSet ctx !! (G, tid) = Some a ∧ a ≠ E
               ∧ TaskGroupActiveSet ctx' !! (G, tid) = Some a
    end.
Proof.
  intros H G E. unfold ensureTaskGroup in H. fold G E in H.
  destruct (TaskGroup ctx !! G) as [g0|] eqn:HG;
    destruct_matches H; simplify_eq/=;
    repeat match goal with
    | Hb : bool_decide _ = false |- _ =>
        apply bool_decide_eq_false in Hb; try apply dec_stable in Hb
    | Hb : bool_decide _ = true |- _ => apply bool_decide_eq_true in Hb
    | Hb : (_ <? _) = true |- _ => apply Z.ltb_lt in Hb
    | Hb : (_ <? _) = false |- _ => apply Z.ltb_ge in Hb
    end;
    rewrite ?insert_insert_eq;
    repeat match goal with
    | |- _ ∧ _ => split
    | |- ∀ _, _ => intros
    | |- ∃ _ : TaskGroupEntity, _ => eexists
    | |- ∃ _ : Z, _ => eexists
    | |- is_Some _ => eexists
    end;
    simplify_eq/=;
    rewrite ?lookup_insert_eq, ?lookup_insert_ne by done;
    try done; try eassumption;
    cbn [tg_expires tg_schedulerId] in *; try lia.
Qed.

Lemma ensureTaskGroup_settles (ctx ctx' : Context) (tid : string)
    (d : TaskDef) :
  ensureTaskGroup ctx tid d = (GroupOk None, ctx') →
  group_settled ctx' tid d.
Proof.
  intros H.
  destruct (ensureTaskGroup_frame _ _ _ _ _ H) as (_ & _ & _ & _ & Hext & _).
  destruct (ensureTaskGroup_result _ _ _ _ _ H)
    as ((g & Hg & Hs & He & _) & _ & Hm & _ & Ha & _).
  unfold group_settled. rewrite Hext. eauto 10.
Qed.

(** ** createTask, step by step *)

(** [createTask] after a definition has passed the validation and
    [ensureTaskGroup] has returned true. *)
Lemma createTask_after_group (ctx ctx1 : Context) (tid : string)
    (d : TaskDef) (now : Z) (rep : option ErrorDetail) :
  timestamps_accepted now d →
  existsb (endsWith "**") (scopes d) = false →
  ensureTaskGroup ctx tid (patched tid d) = (GroupOk rep, ctx1) →
  let ctx2 :=
    emit [putDeadlineMessage tid (default tid (taskGroupId d))
            (schedulerId d) (deadline d)] ctx1 in
  createTask ctx tid d now =
    if propertyTooLarge ctx (patched tid d) then
      (respond rep (ReportError (mkError InputError "PropertyTooLarge")),
       ctx2)
    else
    match Task ctx !! tid with
    | None =>
        createTask_publish
          (store_task tid (createTask_entity tid (patched tid d) now) ctx2)
          (createTask_entity tid (patched tid d) now) rep now
    | Some task =>
        if bool_decide (patched tid d ≠ definition task) then
          (respond rep
             (ReportError (mkError RequestConflict
                "taskId `{{taskId}}` already used by another task.")),
           ctx2)
        else createTask_publish ctx2 task rep now
    end.
Proof.
  intros Hok Hstar Heg ctx2. unfold createTask.
  rewrite (patchAndValidateTaskDef_accepts _ _ _ Hok).
  destruct (patched_fields tid d)
    as (Hs & _ & Hsched & Hdl & _ & _ & Hgid & _).
  rewrite Hs, Hstar, Heg.
  destruct (ensureTaskGroup_frame _ _ _ _ _ Heg)
    as (HT & _ & _ & _ & _ & _ & Hsz).
  cbn [Task propertyTooLarge emit]. rewrite HT, Hsz, Hgid, Hsched, Hdl.
  reflexivity.
Qed.

(** The tail of [createTask] for a task that has a run already: the
    dependency tracker is not consulted; run 0 decides what is published. *)
Lemma createTask_publish_scheduled (ctx : Context) (task : TaskEntity)
    (rep : option ErrorDetail) (now : Z) (run0 : Run) :
  runs task !! 0%nat = Some run0 →
  task_state task ≠ unscheduled →
  state run0 ≠ unscheduled →
  createTask_publish ctx task rep now =
    (respond rep (Reply (status task)),
     if bool_decide (state run0 = pending) then
       emit [publish taskDefined (status task) None;
             putPendingMessage (taskId task) 0;
             publish taskPending (status task) (Some 0%nat)] ctx
     else ctx).
Proof.
  intros H0 Hst Hr0. unfold createTask_publish.
  rewrite (bool_decide_eq_false_2 (task_state task = unscheduled)) by done.
  rewrite H0.
  rewrite (bool_decide_eq_true_2 (state run0 ≠ unscheduled)) by done.
  cbn [andb]. destruct (bool_decide (state run0 = pending)) eqn:Hp.
  - apply bool_decide_eq_true in Hp.
    rewrite bool_decide_eq_false_2 by (intros H; by apply H).
    by rewrite emit_emit.
  - apply bool_decide_eq_false in Hp. by rewrite bool_decide_eq_true_2.
Qed.

(** [ensureTaskGroup] returns true without a report when the group, if it
    exists, belongs to the scheduler of the definition and the active-set
    row, if it exists, carries the expiration of the definition. *)
Lemma ensureTaskGroup_ok (ctx : Context) (tid : string) (d : TaskDef) :
  (∀ g, TaskGroup ctx !! default tid (taskGroupId d) = Some g →
        tg_schedulerId g = schedulerId d) →
  (∀ a, TaskGroupActiveSet ctx !! (default tid (taskGroupId d), tid) = Some a →
        a = default 0 (expires d)) →
  ∃ ctx1, ensureTaskGroup ctx tid d = (GroupOk None, ctx1).
Proof.
  intros Hs Ha.
  destruct (ensureTaskGroup ctx tid d) as [r ctx1] eqn:H. exists ctx1.
  f_equal. unfold ensureTaskGroup in H.
  destruct (TaskGroup ctx !! default tid (taskGroupId d)) as [g0|] eqn:HG;
    destruct_matches H; simplify_eq/=; try done;
    repeat match goal with
    | Hb : bool_decide _ = true |- _ => apply bool_decide_eq_true in Hb
    end.
  all: try (exfalso; by eauto).
  all: try (exfalso; match goal with
            | Hn : _ ≠ _ |- _ => apply Hn; by eauto
            end).
Qed.

(** [ensureTaskGroup] returns false only for a group of another scheduler. *)
Lemma ensureTaskGroup_conflict_inv (ctx ctx1 : Context) (tid : string)
    (d : TaskDef) (e : ErrorDetail) :
  ensureTaskGroup ctx tid d = (GroupConflict e, ctx1) →
  ∃ g, TaskGroup ctx !! default tid (taskGroupId d) = Some g
       ∧ tg_schedulerId g ≠ schedulerId d.
Proof.
  intros H. unfold ensureTaskGroup in H.
  destruct (TaskGroup ctx !! default tid (taskGroupId d)) as [g0|] eqn:HG;
    destruct_matches H; simplify_eq/=;
    repeat match goal with
    | Hb : bool_decide _ = true |- _ => apply bool_decide_eq_true in Hb
    end; try done; eauto.
Qed.

(** ** createTask: first call, repeated call, conflicting call *)

Lemma createTask_entity_no_deps (tid : string) (d : TaskDef) (now : Z) :
  dependencies d = [] →
  createTask_entity tid (patched tid d) now
  = mkTask tid (patched tid d) (retries d)
      [new_run pending rc_scheduled now] 0.
Proof.
  intros Hd. unfold createTask_entity.
  destruct (patched_fields tid d) as (_ & Hdep & _ & _ & _ & Hr & _).
  by rewrite Hdep, Hd, Hr.
Qed.

(** [createTask] on a task id without a row, for a definition without
    dependencies, once the group tables accept it. *)
Lemma createTask_fresh_run (ctx ctx1 : Context) (tid : string) (d : TaskDef)
    (now : Z) (rep : option ErrorDetail) :
  timestamps_accepted now d →
  existsb (endsWith "**") (scopes d) = false →
  dependencies d = [] →
  propertyTooLarge ctx (patched tid d) = false →
  Task ctx !! tid = None →
  ensureTaskGroup ctx tid (patched tid d) = (GroupOk rep, ctx1) →
  let task :=
    mkTask tid (patched tid d) (retries d)
      [new_run pending rc_scheduled now] 0 in
  createTask ctx tid d now =
    (respond rep (Reply (status task)),
     emit [publish taskDefined (status task) None;
           putPendingMessage tid 0;
           publish taskPending (status task) (Some 0%nat)]
       (store_task tid task
          (emit [putDeadlineMessage tid (default tid (taskGroupId d))
                   (schedulerId d) (deadline d)] ctx1))).
Proof.
  intros Hok Hstar Hdep Hsize Hnone Heg task.
  rewrite (createTask_after_group _ _ _ _ _ _ Hok Hstar Heg), Hsize, Hnone.
  rewrite (createTask_entity_no_deps _ _ _ Hdep). fold task.
  by rewrite (createTask_publish_scheduled _ task rep now
                (new_run pending rc_scheduled now)).
Qed.

Lemma Forall_last_state (rs : list Run) :
  rs ≠ [] →
  Forall (λ r, state r ≠ unscheduled) rs →
  last_state rs ≠ unscheduled.
Proof.
  intros Hne HF. unfold last_state, last_run.
  destruct (last rs) as [r|] eqn:Hl.
  - apply last_Some_elem_of in Hl.
    by apply (proj1 (Forall_forall _ _) HF).
  - by apply last_None in Hl.
Qed.

(** [createTask] for a task id whose row exists with the definition of the
    request. *)
Lemma createTask_again_run (ctx : Context) (tid : string) (d : TaskDef)
    (now : Z) (task : TaskEntity) (run0 : Run) :
  timestamps_accepted now d →
  existsb (endsWith "**") (scopes d) = false →
  Task ctx !! tid = Some task →
  definition task = patched tid d →
  runs task !! 0%nat = Some run0 →
  Forall (λ r, state r ≠ unscheduled) (runs task) →
  group_settled ctx tid (patched tid d) →
  propertyTooLarge ctx (definition task) = false →
  createTask ctx tid d now =
    (Reply (status task),
     emit (putDeadlineMessage tid (default tid (taskGroupId d))
             (schedulerId d) (deadline d)
           :: if bool_decide (state run0 = pending) then
                [publish taskDefined (status task) None;
                 putPendingMessage (taskId task) 0;
                 publish taskPending (status task) (Some 0%nat)]
              else []) ctx).
Proof.
  intros Hok Hstar HT Hdef H0 HF Hset Hsize. rewrite Hdef in Hsize.
  rewrite (createTask_after_group _ _ _ _ _ _ Hok Hstar
             (ensureTaskGroup_settled _ _ _ Hset)), Hsize, HT.
  rewrite bool_decide_eq_false_2 by (intros H; by apply H).
  assert (task_state task ≠ unscheduled) as Hst.
  { apply (Forall_last_state (runs task)); [|done].
    intros Hnil. by rewrite Hnil in H0. }
  assert (state run0 ≠ unscheduled) as Hr0.
  { apply (proj1 (Forall_forall _ _) HF).
    by apply (list_elem_of_lookup_2 _ 0%nat). }
  rewrite (createTask_publish_scheduled _ task None now run0) by done.
  cbn [respond]. f_equal.
  destruct (bool_decide (state run0 = pending)).
  - by rewrite emit_emit.
  - done.
Qed.

(** X10: the first [createTask] of a task without dependencies, on a task id
    that has no row, in a group that belongs to the scheduler of the task (or
    does not exist yet): the reply is the status of a task with one pending
    run created at [now] for the reason scheduled and all its retries left;
    exactly that task is stored under the task id; the deadline message, the
    task-defined event, the pending message and the task-pending event are
    sent in this order and nothing else; the group tables hold the task
    afterwards.  The definition is one the store accepts: [Task.create] does
    not fail with PropertyTooLarge. *)
Theorem createTask_fresh (ctx : Context) (tid : string) (d : TaskDef)
    (now : Z) :
  timestamps_accepted now d →
  existsb (endsWith "**") (scopes d) = false →
  dependencies d = [] →
  propertyTooLarge ctx (patched tid d) = false →
  Task ctx !! tid = None →
  (∀ g, TaskGroup ctx !! default tid (taskGroupId d) = Some g →
        tg_schedulerId g = schedulerId d) →
  (∀ a, TaskGroupActiveSet ctx !! (default tid (taskGroupId d), tid) = Some a →
        a = default (addFullYear (deadline d)) (expires d)) →
  let task :=
    mkTask tid (patched tid d) (retries d)
      [new_run pending rc_scheduled now] 0 in
  ∃ ctx',
    createTask ctx tid d now = (Reply (status task), ctx')
    ∧ Task ctx' = <[tid := task]> (Task ctx)
    ∧ log ctx' =
        log ctx ++
        [putDeadlineMessage tid (default tid (taskGroupId d))
           (schedulerId d) (deadline d);
         publish taskDefined (status task) None;
         putPendingMessage tid 0;
         publish taskPending (status task) (Some 0%nat)]
    ∧ group_settled ctx' tid (patched tid d).
Proof.
  intros Hok Hstar Hdep Hsize Hnone Hs Ha task.
  destruct (patched_fields tid d)
    as (_ & _ & Hsched & _ & _ & _ & Hgid & Hexp).
  destruct (ensureTaskGroup_ok ctx tid (patched tid d)) as [ctx1 Heg].
  { rewrite Hgid, Hsched. exact Hs. }
  { rewrite Hgid, Hexp. exact Ha. }
  destruct (ensureTaskGroup_frame _ _ _ _ _ Heg) as (HT & _ & _ & Hlog & _).
  pose proof (ensureTaskGroup_settles _ _ _ _ Heg) as Hset.
  eexists. split.
  { exact (createTask_fresh_run _ _ _ _ _ _ Hok Hstar Hdep Hsize Hnone Heg). }
  cbn [Task log emit store_task set_Task]. rewrite HT, Hlog.
  split; [done|]. split; [by rewrite <- app_assoc|].
  exact Hset.
Qed.


(** [createTask] for a task id whose row holds another definition. *)
Lemma createTask_conflicting_definition (ctx : Context) (tid : string)
    (d : TaskDef) (now : Z) (task : TaskEntity) :
  timestamps_accepted now d →
  existsb (endsWith "**") (scopes d) = false →
  Task ctx !! tid = Some task →
  patched tid d ≠ definition task →
  ∃ e ctx',
    createTask ctx tid d now = (ReportError e, ctx')
    ∧ (propertyTooLarge ctx (patched tid d) = false →
       code e = RequestConflict)
    ∧ (code e = RequestConflict ∨ code e = InputError)
    ∧ (code e = InputError → propertyTooLarge ctx (patched tid d) = true)
    ∧ Task ctx' = Task ctx
    ∧ (log ctx' = log ctx
       ∨ log ctx' =
           log ctx ++
           [putDeadlineMessage tid (default tid (taskGroupId d))
              (schedulerId d) (deadline d)]).
Proof.
  intros Hok Hstar HT Hdef.
  destruct (ensureTaskGroup ctx tid (patched tid d)) as [[e|rep] ctx1] eqn:Heg.
  - destruct (ensureTaskGroup_frame _ _ _ _ _ Heg) as (HT1 & _ & _ & Hl & _).
    exists e, ctx1. unfold createTask.
    rewrite (patchAndValidateTaskDef_accepts _ _ _ Hok).
    destruct (patched_fields tid d) as (Hs & _).
    rewrite Hs, Hstar, Heg.
    pose proof (ensureTaskGroup_code _ _ _ _ _ Heg) as Hc.
    cbn in Hc. rewrite Hc. repeat split; auto; discriminate.
  - destruct (ensureTaskGroup_frame _ _ _ _ _ Heg) as (HT1 & _ & _ & Hl & _).
    rewrite (createTask_after_group _ _ _ _ _ _ Hok Hstar Heg), HT.
    rewrite bool_decide_eq_true_2 by done.
    destruct (ensureTaskGroup_result _ _ _ _ _ Heg) as (_ & _ & _ & _ & Hrep).
    destruct rep as [e|]; cbn [respond].
    + destruct Hrep as [Hc _].
      exists e. eexists.
      split; [by destruct (propertyTooLarge ctx (patched tid d))|].
      rewrite Hc. split; [done|]. split; [auto|]. split; [discriminate|].
      destruct (propertyTooLarge ctx (patched tid d));
        cbn [Task log emit snd]; rewrite HT1, Hl; auto.
    + destruct (propertyTooLarge ctx (patched tid d)) eqn:Hsize;
        eexists _, _; (split; [reflexivity|]);
        cbn [Task log emit code]; rewrite HT1, Hl;
        repeat split; auto; discriminate.
Qed.

(** X12: [createTask] with a definition that, once patched, differs from the
    definition stored under the task id is refused when its timestamps and
    scopes are acceptable: with RequestConflict when the store accepts the
    definition, and also when the group belongs to another scheduler or
    [ensureTaskGroup] has reported a conflict; with InputError when
    [Task.create] fails with PropertyTooLarge and nothing was reported
    before.  In all cases the stored task is not touched and no event is
    published: at most the deadline message is sent. *)
Theorem createTask_other_definition (ctx : Context) (tid : string)
    (d : TaskDef) (now : Z) (task : TaskEntity) :
  timestamps_accepted now d →
  existsb (endsWith "**") (scopes d) = false →
  Task ctx !! tid = Some task →
  patched tid d ≠ definition task →
  ∃ e ctx',
    createTask ctx tid d now = (ReportError e, ctx')
    ∧ (propertyTooLarge ctx (patched tid d) = false →
       code e = RequestConflict)
    ∧ (code e = RequestConflict ∨ code e = InputError)
    ∧ (code e = InputError → propertyTooLarge ctx (patched tid d) = true)
    ∧ Task ctx' = Task ctx
    ∧ (log ctx' = log ctx
       ∨ log ctx' =
           log ctx ++
           [putDeadlineMessage tid (default tid (taskGroupId d))
              (schedulerId d) (deadline d)]).
Proof.
  intros Hok Hstar HT Hdef.
  destruct (createTask_conflicting_definition ctx tid d now task Hok Hstar
              HT Hdef) as (e & ctx' & Hrun & Hfit & Hcode & Hlarge & Hrest).
  exists e, ctx'. split; [exact Hrun|]. split; [exact Hfit|].
  split; [exact Hcode|]. split; [exact Hlarge|exact Hrest].
Qed.

(** X13: an active-set row of the task id with another expiration makes
    [ensureTaskGroup] report RequestConflict and still return true, so
    [createTask] goes on: the caller is told RequestConflict, and the task
    (of a definition that the store accepts) is created with its pending run
    and announced all the same. *)
Theorem createTask_reported_but_created (ctx : Context) (tid : string)
    (d : TaskDef) (now : Z) (a : Z) :
  timestamps_accepted now d →
  existsb (endsWith "**") (scopes d) = false →
  dependencies d = [] →
  propertyTooLarge ctx (patched tid d) = false →
  Task ctx !! tid = None →
  (∀ g, TaskGroup ctx !! default tid (taskGroupId d) = Some g →
        tg_schedulerId g = schedulerId d) →
  TaskGroupActiveSet ctx !! (default tid (taskGroupId d), tid) = Some a →
  a ≠ default (addFullYear (deadline d)) (expires d) →
  let task :=
    mkTask tid (patched tid d) (retries d)
      [new_run pending rc_scheduled now] 0 in
  ∃ e ctx',
    createTask ctx tid d now = (ReportError e, ctx')
    ∧ code e = RequestConflict
    ∧ Task ctx' = <[tid := task]> (Task ctx)
    ∧ log ctx' =
        log ctx ++
        [putDeadlineMessage tid (default tid (taskGroupId d))
           (schedulerId d) (deadline d);
         publish taskDefined (status task) None;
         putPendingMessage tid 0;
         publish taskPending (status task) (Some 0%nat)].
Proof.
  intros Hok Hstar Hdep Hsize Hnone Hs Ha Hne task.
  destruct (patched_fields tid d)
    as (_ & _ & Hsched & _ & _ & _ & Hgid & Hexp).
  destruct (ensureTaskGroup ctx tid (patched tid d)) as [[e|rep] ctx1] eqn:Heg.
  - exfalso.
    destruct (ensureTaskGroup_conflict_inv _ _ _ _ _ Heg) as (g & Hg & Hsg).
    rewrite Hgid in Hg. cbn [default] in Hg. rewrite Hsched in Hsg.
    by apply Hsg, Hs.
  - destruct (ensureTaskGroup_frame _ _ _ _ _ Heg) as (HT1 & _ & _ & Hl & _).
    destruct (ensureTaskGroup_result _ _ _ _ _ Heg) as (_ & _ & _ & _ & Hrep).
    rewrite Hgid, Hexp in Hrep. cbn [default] in Hrep.
    destruct rep as [e|].
    + destruct Hrep as [Hc _]. exists e. eexists. split.
      { exact (createTask_fresh_run _ _ _ _ _ _ Hok Hstar Hdep Hsize Hnone
                 Heg). }
      cbn [Task log emit store_task set_Task]. rewrite HT1, Hl.
      split; [done|]. split; [done|]. by rewrite <- app_assoc.
    + exfalso. destruct Hrep as [_ Hall]. by apply Hne, Hall.
Qed.

(** ** ensureTaskGroup, seen from its callers *)

(** Rows of the membership and active-set tables are created, never
    overwritten. *)
Lemma ensureTaskGroup_keeps_rows (ctx ctx' : Context) (tid : string)
    (d : TaskDef) (r : GroupResult) :
  ensureTaskGroup ctx tid d = (r, ctx') →
  (∀ k v, TaskGroupMember ctx !! k = Some v →
          TaskGroupMember ctx' !! k = Some v)
  ∧ (∀ k v, TaskGroupActiveSet ctx !! k = Some v →
            TaskGroupActiveSet ctx' !! k = Some v).
Proof.
  intros H. unfold ensureTaskGroup in H.
  destruct (TaskGroup ctx !! default tid (taskGroupId d)) as [g0|] eqn:HG;
    destruct_matches H; simplify_eq/=; split; intros k v Hk; try done.
  all: destruct (decide (k = (default tid (taskGroupId d), tid))) as [->|Hne];
    [congruence || (rewrite lookup_insert_eq; congruence)
    |by rewrite ?lookup_insert_ne].
Qed.

(** X14: what a call of [ensureTaskGroup] that returns true leaves behind,
    for a non-negative expiration extension: the group of the definition
    exists with the schedulerId of the definition and expires no earlier
    than the task and no earlier than it did before; the task has a
    membership row and an active-set row; rows that existed in these two
    tables are as they were; and when nothing was reported, calling it again
    for the same task changes nothing. *)
Theorem ensureTaskGroup_sets_up (ctx ctx' : Context) (tid : string)
    (d : TaskDef) (rep : option ErrorDetail) :
  0 <= taskGroupExpiresExtension ctx →
  ensureTaskGroup ctx tid d = (GroupOk rep, ctx') →
  let G := default tid (taskGroupId d) in
  let E := default 0 (expires d) in
  (∃ g, TaskGroup ctx' !! G = Some g
        ∧ tg_schedulerId g = schedulerId d
        ∧ E <= tg_expires g
        ∧ ∀ g0, TaskGroup ctx !! G = Some g0 →
                tg_schedulerId g0 = schedulerId d
                ∧ tg_expires g0 <= tg_expires g)
  ∧ is_Some (TaskGroupMember ctx' !! (G, tid))
  ∧ is_Some (TaskGroupActiveSet ctx' !! (G, tid))
  ∧ (∀ k v, TaskGroupMember ctx !! k = Some v →
            TaskGroupMember ctx' !! k = Some v)
  ∧ (∀ k v, TaskGroupActiveSet ctx !! k = Some v →
            TaskGroupActiveSet ctx' !! k = Some v)
  ∧ (rep = None → ensureTaskGroup ctx' tid d = (GroupOk None, ctx')).
Proof.
  intros Hext H G E.
  destruct (ensureTaskGroup_result _ _ _ _ _ H)
    as ((g & Hg & Hs & He & Hold) & _ & Hm & _ & Hrep).
  fold G E in Hg, He, Hold, Hm, Hrep.
  destruct (ensureTaskGroup_keeps_rows _ _ _ _ _ H) as [HM HA].
  split.
  { exists g. split; [done|]. split; [done|]. split; [lia|].
    intros g0 Hg0. destruct (Hold g0 Hg0) as [Hs0 Hcase]. split; [done|lia]. }
  split; [done|]. split.
  { destruct rep; [destruct Hrep as (_ & a & _ & _ & Ha)|destruct Hrep as [Ha _]];
      by eexists. }
  split; [done|]. split; [done|].
  intros ->. apply ensureTaskGroup_settled. by eapply ensureTaskGroup_settles.
Qed.

(** ** defineTask and createTask do not mix *)

(** X15: [defineTask] puts the task id among the dependencies of the
    definition before it compares definitions, so for a task id whose stored
    definition does not depend on itself (every task stored by [createTask]
    from such a definition) [defineTask] answers with an error, whatever
    definition it is given, and leaves the task table alone.  The error is
    RequestConflict for acceptable timestamps and a definition that the
    store accepts; when [Task.create] fails with PropertyTooLarge and
    nothing was reported before, it is InputError. *)
Theorem defineTask_existing_without_self (ctx : Context) (tid : string)
    (d : TaskDef) (now : Z) (task : TaskEntity) :
  Task ctx !! tid = Some task →
  tid ∉ dependencies (definition task) →
  ∃ e ctx',
    defineTask ctx tid d now = (ReportError e, ctx')
    ∧ Task ctx' = Task ctx
    ∧ (code e = RequestConflict ∨ code e = InputError)
    ∧ (timestamps_accepted now d →
       propertyTooLarge ctx (self_dependent tid (patched tid d)) = false →
       code e = RequestConflict).
Proof.
  intros HT Hself. unfold defineTask.
  destruct (timestamps_accepted_dec now d) as [Hok|Hbad].
  2: { destruct (patchAndValidateTaskDef_rejects tid d now Hbad)
         as (e & d' & He & Hc).
       rewrite He. eexists _, _. split; [reflexivity|]. split; [done|].
       split; [auto|]. done. }
  rewrite (patchAndValidateTaskDef_accepts _ _ _ Hok).
  set (d'' := self_dependent tid (patched tid d)).
  assert (tid ∈ dependencies d'') as Hin.
  { unfold d'', self_dependent. case_bool_decide; [done|].
    destruct (patched tid d); cbn. apply list_elem_of_here. }
  destruct (ensureTaskGroup ctx tid d'') as [[e|rep] ctx1] eqn:Heg;
    destruct (ensureTaskGroup_frame _ _ _ _ _ Heg)
      as (HT1 & _ & _ & _ & _ & _ & Hsz);
    pose proof (ensureTaskGroup_code _ _ _ _ _ Heg) as Hc; cbn in Hc.
  - eexists _, _. split; [reflexivity|]. split; [done|]. auto.
  - cbn [Task propertyTooLarge emit]. rewrite HT1, Hsz, HT.
    rewrite bool_decide_eq_true_2 by (intros ->; done).
    destruct (propertyTooLarge ctx d'') eqn:Hsize;
      destruct rep; cbn [respond]; eexists _, _;
      (split; [reflexivity|]); cbn [Task emit code]; rewrite HT1;
      (split; [done|]); (split; [auto|]); intros; (done || auto).
Qed.

(** ** Definitions with their defaults filled in *)

Lemma patched_idem (tid : string) (d : TaskDef) :
  patched tid (patched tid d) = patched tid d.
Proof.
  destruct d as [pv wt sc gid deps rq rts prio rt cr dl ex scs pl md tg xt].
  unfold patched.
  destruct gid as [g|], ex as [e|]; cbn -[addFullYear];
    destruct (decide (prio = normal)) as [Hp|Hp]; cbn -[addFullYear];
    rewrite ?decide_False by done; reflexivity.
Qed.

Lemma timestamps_accepted_patched (tid : string) (d : TaskDef) (now : Z) :
  timestamps_accepted now (patched tid d) ↔ timestamps_accepted now d.
Proof.
  unfold timestamps_accepted.
  destruct (patched_fields tid d)
    as (_ & _ & _ & Hdl & Hcr & _ & _ & Hex).
  rewrite Hdl, Hcr, Hex. cbn [default]. reflexivity.
Qed.

(** The verdict of [patchAndValidateTaskDef] depends on [created], on
    [deadline] and on [expires] with its default. *)
Lemma patchAndValidateTaskDef_detail (tid : string) (d : TaskDef) (now : Z) :
  (patchAndValidateTaskDef tid d now).1 =
    if created d <? now - minutes15 then
      Some (mkError InputError
        "Created timestamp cannot be in the past (max 15min drift)")
    else if now + minutes15 <? created d then
      Some (mkError InputError
        "Created timestamp cannot be in the future (max 15min drift)")
    else if deadline d <? created d then
      Some (mkError InputError "Deadline cannot be past created")
    else if deadline d <? now then
      Some (mkError InputError "Deadline cannot be in the past")
    else if days5 + minutes15 <? deadline d - now then
      Some (mkError InputError
        "Deadline cannot be more than 5 days into the future")
    else if default (addFullYear (deadline d)) (expires d) <? deadline d then
      Some (mkError InputError "Expires cannot be before the deadline")
    else None.
Proof.
  unfold patchAndValidateTaskDef.
  assert (Hcr : ∀ x, created (match taskGroupId d with
                              | Some _ => d
                              | None => set_taskGroupId x d
                              end) = created d) by (by destruct (taskGroupId d)).
  assert (Hdl : ∀ x, deadline (match taskGroupId d with
                               | Some _ => d
                               | None => set_taskGroupId x d
                               end) = deadline d) by (by destruct (taskGroupId d)).
  assert (Hex : ∀ x, expires (match taskGroupId d with
                              | Some _ => d
                              | None => set_taskGroupId x d
                              end) = expires d) by (by destruct (taskGroupId d)).
  rewrite Hcr, Hdl, Hex.
  generalize (addFullYear (deadline d)). intros y.
  destruct (created d <? now - minutes15); [reflexivity|].
  destruct (now + minutes15 <? created d); [reflexivity|].
  destruct (deadline d <? created d); [reflexivity|].
  destruct (deadline d <? now); [reflexivity|].
  destruct (days5 + minutes15 <? deadline d - now); [reflexivity|].
  destruct (expires d) as [e|] eqn:E.
  - rewrite ?Hex, ?E. change (default 0 (Some e)) with e.
    change (default y (Some e)) with e.
    destruct (e <? deadline d); reflexivity.
  - cbn [expires set_expires]. change (default 0 (Some y)) with y.
    change (default y None) with y.
    destruct (y <? deadline d); reflexivity.
Qed.

Lemma patchAndValidateTaskDef_of_patched (tid : string) (d : TaskDef)
    (now : Z) :
  (patchAndValidateTaskDef tid (patched tid d) now).1
  = (patchAndValidateTaskDef tid d now).1.
Proof.
  rewrite !patchAndValidateTaskDef_detail.
  destruct (patched_fields tid d)
    as (_ & _ & _ & Hdl & Hcr & _ & _ & Hex).
  rewrite Hdl, Hcr, Hex. reflexivity.
Qed.

Lemma patchAndValidateTaskDef_None (tid : string) (d d' : TaskDef) (now : Z) :
  patchAndValidateTaskDef tid d now = (None, d') →
  timestamps_accepted now d ∧ d' = patched tid d.
Proof.
  intros H.
  destruct (timestamps_accepted_dec now d) as [Hok|Hbad].
  - split; [done|].
    rewrite (patchAndValidateTaskDef_accepts _ _ _ Hok) in H. congruence.
  - destruct (patchAndValidateTaskDef_rejects tid d now Hbad)
      as (e & d'' & He & _). congruence.
Qed.

(** X16: the definition as the queue stores it can be submitted again:
    [createTask] and [defineTask] give the same reply, the same tables and
    the same messages for a definition and for the same definition with the
    defaults of [patchAndValidateTaskDef] already filled in (taskGroupId,
    expires, priority lowest for normal); filling in the defaults twice
    changes nothing. *)
Theorem createTask_defaults_filled (ctx : Context) (tid : string)
    (d : TaskDef) (now : Z) :
  createTask ctx tid (patched tid d) now = createTask ctx tid d now
  ∧ defineTask ctx tid (patched tid d) now = defineTask ctx tid d now
  ∧ ∀ d', patchAndValidateTaskDef tid d now = (None, d') →
          patchAndValidateTaskDef tid d' now = (None, d').
Proof.
  pose proof (patchAndValidateTaskDef_of_patched tid d now) as H1.
  assert (∀ d', patchAndValidateTaskDef tid d now = (None, d') →
                patchAndValidateTaskDef tid d' now = (None, d')) as Hidem.
  { intros d' H. destruct (patchAndValidateTaskDef_None _ _ _ _ H) as [Hok ->].
    rewrite patchAndValidateTaskDef_accepts
      by (by apply timestamps_accepted_patched).
    by rewrite patched_idem. }
  assert (match patchAndValidateTaskDef tid d now with
          | (Some e, _) =>
              ∃ d2, patchAndValidateTaskDef tid (patched tid d) now
                    = (Some e, d2)
          | (None, d1) =>
              patchAndValidateTaskDef tid (patched tid d) now = (None, d1)
          end) as Hsame.
  { destruct (patchAndValidateTaskDef tid d now) as [[e|] d1] eqn:Hd.
    - destruct (patchAndValidateTaskDef tid (patched tid d) now)
        as [e2 d2]. cbn in H1. subst e2. by exists d2.
    - destruct (patchAndValidateTaskDef_None _ _ _ _ Hd) as [_ ->].
      by apply Hidem. }
  split; [|split; [|exact Hidem]].
  - unfold createTask.
    destruct (patchAndValidateTaskDef tid d now) as [[e|] d1].
    + destruct Hsame as [d2 ->]. reflexivity.
    + rewrite Hsame. reflexivity.
  - unfold defineTask.
    destruct (patchAndValidateTaskDef tid d now) as [[e|] d1].
    + destruct Hsame as [d2 ->]. reflexivity.
    + rewrite Hsame. reflexivity.
Qed.

(** ** The default expiration *)

(** Position of a day in the 400-year cycle of the calendar: the year of
    the era and the day of the year, as [civil_from_days] computes them. *)
Lemma yoe_range (doe : Z) :
  0 <= doe < 146097 →
  0 <= (doe - doe / 1460 + doe / 36524 - doe / 146096) / 365 <= 399.
Proof. intros H. Z.div_mod_to_equations. lia. Qed.

Lemma doy_range (doe : Z) :
  0 <= doe < 146097 →
  let yoe := (doe - doe / 1460 + doe / 36524 - doe / 146096) / 365 in
  0 <= doe - (365 * yoe + yoe / 4 - yoe / 100) <= 366.
Proof. intros H. cbv zeta. Z.div_mod_to_equations. lia. Qed.

Lemma addFullYear_days (z y m d : Z) :
  civil_from_days z = (y, m, d) →
  days_from_civil (y + 1) m d - z = 365
  ∨ days_from_civil (y + 1) m d - z = 366.
Proof.
  unfold civil_from_days. cbv zeta.
  set (era := (z + 719468) / 146097).
  set (doe := z + 719468 - era * 146097).
  assert (0 <= doe < 146097) as Hdoe
    by (unfold doe, era; Z.div_mod_to_equations; lia).
  assert (z = doe - 719468 + 146097 * era) as Hz by (unfold doe; lia).
  clearbody doe era. subst z.
  pose proof (yoe_range doe Hdoe) as Hyoe.
  pose proof (doy_range doe Hdoe) as Hdoy. cbv zeta in Hdoy.
  set (yoe := (doe - doe / 1460 + doe / 36524 - doe / 146096) / 365) in *.
  clearbody yoe.
  set (doy := doe - (365 * yoe + yoe / 4 - yoe / 100)) in *.
  assert (doe = doy + (365 * yoe + yoe / 4 - yoe / 100)) as Hdoe'
    by (unfold doy; lia).
  clearbody doy. subst doe.
  set (mp := (5 * doy + 2) / 153).
  assert (0 <= mp <= 11) as Hmp
    by (unfold mp; Z.div_mod_to_equations; lia).
  clearbody mp.
  intros H. injection H as Hy Hm Hd. subst y m d.
  unfold days_from_civil. cbv zeta.
  destruct (mp <? 10) eqn:E1;
    [apply Z.ltb_lt in E1|apply Z.ltb_ge in E1];
    repeat match goal with
    | |- context [?a <=? ?b] => destruct (a <=? b) eqn:?
    | |- context [?a <? ?b] => destruct (a <? b) eqn:?
    end;
    repeat match goal with
    | H : (_ <=? _) = true |- _ => apply Z.leb_le in H
    | H : (_ <=? _) = false |- _ => apply Z.leb_gt in H
    | H : (_ <? _) = true |- _ => apply Z.ltb_lt in H
    | H : (_ <? _) = false |- _ => apply Z.ltb_ge in H
    end; try lia.
  all: Z.div_mod_to_equations; lia.
Qed.

Lemma addFullYear_length (t : Z) :
  addFullYear t - t = 365 * msPerDay ∨ addFullYear t - t = 366 * msPerDay.
Proof.
  unfold addFullYear.
  assert (msPerDay ≠ 0) as Hne by (unfold msPerDay; lia).
  pose proof (Z.div_mod t msPerDay Hne) as Hdm.
  set (q := t / msPerDay) in *. set (r := t `mod` msPerDay) in *.
  clearbody q r. subst t. clear Hne.
  destruct (civil_from_days q) as [[y m] d] eqn:E.
  pose proof (addFullYear_days q y m d E) as H.
  set (D := days_from_civil (y + 1) m d) in *. clearbody D.
  unfold msPerDay. lia.
Qed.

(** X17: the default expiration.  [setFullYear(getFullYear() + 1)] moves an
    instant forward by 365 or by 366 days, never back, so a definition that
    leaves [expires] out is never refused with "Expires cannot be before the
    deadline": its validity depends on [created] and [deadline] alone. *)
Theorem default_expires_accepted (tid : string) (d : TaskDef) (now : Z) :
  expires d = None →
  (addFullYear (deadline d) - deadline d = 365 * msPerDay
   ∨ addFullYear (deadline d) - deadline d = 366 * msPerDay)
  ∧ (∀ e d', patchAndValidateTaskDef tid d now = (Some e, d') →
       message e ≠ "Expires cannot be before the deadline")
  ∧ (now - minutes15 <= created d <= now + minutes15
     ∧ created d <= deadline d
     ∧ now <= deadline d <= now + days5 + minutes15
     ↔ ∃ d', patchAndValidateTaskDef tid d now = (None, d')).
Proof.
  intros Hex.
  pose proof (addFullYear_length (deadline d)) as Hlen.
  pose proof (patchAndValidateTaskDef_detail tid d now) as Hd.
  pose proof (patchAndValidateTaskDef_accepts tid d now) as Hacc.
  pose proof (λ d', patchAndValidateTaskDef_None tid d d' now) as Hnone.
  unfold timestamps_accepted in Hacc, Hnone.
  rewrite Hex in Hd, Hacc, Hnone.
  generalize dependent (addFullYear (deadline d)). intros y Hlen Hd Hacc Hnone.
  change (default y None) with y in Hd, Hacc, Hnone.
  generalize dependent (patchAndValidateTaskDef tid d now).
  intros [r d1] Hd Hacc Hnone. cbn [fst] in Hd.
  assert (deadline d <= y) as Hle by (unfold msPerDay in Hlen; lia).
  split; [exact Hlen|]. split.
  - intros e d' H. injection H as Hr Hd1. rewrite Hr in Hd. clear Hr.
    rewrite (proj2 (Z.ltb_ge y (deadline d))) in Hd by exact Hle.
    destruct (created d <? now - minutes15); [by simplify_eq|].
    destruct (now + minutes15 <? created d); [by simplify_eq|].
    destruct (deadline d <? created d); [by simplify_eq|].
    destruct (deadline d <? now); [by simplify_eq|].
    destruct (days5 + minutes15 <? deadline d - now); by simplify_eq.
  - split.
    + intros H. exists (patched tid d). apply Hacc. lia.
    + intros [d' H]. apply Hnone in H as [Hok _]. lia.
Qed.

(** ** Authorization of task creation *)

(** X18: [authorizeTaskCreation] never fails its assertion: for every
    priority the list of acceptable priorities is the non-empty prefix of
    [PRIORITY_LEVELS] that ends with the priority of the task, normal
    counting as lowest; legacy scopes are asked for exactly for lowest and
    normal; and the definition with the defaults of
    [patchAndValidateTaskDef] filled in is authorized with the same
    parameters. *)
Theorem authorizeTaskCreation_priorities (tid : string) (d : TaskDef) :
  ∃ a,
    authorizeTaskCreation tid d = Some a
    ∧ last (priorities a)
      = Some (if decide (priority d = normal) then lowest else priority d)
    ∧ priorities a `prefix_of` PRIORITY_LEVELS
    ∧ (legacyScopes a = true ↔ priority d = lowest ∨ priority d = normal)
    ∧ au_taskGroupId a = default tid (taskGroupId d)
    ∧ authorizeTaskCreation tid (patched tid d) = Some a.
Proof.
  destruct d as [pv wt sc gid deps rq rts prio rt cr dl ex scs pl md tg xt].
  unfold authorizeTaskCreation, patched.
  destruct gid as [g|], ex as [e|], prio; cbn -[addFullYear];
    (eexists; split; [reflexivity|]);
    (split; [reflexivity|]);
    (split; [eexists; reflexivity|]);
    (split; [split; [intros H; try discriminate H; auto
                    |intros [H|H]; try discriminate H; reflexivity]|]);
    split; reflexivity.
Qed.

(** ** Every operation on a task keeps it within its budget of runs *)

Lemma scheduleTask_modify_step (now : Z) (t : TaskEntity) :
  task_step t (scheduleTask_modify now t).
Proof.
  unfold scheduleTask_modify.
  destruct (runs t) as [|r rs] eqn:Hr; [|apply task_step_refl].
  repeat split. cbn. rewrite Hr. intros i x Hx. by rewrite lookup_nil in Hx.
Qed.

Lemma scheduleTask_modify_ok (now : Z) (t : TaskEntity) :
  task_ok t → task_ok (scheduleTask_modify now t).
Proof.
  intros (Hr & Hb & Hs). unfold scheduleTask_modify.
  destruct (runs t) as [|r rs] eqn:Hrs; [|by rewrite <- Hrs in *].
  unfold task_ok, task_retries in *. cbn. rewrite Hrs in *.
  unfold len in *. cbn in *. repeat split; try lia.
  by repeat constructor.
Qed.

Lemma claim_modify_step (runId : nat) (wg wi : string) (ct now : Z)
    (t : TaskEntity) :
  task_step t (claim_modify runId wg wi ct now t).
Proof.
  unfold claim_modify.
  destruct (runs t !! runId) as [r|] eqn:Hl; [|apply task_step_refl].
  destruct (bool_decide (state r ≠ pending)) eqn:Hp; [apply task_step_refl|].
  apply bool_decide_eq_false in Hp. apply dec_stable in Hp.
  repeat split. cbn. apply append_only_alter.
  intros r' Hr'. rewrite Hl in Hr'. simplify_eq. by rewrite Hp.
Qed.

Lemma claim_modify_ok (runId : nat) (wg wi : string) (ct now : Z)
    (t : TaskEntity) :
  task_ok t → task_ok (claim_modify runId wg wi ct now t).
Proof.
  intros (Hr & Hb & Hs). unfold claim_modify.
  destruct (runs t !! runId) as [r|] eqn:Hl; [|done].
  destruct (bool_decide (state r ≠ pending)); [done|].
  unfold task_ok, task_retries in *. cbn. rewrite len_alter.
  repeat split; try lia. by apply Forall_alter_state.
Qed.

Lemma claimExpired_modify_cases (runId : nat) (u now : Z) (t : TaskEntity) :
  claimExpired_modify runId u now t = t
  ∨ ∃ r, runs t !! runId = Some r ∧ state r = running
         ∧ let rs :=
             alter (resolve_run exception rr_claim_expired now) runId
               (runs t) in
           (claimExpired_modify runId u now t = set_runs rs t
            ∨ 0 < retriesLeft t
              ∧ claimExpired_modify runId u now t
                = mkTask (taskId t) (definition t) (retriesLeft t - 1)
                    (rs ++ [new_run pending rc_retry now]) (takenUntil t)).
Proof.
  unfold claimExpired_modify.
  destruct (runs t !! runId) as [r|] eqn:Hl; [|by left].
  destruct (bool_decide (state r = running)) eqn:Hst; [|by left].
  destruct (bool_decide (run_takenUntil r = Some u)); [|by left].
  apply bool_decide_eq_true in Hst. cbn [andb]. right. exists r.
  split; [done|]. split; [done|]. cbv zeta. cbn [retriesLeft set_runs].
  destruct (0 <? retriesLeft t) eqn:Hpos; [|by left].
  apply Z.ltb_lt in Hpos. right. done.
Qed.

Lemma claimExpired_modify_step (runId : nat) (u now : Z) (t : TaskEntity) :
  task_step t (claimExpired_modify runId u now t).
Proof.
  destruct (claimExpired_modify_cases runId u now t)
    as [->|(r & Hl & Hst & Hcases)]; [apply task_step_refl|].
  assert (Halt : append_only (runs t)
            (alter (resolve_run exception rr_claim_expired now) runId
               (runs t))).
  { apply append_only_alter. intros r' Hr'. rewrite Hl in Hr'.
    simplify_eq. by rewrite Hst. }
  destruct Hcases as [->|(_ & ->)]; repeat split; cbn; [done|].
  eapply append_only_trans; [exact Halt|apply append_only_app].
Qed.

Lemma claimExpired_modify_ok (runId : nat) (u now : Z) (t : TaskEntity) :
  task_ok t → task_ok (claimExpired_modify runId u now t).
Proof.
  intros (Hr & Hb & Hs).
  destruct (claimExpired_modify_cases runId u now t)
    as [->|(r & Hl & Hst & Hcases)]; [done|].
  assert (Hlen : 1 <= len (runs t)).
  { apply lookup_lt_Some in Hl. unfold len. lia. }
  assert (HF : Forall (λ r, state r ≠ unscheduled)
            (alter (resolve_run exception rr_claim_expired now) runId
               (runs t))).
  { by apply Forall_alter_state. }
  destruct Hcases as [->|(Hpos & ->)];
    unfold task_ok, task_retries in *; cbn;
    rewrite ?len_app, ?len_alter.
  - repeat split; try lia. done.
  - change (len [new_run pending rc_retry now]) with 1.
    unfold MAX_RUNS_ALLOWED in *. repeat split; try lia.
    apply Forall_app. split; [done|]. by repeat constructor.
Qed.

Lemma deadline_modify_step (d now : Z) (t : TaskEntity) :
  task_step t (deadline_modify d now t).
Proof.
  unfold deadline_modify.
  destruct (bool_decide (task_deadline t = d)); [|apply task_step_refl].
  destruct (last_state (runs t)) eqn:Hs; try apply task_step_refl.
  - repeat split. cbn. apply append_only_app.
  - apply last_state_lookup in Hs as (r & Hl & Hst); [|done].
    repeat split. cbn. unfold alter_last. apply append_only_alter.
    intros r' Hr'. rewrite Hl in Hr'. simplify_eq. by rewrite Hst.
  - apply last_state_lookup in Hs as (r & Hl & Hst); [|done].
    repeat split. cbn. unfold alter_last. apply append_only_alter.
    intros r' Hr'. rewrite Hl in Hr'. simplify_eq. by rewrite Hst.
Qed.

Lemma deadline_modify_ok (d now : Z) (t : TaskEntity) :
  task_ok t → task_ok (deadline_modify d now t).
Proof.
  intros (Hr & Hb & Hs). unfold deadline_modify.
  destruct (bool_decide (task_deadline t = d)); [|done].
  destruct (last_state (runs t)) eqn:Hst; try done.
  - apply last_state_nil_or in Hst; [|done].
    unfold task_ok, task_retries in *. cbn. rewrite Hst in *.
    unfold len in *. cbn in *. repeat split; try lia.
    by repeat constructor.
  - unfold task_ok, task_retries in *. cbn. unfold alter_last.
    rewrite len_alter. repeat split; try lia.
    by apply Forall_alter_state.
  - unfold task_ok, task_retries in *. cbn. unfold alter_last.
    rewrite len_alter. repeat split; try lia.
    by apply Forall_alter_state.
Qed.

Lemma apply_op_step (ct now : Z) (op : TaskOp) (t : TaskEntity) :
  task_step t (apply_op ct now op t).
Proof.
  destruct op; cbn [apply_op].
  - apply scheduleTask_modify_step.
  - apply rerunTask_modify_step.
  - apply cancelTask_modify_step.
  - apply claim_modify_step.
  - apply reclaimTask_modify_step.
  - apply resolveTask_modify_step.
  - apply reportException_modify_step.
  - apply claimExpired_modify_step.
  - apply deadline_modify_step.
Qed.

Lemma apply_op_ok (ct now : Z) (op : TaskOp) (t : TaskEntity) :
  task_ok t → task_ok (apply_op ct now op t).
Proof.
  intros H. destruct op; cbn [apply_op].
  - by apply scheduleTask_modify_ok.
  - by apply rerunTask_modify_ok.
  - by apply cancelTask_modify_ok.
  - by apply claim_modify_ok.
  - by apply reclaimTask_modify_ok.
  - by apply resolveTask_modify_ok.
  - by apply reportException_modify_ok.
  - by apply claimExpired_modify_ok.
  - by apply deadline_modify_ok.
Qed.


(** ** createTask, twice *)


(** ** The further properties on concrete inputs *)

Lemma def0_accepted : timestamps_accepted now0 def0.
Proof.
  unfold timestamps_accepted. vm_compute. repeat split; discriminate.
Defined.

Lemma def0_accepted_later : timestamps_accepted (now0 + 1000) def0.
Proof.
  unfold timestamps_accepted. vm_compute. repeat split; discriminate.
Defined.

Lemma def0_fits : propertyTooLarge empty_ctx (patched "T1" def0) = false.
Proof. vm_compute. reflexivity. Defined.

Lemma ctx_running_tasks_ok : tasks_ok ctx_running.
Proof.
  intros k t H.
  assert (Task ctx_running = <["T1" := task_running]> ∅) as HT
    by (vm_compute; reflexivity).
  rewrite HT in H. clear HT.
  apply lookup_insert_Some in H as [[_ <-]|[_ H]].
  - split; [vm_compute; split; discriminate|].
    split; [vm_compute; discriminate|].
    constructor; [discriminate|constructor].
  - rewrite lookup_empty in H. discriminate H.
Defined.

(** A failure report and a rerun on the task of [ctx_running]. *)
Lemma requests_append_only_witness :
  ∃ t',
    Task (handle_all ctx_running
            [(req_reportFailed "T1" 0, now0 + 5000);
             (req_rerunTask "T1", now0 + 6000)]) !! "T1" = Some t'
    ∧ taskId t' = taskId task_running
    ∧ definition t' = definition task_running
    ∧ append_only (runs task_running) (runs t').
Proof.
  exact (proj1 (requests_append_only ctx_running
                  [(req_reportFailed "T1" 0, now0 + 5000);
                   (req_rerunTask "T1", now0 + 6000)])
           "T1" task_running ctx_running_task).
Defined.

Lemma requests_keep_run_budget_witness :
  tasks_ok ctx_running
  ∧ tasks_ok (handle_all ctx_running
                [(req_reportException "T1" 0 rr_worker_shutdown, now0 + 5000);
                 (req_cancelTask "T1", now0 + 6000);
                 (req_rerunTask "T1", now0 + 7000)]).
Proof.
  split; [exact ctx_running_tasks_ok|].
  exact (proj1 (requests_keep_run_budget ctx_running _ ctx_running_tasks_ok)).
Defined.

(** A rerun of a running task changes nothing. *)
Lemma rerunTask_cases_witness :
  rerunTask ctx_running "T1" (now0 + 2000)
  = (Reply (status task_running), ctx_running).
Proof.
  destruct (rerunTask_cases ctx_running "T1" (now0 + 2000)) as [_ H].
  destruct (H task_running ctx_running_task) as [_ Hlive].
  destruct Hlive as (_ & Hrun & _).
  { vm_compute. discriminate. }
  apply Hrun. reflexivity.
Defined.

(** The canceled run of [ctx_canceled] cannot be reclaimed. *)
Lemma resolved_run_is_final_witness :
  ∃ e, reclaimTask ctx_canceled "T1" 0 (now0 + 2000)
       = (ReportError e, ctx_canceled)
       ∧ code e = RequestConflict.
Proof.
  assert (∃ task run,
            Task ctx_canceled !! "T1" = Some task
            ∧ runs task !! 0%nat = Some run
            ∧ terminal (state run) = true) as (task & run & H1 & H2 & H3).
  { eexists _, _. split; [vm_compute; reflexivity|].
    split; vm_compute; reflexivity. }
  destruct (resolved_run_is_final ctx_canceled "T1" 0 (now0 + 2000) task run
              H1 H2 H3) as (_ & _ & _ & _ & Hreclaim).
  exact Hreclaim.
Defined.

(** Two failure reports on the run of [ctx_running]. *)
Lemma resolveTask_repeat_witness :
  ∃ st ctx1,
    resolveTask ctx_running "T1" 0 target_failed (now0 + 5000)
    = (Reply st, ctx1)
    ∧ resolveTask ctx1 "T1" 0 target_failed (now0 + 9000) =
        (Reply st,
         emit [putResolvedMessage "T1" (st_taskGroupId st)
                 (st_schedulerId st) (target_state target_failed);
               publish taskFailed st (Some 0%nat)] ctx1).
Proof.
  exact (resolveTask_repeat ctx_running "T1" 0 target_failed (now0 + 5000)
           (now0 + 9000) task_running run_running ctx_running_task
           eq_refl eq_refl eq_refl (or_introl eq_refl)).
Defined.

(** A failure report while a blob artifact is not present. *)
Lemma reportFailed_no_artifact_gate_witness :
  haveAllBlobs (ctx_artifact "blob") "T1" 0 = false
  ∧ ∃ st ctx',
      reportFailed (ctx_artifact "blob") "T1" 0 (now0 + 5000)
      = (Reply st, ctx')
      ∧ st_state st = failed.
Proof.
  split; [vm_compute; reflexivity|].
  eexists _, _. split.
  - apply (reportFailed_no_artifact_gate (ctx_artifact "blob") "T1" 0
             (now0 + 5000) task_running run_running).
    + vm_compute. reflexivity.
    + reflexivity.
    + reflexivity.
    + reflexivity.
  - vm_compute. reflexivity.
Defined.

Lemma unknown_task_or_run_witness :
  ∃ e, cancelTask empty_ctx "T1" now0 = (ReportError e, empty_ctx)
       ∧ code e = ResourceNotFound.
Proof.
  destruct (unknown_task_or_run empty_ctx "T1" 0 now0) as [_ H].
  destruct H as (_ & _ & Hcancel); [reflexivity|].
  exact Hcancel.
Defined.

(** Cancelling the running task of [ctx_running]. *)
Lemma cancelTask_resolves_witness :
  ∃ task' ctx' run,
    cancelTask ctx_running "T1" (now0 + 2000) = (Reply (status task'), ctx')
    ∧ Task ctx' !! "T1" = Some task'
    ∧ last_run (runs task') = Some run
    ∧ terminal (state run) = true
    ∧ terminal (st_state (status task')) = true
    ∧ takenUntil task' = 0.
Proof.
  apply (proj1 (cancelTask_resolves ctx_running "T1" (now0 + 2000))
           task_running ctx_running_task).
  vm_compute. discriminate.
Defined.

(** A reclaim a minute after the claim. *)
Lemma reclaimTask_takenUntil_witness :
  ∃ task' run',
    Task (reclaimTask ctx_running "T1" 0 (now0 + 60000)).2 !! "T1"
    = Some task'
    ∧ runs task' !! 0%nat = Some run'
    ∧ run_takenUntil run'
      = Some (Z.max (now0 + 1000 + 1200 * 1000)
                (now0 + 60000 + claimTimeout ctx_running * 1000)).
Proof.
  destruct (reclaimTask ctx_running "T1" 0 (now0 + 60000))
    as [[r|e] ctx'] eqn:E; [|vm_compute in E; discriminate].
  destruct (reclaimTask_takenUntil ctx_running ctx' "T1" 0 (now0 + 60000)
              (now0 + 1000 + 1200 * 1000) task_running run_running r
              ctx_running_task eq_refl eq_refl E)
    as (_ & t' & r' & H1 & H2 & H3 & _).
  exists t', r'. split; [exact H1|]. split; [exact H2|exact H3].
Defined.

(** The first [createTask] of [T1]. *)
Lemma createTask_fresh_witness :
  ∃ st ctx',
    createTask empty_ctx "T1" def0 now0 = (Reply st, ctx')
    ∧ log ctx' =
        log empty_ctx ++
        [putDeadlineMessage "T1" (default "T1" (taskGroupId def0))
           (schedulerId def0) (deadline def0);
         publish taskDefined st None;
         putPendingMessage "T1" 0;
         publish taskPending st (Some 0%nat)].
Proof.
  destruct (createTask_fresh empty_ctx "T1" def0 now0 def0_accepted
              eq_refl eq_refl def0_fits eq_refl) as (ctx' & H1 & _ & H3 & _).
  - intros g H. vm_compute in H. discriminate.
  - intros a H. vm_compute in H. discriminate.
  - eexists _, ctx'. split; [exact H1|exact H3].
Defined.

Lemma ctx_pending_settled :
  group_settled ctx_pending "T1" (patched "T1" def0).
Proof.
  split; [|split].
  - eexists. split; [vm_compute; reflexivity|].
    split; [vm_compute; reflexivity|]. right. vm_compute. reflexivity.
  - eexists. vm_compute. reflexivity.
  - vm_compute. reflexivity.
Defined.


(** [T1] again, with another priority. *)
Lemma createTask_other_definition_witness :
  ∃ e ctx',
    createTask ctx_pending "T1" (set_priority highest def0) now0
    = (ReportError e, ctx')
    ∧ code e = RequestConflict
    ∧ Task ctx' = Task ctx_pending.
Proof.
  destruct (createTask_other_definition ctx_pending "T1"
              (set_priority highest def0) now0
              (createTask_entity "T1" (patched "T1" def0) now0))
    as (e & ctx' & H1 & H2 & _ & _ & H3 & _).
  - unfold timestamps_accepted. vm_compute. repeat split; discriminate.
  - reflexivity.
  - vm_compute. reflexivity.
  - intros H. apply (f_equal priority) in H. vm_compute in H. discriminate.
  - exists e, ctx'. split; [exact H1|]. split; [|exact H3].
    apply H2. vm_compute. reflexivity.
Defined.

(** [T1] created over an active-set row that an earlier attempt left. *)
Lemma createTask_reported_but_created_witness :
  ∃ e ctx' task,
    createTask (set_TaskGroupActiveSet {[("T1", "T1") := 0]} empty_ctx)
      "T1" def0 now0 = (ReportError e, ctx')
    ∧ code e = RequestConflict
    ∧ Task ctx' !! "T1" = Some task
    ∧ state <$> runs task = [pending].
Proof.
  assert (propertyTooLarge
            (set_TaskGroupActiveSet {[("T1", "T1") := 0]} empty_ctx)
            (patched "T1" def0) = false) as Hfit
    by (vm_compute; reflexivity).
  destruct (createTask_reported_but_created
              (set_TaskGroupActiveSet {[("T1", "T1") := 0]} empty_ctx)
              "T1" def0 now0 0 def0_accepted eq_refl eq_refl Hfit
              eq_refl)
    as (e & ctx' & H1 & H2 & H3 & _).
  - intros g H. vm_compute in H. discriminate.
  - vm_compute. reflexivity.
  - vm_compute. discriminate.
  - exists e, ctx'. eexists. split; [exact H1|]. split; [exact H2|].
    split; [rewrite H3; apply lookup_insert_eq|reflexivity].
Defined.

(** The group tables of [T1], set up once. *)
Lemma ensureTaskGroup_sets_up_witness :
  let ctx' := (ensureTaskGroup empty_ctx "T1" (patched "T1" def0)).2 in
  ensureTaskGroup ctx' "T1" (patched "T1" def0) = (GroupOk None, ctx').
Proof.
  intros ctx'.
  destruct (ensureTaskGroup_sets_up empty_ctx ctx' "T1" (patched "T1" def0)
              None) as (_ & _ & _ & _ & _ & Hagain).
  - vm_compute. discriminate.
  - vm_compute. reflexivity.
  - exact (Hagain eq_refl).
Defined.

(** [defineTask] for the task that [createTask] stored. *)
Lemma defineTask_existing_without_self_witness :
  ∃ e ctx',
    defineTask ctx_pending "T1" def0 now0 = (ReportError e, ctx')
    ∧ Task ctx' = Task ctx_pending
    ∧ code e = RequestConflict.
Proof.
  destruct (defineTask_existing_without_self ctx_pending "T1" def0 now0
              (createTask_entity "T1" (patched "T1" def0) now0))
    as (e & ctx' & H1 & H2 & _ & H3).
  - vm_compute. reflexivity.
  - intros H. vm_compute in H. by apply elem_of_nil in H.
  - exists e, ctx'. split; [exact H1|]. split; [exact H2|].
    apply (H3 def0_accepted). vm_compute. reflexivity.
Defined.

Lemma createTask_defaults_filled_witness :
  createTask ctx_pending "T1" (patched "T1" def0) now0
  = createTask ctx_pending "T1" def0 now0.
Proof.
  exact (proj1 (createTask_defaults_filled ctx_pending "T1" def0 now0)).
Defined.

(** [def0] leaves [expires] out. *)
Lemma default_expires_accepted_witness :
  ∃ d', patchAndValidateTaskDef "T1" def0 now0 = (None, d').
Proof.
  destruct (default_expires_accepted "T1" def0 now0 eq_refl)
    as (_ & _ & Hiff).
  apply Hiff. vm_compute. repeat split; discriminate.
Defined.

(** ** The amended claims on concrete inputs *)




